(** * xt_FLOWOFFLOAD: flow offload admission and hook lifecycle

    A shallow embedding of [net/netfilter/xt_FLOWOFFLOAD.c].

    - C integers are [Z]; bit tests use [Z.testbit], [Z.land], [Z.lor].
    - Pointers to kernel objects are modelled by the object itself together
      with a field that stands for its address where the code compares
      pointers ([dev_ptr], [dst_ptr]); a nullable pointer is an [option].
    - The hook collection of a table ([struct hlist_head hooks]) is a [list]
      whose head is the list head; a hook pointer is an index into it.
    - Code that mutates kernel state is written in the monad [M S], which
      threads the state [S] the function reaches through its pointer
      arguments and the module's globals, records the calls made into other
      subsystems as a list of [event]s, and has a fault outcome for
      executions that leave the C language's defined behaviour (reading past
      an array, dereferencing a null pointer, shifting by a negative
      count).
    - Answers of other subsystems (allocator, routing, neighbour table,
      forwarding-path query, flow store) are inputs of the functions that
      consume them. *)

From Stdlib Require Import ZArith Lia Bool.
From stdpp Require Import base option list.

Local Open Scope Z_scope.

(* ================================================================== *)
(** * Constants of the kernel ABI used by the file *)
(* ================================================================== *)

Definition NF_DROP : Z := 0.
Definition NF_ACCEPT : Z := 1.
Definition XT_CONTINUE : Z := 0xFFFFFFFF.

Definition ETH_P_IP : Z := 0x0800.
Definition ETH_P_IPV6 : Z := 0x86DD.
Definition ETH_ALEN : Z := 6.

Definition NFPROTO_IPV4 : Z := 2.
Definition NFPROTO_IPV6 : Z := 10.
Definition NFPROTO_NETDEV : Z := 5.
Definition NF_NETDEV_INGRESS : Z := 0.

Definition IPPROTO_TCP : Z := 6.
Definition IPPROTO_UDP : Z := 17.
Definition TCP_CONNTRACK_ESTABLISHED : Z := 3.
Definition IP_CT_TCP_FLAG_BE_LIBERAL : Z := 0x08.
Definition IP_CT_IS_REPLY : Z := 3.

Definition IPS_CONFIRMED_BIT : Z := 3.
Definition IPS_SEQ_ADJUST : Z := 0x40.
Definition IPS_OFFLOAD_BIT : Z := 14.

Definition IFF_LOOPBACK : Z := 0x8.
Definition ARPHRD_ETHER : Z := 1.
Definition NUD_VALID : Z := 0xDE.

Definition NF_FLOWTABLE_HW_OFFLOAD : Z := 0x1.
Definition XT_FLOWOFFLOAD_HW : Z := 0x1.

Definition ENOENT : Z := 2.
Definition EAGAIN : Z := 11.
Definition ENOMEM : Z := 12.
Definition EINVAL : Z := 22.

Definition NETDEV_UNREGISTER : Z := 6.
Definition NOTIFY_DONE : Z := 0.

(** The width of [unsigned long], for a 64-bit build. *)
Definition BITS_PER_LONG : Z := 64.

(* ================================================================== *)
(** * Data model *)
(* ================================================================== *)

(** [struct net_device], the fields the file reads.  [dev_ptr] is the
    address of the structure: the code compares devices by pointer. *)
Record net_device := {
  dev_ptr : Z;
  dev_ifindex : Z;
  dev_flags : Z;
  dev_type : Z;
  dev_addr_len : Z;
  dev_addr : list Z;
  dev_nd_net : Z
}.

(** [dev_net(dev)]: the network namespace the device lives in. *)
Definition dev_net (dev : net_device) : Z := dev_nd_net dev.

(** [struct nf_hook_ops].  [ops_priv] points at the [ft] member of one of
    the two global tables; it is modelled by that table's index. *)
Record nf_hook_ops := {
  ops_pf : Z;
  ops_hooknum : Z;
  ops_priority : Z;
  ops_priv : bool;
  ops_dev : net_device
}.

(** [struct xt_flowoffload_hook]; the [list] member is the position of the
    hook in the table's collection. *)
Record xt_flowoffload_hook := {
  hook_ops : nf_hook_ops;
  hook_net : option Z;
  hook_registered : bool;
  hook_used : bool
}.

(** One direction of a stored flow: [struct flow_offload_tuple], the field
    read by the sweeper. *)
Record flow_offload_tuple := { iifidx : Z }.

(** [struct flow_offload]: [tuplehash[0].tuple] and [tuplehash[1].tuple]. *)
Record flow_offload := {
  flow_tuple0 : flow_offload_tuple;
  flow_tuple1 : flow_offload_tuple
}.

(** [struct nf_flowtable]: flags, the bound namespace, and the flow store
    ([rhashtable]) as the list of flows it holds. *)
Record nf_flowtable := {
  ft_flags : Z;
  ft_net : option Z;
  ft_flows : list flow_offload
}.

(** [struct xt_flowoffload_table].  [tbl_work] is the state of the delayed
    work item: [None] when it is not queued, [Some d] when it is queued to
    run after [d] jiffies. *)
Record xt_flowoffload_table := {
  tbl_ft : nf_flowtable;
  tbl_hooks : list xt_flowoffload_hook;
  tbl_work : option Z
}.

(** [struct dst_entry]: a reference-counted routing destination. *)
Record dst_entry := {
  dst_ptr : Z;
  dst_dev : net_device;
  dst_is_xfrm : bool
}.

(** [struct neighbour]: the fields read under [n->lock]. *)
Record neighbour := {
  nud_state : Z;
  neigh_ha : list Z
}.

(** [struct tcphdr]: the two flag bits the admission decision reads. *)
Record tcphdr := {
  tcp_fin : bool;
  tcp_rst : bool
}.

(** [struct sk_buff], as far as the file looks at it.  [skb_sec_path] says
    whether [skb_sec_path(skb)] is non-null, [skb_ip_optlen] is
    [IPCB(skb)->opt.optlen], [skb_nfct] is [Some ctinfo] when a conntrack
    entry is attached to the packet, and [skb_tcph off] is the TCP header
    [skb_header_pointer] finds at offset [off] ([None] when the packet is
    too short). *)
Record sk_buff := {
  skb_protocol : Z;
  skb_sec_path : bool;
  skb_ip_optlen : Z;
  skb_nfct : option Z;
  skb_tcph : Z -> option tcphdr
}.

(** [union nf_inet_addr], with the two views the file reads. *)
Record nf_inet_addr := {
  addr_ip : Z;
  addr_in6 : Z
}.

(** [struct nf_conntrack_tuple]: [src.u3], [dst.u3], [dst.protonum]. *)
Record nf_conntrack_tuple := {
  tuple_src_u3 : nf_inet_addr;
  tuple_dst_u3 : nf_inet_addr;
  tuple_dst_protonum : Z
}.

(** [struct nf_conn].  [ct_ext_helper] is
    [nf_ct_ext_exist(ct, NF_CT_EXT_HELPER)]. *)
Record nf_conn := {
  ct_status : Z;
  ct_tuple_original : nf_conntrack_tuple;
  ct_tuple_reply : nf_conntrack_tuple;
  ct_tcp_state : Z;
  ct_tcp_seen0_flags : Z;
  ct_tcp_seen1_flags : Z;
  ct_ext_helper : bool
}.

(** [struct xt_action_param] with the target info's [flags]. *)
Record xt_action_param := {
  par_family : Z;
  par_thoff : Z;
  par_targinfo_flags : Z;
  par_in : option net_device;
  par_out : option net_device;
  par_net : Z
}.

(** [struct flowi], the members the file fills in after [memset]. *)
Record flowi := {
  fl_saddr : Z;
  fl_daddr : Z;
  fl_oif : Z
}.

Inductive ip_conntrack_dir := IP_CT_DIR_ORIGINAL | IP_CT_DIR_REPLY.

Inductive flow_offload_xmit_type :=
| FLOW_OFFLOAD_XMIT_UNSPEC
| FLOW_OFFLOAD_XMIT_NEIGH
| FLOW_OFFLOAD_XMIT_XFRM
| FLOW_OFFLOAD_XMIT_DIRECT.

Inductive net_device_path_type :=
| DEV_PATH_ETHERNET
| DEV_PATH_VLAN
| DEV_PATH_BRIDGE
| DEV_PATH_PPPOE
| DEV_PATH_DSA.

Inductive bridge_vlan_mode :=
| DEV_PATH_BR_VLAN_KEEP
| DEV_PATH_BR_VLAN_TAG
| DEV_PATH_BR_VLAN_UNTAG
| DEV_PATH_BR_VLAN_UNTAG_HW.

(** [struct net_device_path].  The C structure holds [encap] and [bridge]
    in a union; the model keeps the members of both. *)
Record net_device_path := {
  path_type : net_device_path_type;
  path_dev : option net_device;
  path_encap_id : Z;
  path_encap_proto : Z;
  path_encap_h_dest : list Z;
  path_bridge_vlan_mode : bridge_vlan_mode;
  path_bridge_vlan_id : Z;
  path_bridge_vlan_proto : Z
}.

(** [struct net_device_path_stack]: [stack_path] is the fixed-size array
    [path[NET_DEVICE_PATH_STACK_MAX]], whose capacity is the length of the
    list; slots at and past [num_paths] hold whatever the memory held. *)
Record net_device_path_stack := {
  num_paths : Z;
  stack_path : list net_device_path
}.

(** One entry of the [encap] array of a route tuple. *)
Record encap_entry := {
  encap_id : Z;
  encap_proto : Z
}.

(** One element of [struct nf_flow_route]'s [tuple] array: [dst], the [in]
    and [out] groups, and [xmit_type]. *)
Record nf_flow_route_tuple := {
  rt_dst : option dst_entry;
  in_ifindex : Z;
  in_encap : list encap_entry;
  in_num_encaps : Z;
  in_ingress_vlans : Z;
  out_ifindex : Z;
  out_hw_ifindex : Z;
  out_h_source : list Z;
  out_h_dest : list Z;
  xmit_type : flow_offload_xmit_type
}.

(** [struct nf_flow_route]: [tuple[IP_CT_DIR_ORIGINAL]] and
    [tuple[IP_CT_DIR_REPLY]]. *)
Record nf_flow_route := {
  route_tuple_original : nf_flow_route_tuple;
  route_tuple_reply : nf_flow_route_tuple
}.

Inductive flow_block_command := FLOW_BLOCK_BIND | FLOW_BLOCK_UNBIND.

(** Calls into other subsystems and operations on the hook collection, in
    the order the code makes them. *)
Inductive event :=
| Ev_spin_lock_bh
| Ev_spin_unlock_bh
| Ev_hlist_add_head (hook : xt_flowoffload_hook)
| Ev_hlist_del (hook : xt_flowoffload_hook)
| Ev_nf_register_net_hook (net : Z) (ops : nf_hook_ops)
| Ev_nf_unregister_net_hook (net : option Z) (ops : nf_hook_ops)
| Ev_setup (dev : net_device) (cmd : flow_block_command)
| Ev_kfree (hook : xt_flowoffload_hook)
| Ev_nf_flow_table_cleanup (dev : net_device)
| Ev_nf_route (dst : dst_entry)
| Ev_dst_release (dst : dst_entry)
| Ev_neigh_release
| Ev_flow_offload_alloc (flow : flow_offload)
| Ev_flow_offload_free (flow : flow_offload)
| Ev_flow_offload_add (table : bool) (flow : flow_offload)
| Ev_nf_flow_offload_ip_hook
| Ev_nf_flow_offload_ipv6_hook.

(* ================================================================== *)
(** * The state, event and fault monad *)
(* ================================================================== *)

Definition M (S A : Type) : Type := S -> option (A * S * list event).

Definition ret {S A} (a : A) : M S A := fun s => Some (a, s, []).

Definition bind {S A B} (m : M S A) (k : A -> M S B) : M S B :=
  fun s =>
    match m s with
    | None => None
    | Some (a, s1, l1) =>
        match k a s1 with
        | None => None
        | Some (b, s2, l2) => Some (b, s2, l1 ++ l2)
        end
    end.

Definition fault {S A} : M S A := fun _ => None.
Definition get {S} : M S S := fun s => Some (s, s, []).
Definition put {S} (s : S) : M S unit := fun _ => Some (tt, s, []).
Definition modify {S} (f : S -> S) : M S unit := fun s => Some (tt, f s, []).
Definition emit {S} (e : event) : M S unit := fun s => Some (tt, s, [e]).

Notation "'do' x <- m ; k" := (bind m (fun x => k))
  (at level 10, x name, m at level 100, k at level 200).
Notation "'do' ' p <- m ; k" := (bind m (fun x => match x with p => k end))
  (at level 10, p pattern, m at level 100, k at level 200).
Notation "m '>>>' k" := (bind m (fun _ => k))
  (at level 90, right associativity).

(** Run a computation on a component of a larger state. *)
Definition zoom {S T A} (proj : S -> T) (inj : T -> S -> S) (m : M T A) : M S A :=
  fun s =>
    match m (proj s) with
    | None => None
    | Some (a, t, l) => Some (a, inj t s, l)
    end.

(** Iterate a computation over a list, in order. *)
Fixpoint for_each {S A} (f : A -> M S unit) (l : list A) : M S unit :=
  match l with
  | [] => ret tt
  | x :: l' => f x >>> for_each f l'
  end.

(* ================================================================== *)
(** * Hook registry *)
(* ================================================================== *)

Definition set_hooks (hs : list xt_flowoffload_hook) (t : xt_flowoffload_table)
  : xt_flowoffload_table :=
  {| tbl_ft := tbl_ft t; tbl_hooks := hs; tbl_work := tbl_work t |}.

Definition set_work (w : option Z) (t : xt_flowoffload_table)
  : xt_flowoffload_table :=
  {| tbl_ft := tbl_ft t; tbl_hooks := tbl_hooks t; tbl_work := w |}.

Definition set_ft (ft : nf_flowtable) (t : xt_flowoffload_table)
  : xt_flowoffload_table :=
  {| tbl_ft := ft; tbl_hooks := tbl_hooks t; tbl_work := tbl_work t |}.

Definition set_used (b : bool) (h : xt_flowoffload_hook) : xt_flowoffload_hook :=
  {| hook_ops := hook_ops h; hook_net := hook_net h;
     hook_registered := hook_registered h; hook_used := b |}.

(** [hook->registered = true; hook->net = dev_net(hook->ops.dev);] *)
Definition set_registered (h : xt_flowoffload_hook) : xt_flowoffload_hook :=
  {| hook_ops := hook_ops h; hook_net := Some (dev_net (ops_dev (hook_ops h)));
     hook_registered := true; hook_used := hook_used h |}.

(** [mod_delayed_work(wq, &table->work, delay)]: (re)arms the timer with
    [delay] whether or not the work was queued. *)
Definition mod_delayed_work (delay : Z) : M xt_flowoffload_table unit :=
  modify (set_work (Some delay)).

(** [queue_delayed_work(wq, &table->work, delay)]: queues the work unless it
    is queued already. *)
Definition queue_delayed_work (delay : Z) : M xt_flowoffload_table unit :=
  modify (fun t => match tbl_work t with
                   | None => set_work (Some delay) t
                   | Some _ => t
                   end).

(** The hook [kzalloc] returns, once [xt_flowoffload_create_hook] has filled
    in its [ops]: every other field is zero. *)
Definition new_hook (table : bool) (dev : net_device) : xt_flowoffload_hook :=
  {| hook_ops := {| ops_pf := NFPROTO_NETDEV; ops_hooknum := NF_NETDEV_INGRESS;
                    ops_priority := 10; ops_priv := table; ops_dev := dev |};
     hook_net := None; hook_registered := false; hook_used := false |}.

(** [xt_flowoffload_create_hook].  [kzalloc_ok] is the outcome of the
    [GFP_ATOMIC] allocation; [table] is the index of the table in the global
    array (it is what [ops->priv] records). *)
Definition xt_flowoffload_create_hook (kzalloc_ok : bool) (table : bool)
    (dev : net_device) : M xt_flowoffload_table Z :=
  if negb kzalloc_ok then ret (- ENOMEM)
  else
    emit (Ev_hlist_add_head (new_hook table dev)) >>>
    modify (fun t => set_hooks (new_hook table dev :: tbl_hooks t) t) >>>
    mod_delayed_work 0 >>>
    ret 0.

(** [flow_offload_lookup_hook]: the first hook, from the head, whose
    [ops.dev] is [dev].  The pointer it returns is modelled by the position
    of the hook together with the hook it points at. *)
Fixpoint flow_offload_lookup_hook (hooks : list xt_flowoffload_hook)
    (dev : net_device) : option (nat * xt_flowoffload_hook) :=
  match hooks with
  | [] => None
  | hook :: rest =>
      if dev_ptr (ops_dev (hook_ops hook)) =? dev_ptr dev then Some (0%nat, hook)
      else prod_map S id <$> flow_offload_lookup_hook rest dev
  end.

(** [xt_flowoffload_check_device]. *)
Definition xt_flowoffload_check_device (kzalloc_ok : bool) (table : bool)
    (dev : option net_device) : M xt_flowoffload_table unit :=
  match dev with
  | None => ret tt
  | Some dev =>
      emit Ev_spin_lock_bh >>>
      (do t <- get;
       match flow_offload_lookup_hook (tbl_hooks t) dev with
       | Some (i, hook) =>
           modify (set_hooks (<[i := set_used true hook]> (tbl_hooks t)))
       | None => do _ <- xt_flowoffload_create_hook kzalloc_ok table dev; ret tt
       end) >>>
      emit Ev_spin_unlock_bh
  end.

(* ================================================================== *)
(** * Periodic sweeper *)
(* ================================================================== *)

(** [table->ft.flags & NF_FLOWTABLE_HW_OFFLOAD] *)
Definition hw_offload (t : xt_flowoffload_table) : bool :=
  negb (Z.land (ft_flags (tbl_ft t)) NF_FLOWTABLE_HW_OFFLOAD =? 0).

(** One pass of the [hlist_for_each_entry] loop of
    [xt_flowoffload_register_hooks]: registered hooks are skipped
    ([continue]); the pass stops at the first hook that is not. *)
Fixpoint register_hooks_scan (hooks : list xt_flowoffload_hook)
  : option (nat * xt_flowoffload_hook) :=
  match hooks with
  | [] => None
  | hook :: rest =>
      if hook_registered hook then prod_map S id <$> register_hooks_scan rest
      else Some (0%nat, hook)
  end.

(** [xt_flowoffload_register_hooks] from its [restart:] label; every
    [goto restart] consumes one unit of [fuel], and running out of it is a
    fault. *)
Fixpoint register_hooks_restart (fuel : nat) : M xt_flowoffload_table unit :=
  match fuel with
  | O => fault
  | S fuel' =>
      do t <- get;
      match register_hooks_scan (tbl_hooks t) with
      | None => ret tt
      | Some (i, hook) =>
          modify (set_hooks (<[i := set_registered hook]> (tbl_hooks t))) >>>
          emit Ev_spin_unlock_bh >>>
          emit (Ev_nf_register_net_hook (dev_net (ops_dev (hook_ops hook)))
                                        (hook_ops hook)) >>>
          (if hw_offload t
           then emit (Ev_setup (ops_dev (hook_ops hook)) FLOW_BLOCK_BIND)
           else ret tt) >>>
          emit Ev_spin_lock_bh >>>
          register_hooks_restart fuel'
      end
  end.

(** [xt_flowoffload_register_hooks].  Each restart follows the registration
    of one more hook, so the loop restarts at most once per hook and makes
    one last pass that finds nothing to do. *)
Definition xt_flowoffload_register_hooks : M xt_flowoffload_table unit :=
  do t <- get;
  register_hooks_restart (S (length (tbl_hooks t))).

(** One pass of the loop of [xt_flowoffload_cleanup_hooks]: hooks that are
    used or not yet registered set [active] and are skipped; the pass stops
    at the first hook that is registered and unused.  The result is the
    value the pass gives [active] and the hook it stopped at. *)
Fixpoint cleanup_hooks_scan (hooks : list xt_flowoffload_hook)
  : bool * option (nat * xt_flowoffload_hook) :=
  match hooks with
  | [] => (false, None)
  | hook :: rest =>
      if hook_used hook || negb (hook_registered hook)
      then (true, prod_map S id <$> (cleanup_hooks_scan rest).2)
      else (false, Some (0%nat, hook))
  end.

(** [xt_flowoffload_cleanup_hooks] from its [restart:] label, [active]
    being the local variable of that name; every [goto restart] consumes one
    unit of [fuel], and running out of it is a fault. *)
Fixpoint cleanup_hooks_restart (fuel : nat) (active : bool)
  : M xt_flowoffload_table bool :=
  match fuel with
  | O => fault
  | S fuel' =>
      emit Ev_spin_lock_bh >>>
      do t <- get;
      match cleanup_hooks_scan (tbl_hooks t) with
      | (seen, None) =>
          emit Ev_spin_unlock_bh >>>
          ret (active || seen)
      | (seen, Some (i, hook)) =>
          emit (Ev_hlist_del hook) >>>
          modify (set_hooks (delete i (tbl_hooks t))) >>>
          emit Ev_spin_unlock_bh >>>
          (if hw_offload t
           then emit (Ev_setup (ops_dev (hook_ops hook)) FLOW_BLOCK_UNBIND)
           else ret tt) >>>
          emit (Ev_nf_unregister_net_hook (hook_net hook) (hook_ops hook)) >>>
          emit (Ev_kfree hook) >>>
          cleanup_hooks_restart fuel' (active || seen)
      end
  end.

(** [xt_flowoffload_cleanup_hooks]: each restart follows the removal of one
    hook. *)
Definition xt_flowoffload_cleanup_hooks : M xt_flowoffload_table bool :=
  do t <- get;
  cleanup_hooks_restart (S (length (tbl_hooks t))) false.

(** The body of the loop of [xt_flowoffload_check_hook] for one hook. *)
Definition check_hook_mark (flow : flow_offload) (hook : xt_flowoffload_hook)
  : xt_flowoffload_hook :=
  if negb (dev_ifindex (ops_dev (hook_ops hook)) =? iifidx (flow_tuple0 flow)) &&
     negb (dev_ifindex (ops_dev (hook_ops hook)) =? iifidx (flow_tuple1 flow))
  then hook
  else set_used true hook.

(** [xt_flowoffload_check_hook], the callback of the flow iteration. *)
Definition xt_flowoffload_check_hook (flow : flow_offload)
  : M xt_flowoffload_table unit :=
  emit Ev_spin_lock_bh >>>
  modify (fun t => set_hooks (map (check_hook_mark flow) (tbl_hooks t)) t) >>>
  emit Ev_spin_unlock_bh.

(** Modelled from the spec: [nf_flow_table_iterate] belongs to the flow
    store (nf_flow_table_core.c).  It invokes the callback once per stored
    flow and returns 0, unless the walk is cut short: [stop = Some (n, err)]
    says the walk ended after [n] flows with the error code [err] (a retry
    request, [-EAGAIN], or another error). *)
Definition nf_flow_table_iterate (stop : option (nat * Z))
    (iter : flow_offload -> M xt_flowoffload_table unit)
  : M xt_flowoffload_table Z :=
  do t <- get;
  match stop with
  | None => for_each iter (ft_flows (tbl_ft t)) >>> ret 0
  | Some (n, err) => for_each iter (take n (ft_flows (tbl_ft t))) >>> ret err
  end.

Section Sweeper.

(** Jiffies per second, a build-time constant of the kernel. *)
Variable HZ : Z.

(** [xt_flowoffload_hook_work]. *)
Definition xt_flowoffload_hook_work (stop : option (nat * Z))
  : M xt_flowoffload_table unit :=
  emit Ev_spin_lock_bh >>>
  xt_flowoffload_register_hooks >>>
  modify (fun t => set_hooks (map (set_used false) (tbl_hooks t)) t) >>>
  emit Ev_spin_unlock_bh >>>
  do err <- nf_flow_table_iterate stop xt_flowoffload_check_hook;
  if negb (err =? 0) && negb (err =? - EAGAIN)
  then queue_delayed_work HZ
  else
    do active <- xt_flowoffload_cleanup_hooks;
    if negb active then ret tt
    else queue_delayed_work HZ.

(** Modelled from the spec: one sweep cycle as the workqueue runs it.  The
    workqueue core (kernel/workqueue.c) marks the work item as no longer
    queued before it calls the handler, so that the handler can queue it
    again. *)
Definition process_one_work (stop : option (nat * Z))
  : M xt_flowoffload_table unit :=
  modify (set_work None) >>>
  xt_flowoffload_hook_work stop.

(** [n] sweep cycles in a row, each with its own outcome of the flow
    iteration. *)
Fixpoint sweep_cycles (stops : list (option (nat * Z)))
  : M xt_flowoffload_table unit :=
  match stops with
  | [] => ret tt
  | stop :: rest => process_one_work stop >>> sweep_cycles rest
  end.

End Sweeper.

(* ================================================================== *)
(** * Device lifecycle observer *)
(* ================================================================== *)

(** The global [flowtable[2]]. *)
Definition flowtables : Type := xt_flowoffload_table * xt_flowoffload_table.

Definition get_table (i : bool) (ts : flowtables) : xt_flowoffload_table :=
  if i then ts.2 else ts.1.

Definition set_table (i : bool) (t : xt_flowoffload_table) (ts : flowtables)
  : flowtables :=
  if i then (ts.1, t) else (t, ts.2).

Definition on_table {A} (i : bool) (m : M xt_flowoffload_table A)
  : M flowtables A :=
  zoom (get_table i) (set_table i) m.

(** [hook = flow_offload_lookup_hook(table, dev); if (hook)
    hlist_del(&hook->list);] *)
Definition lookup_and_del (dev : net_device)
  : M xt_flowoffload_table (option xt_flowoffload_hook) :=
  do t <- get;
  match flow_offload_lookup_hook (tbl_hooks t) dev with
  | Some (i, hook) =>
      emit (Ev_hlist_del hook) >>>
      modify (set_hooks (delete i (tbl_hooks t))) >>>
      ret (Some hook)
  | None => ret None
  end.

(** [if (hook) { nf_unregister_net_hook(hook->net, &hook->ops);
    kfree(hook); }] *)
Definition unregister_and_free {S} (hook : option xt_flowoffload_hook)
  : M S unit :=
  match hook with
  | Some hook =>
      emit (Ev_nf_unregister_net_hook (hook_net hook) (hook_ops hook)) >>>
      emit (Ev_kfree hook)
  | None => ret tt
  end.

(** [flow_offload_netdev_event]; [dev] is
    [netdev_notifier_info_to_dev(ptr)]. *)
Definition flow_offload_netdev_event (event : Z) (dev : net_device)
  : M flowtables Z :=
  if negb (event =? NETDEV_UNREGISTER) then ret NOTIFY_DONE
  else
    emit Ev_spin_lock_bh >>>
    do hook0 <- on_table false (lookup_and_del dev);
    do hook1 <- on_table true (lookup_and_del dev);
    emit Ev_spin_unlock_bh >>>
    unregister_and_free hook0 >>>
    unregister_and_free hook1 >>>
    emit (Ev_nf_flow_table_cleanup dev) >>>
    ret NOTIFY_DONE.

(* ================================================================== *)
(** * Ingress interception hook *)
(* ================================================================== *)

(** [atomic_read(&ft->rhashtable.nelems)]: the number of entries of the
    flow store; the store keeps one entry per direction of a flow. *)
Definition rhashtable_nelems (ft : nf_flowtable) : Z :=
  2 * Z.of_nat (length (ft_flows ft)).

Section Ingress.

(** Byte order of the CPU, which decides what [htons] does. *)
Variable cpu_big_endian : bool.

(** Verdicts of the fast-path functions of the flow-table engine. *)
Variable nf_flow_offload_ip_hook : nf_flowtable -> sk_buff -> Z.
Variable nf_flow_offload_ipv6_hook : nf_flowtable -> sk_buff -> Z.

Definition htons (x : Z) : Z :=
  if cpu_big_endian then x
  else Z.lor (Z.shiftl (Z.land x 0xFF) 8) (Z.land (Z.shiftr x 8) 0xFF).

(** [xt_flowoffload_net_hook]; the state is the flow table [priv] points
    at. *)
Definition xt_flowoffload_net_hook (skb : sk_buff) : M nf_flowtable Z :=
  do ft <- get;
  if rhashtable_nelems ft =? 0 then ret NF_ACCEPT
  else if skb_protocol skb =? htons ETH_P_IP then
    emit Ev_nf_flow_offload_ip_hook >>>
    ret (nf_flow_offload_ip_hook ft skb)
  else if skb_protocol skb =? htons ETH_P_IPV6 then
    emit Ev_nf_flow_offload_ipv6_hook >>>
    ret (nf_flow_offload_ipv6_hook ft skb)
  else ret NF_ACCEPT.

(** [nf_flow_offload_inet_hook], the [hook] member of [flowtable_inet]; the
    state is the flow table [priv] points at. *)
Definition nf_flow_offload_inet_hook (skb : sk_buff) : M nf_flowtable Z :=
  do ft <- get;
  if skb_protocol skb =? htons ETH_P_IP then
    emit Ev_nf_flow_offload_ip_hook >>>
    ret (nf_flow_offload_ip_hook ft skb)
  else if skb_protocol skb =? htons ETH_P_IPV6 then
    emit Ev_nf_flow_offload_ipv6_hook >>>
    ret (nf_flow_offload_ipv6_hook ft skb)
  else ret NF_ACCEPT.

End Ingress.

(* ================================================================== *)
(** * Path resolver *)
(* ================================================================== *)

Definition dir_not (dir : ip_conntrack_dir) : ip_conntrack_dir :=
  match dir with
  | IP_CT_DIR_ORIGINAL => IP_CT_DIR_REPLY
  | IP_CT_DIR_REPLY => IP_CT_DIR_ORIGINAL
  end.

(** [route->tuple[dir]] *)
Definition route_tuple (dir : ip_conntrack_dir) (route : nf_flow_route)
  : nf_flow_route_tuple :=
  match dir with
  | IP_CT_DIR_ORIGINAL => route_tuple_original route
  | IP_CT_DIR_REPLY => route_tuple_reply route
  end.

Definition set_route_tuple (dir : ip_conntrack_dir) (t : nf_flow_route_tuple)
    (route : nf_flow_route) : nf_flow_route :=
  match dir with
  | IP_CT_DIR_ORIGINAL =>
      {| route_tuple_original := t; route_tuple_reply := route_tuple_reply route |}
  | IP_CT_DIR_REPLY =>
      {| route_tuple_original := route_tuple_original route; route_tuple_reply := t |}
  end.

(** [ct->tuplehash[dir].tuple] *)
Definition ct_tuple (dir : ip_conntrack_dir) (ct : nf_conn) : nf_conntrack_tuple :=
  match dir with
  | IP_CT_DIR_ORIGINAL => ct_tuple_original ct
  | IP_CT_DIR_REPLY => ct_tuple_reply ct
  end.

Definition set_rt_dst (d : option dst_entry) (xt : flow_offload_xmit_type)
    (t : nf_flow_route_tuple) : nf_flow_route_tuple :=
  {| rt_dst := d; in_ifindex := in_ifindex t; in_encap := in_encap t;
     in_num_encaps := in_num_encaps t; in_ingress_vlans := in_ingress_vlans t;
     out_ifindex := out_ifindex t; out_hw_ifindex := out_hw_ifindex t;
     out_h_source := out_h_source t; out_h_dest := out_h_dest t;
     xmit_type := xt |}.

Definition set_in_ifindex (i : Z) (t : nf_flow_route_tuple) : nf_flow_route_tuple :=
  {| rt_dst := rt_dst t; in_ifindex := i; in_encap := in_encap t;
     in_num_encaps := in_num_encaps t; in_ingress_vlans := in_ingress_vlans t;
     out_ifindex := out_ifindex t; out_hw_ifindex := out_hw_ifindex t;
     out_h_source := out_h_source t; out_h_dest := out_h_dest t;
     xmit_type := xmit_type t |}.

Definition set_in_encaps (n : Z) (encap : list encap_entry)
    (t : nf_flow_route_tuple) : nf_flow_route_tuple :=
  {| rt_dst := rt_dst t; in_ifindex := in_ifindex t; in_encap := encap;
     in_num_encaps := n; in_ingress_vlans := in_ingress_vlans t;
     out_ifindex := out_ifindex t; out_hw_ifindex := out_hw_ifindex t;
     out_h_source := out_h_source t; out_h_dest := out_h_dest t;
     xmit_type := xmit_type t |}.

Definition set_in_ingress_vlans (v : Z) (t : nf_flow_route_tuple)
  : nf_flow_route_tuple :=
  {| rt_dst := rt_dst t; in_ifindex := in_ifindex t; in_encap := in_encap t;
     in_num_encaps := in_num_encaps t; in_ingress_vlans := v;
     out_ifindex := out_ifindex t; out_hw_ifindex := out_hw_ifindex t;
     out_h_source := out_h_source t; out_h_dest := out_h_dest t;
     xmit_type := xmit_type t |}.

Definition set_out_ifindex (i : Z) (t : nf_flow_route_tuple) : nf_flow_route_tuple :=
  {| rt_dst := rt_dst t; in_ifindex := in_ifindex t; in_encap := in_encap t;
     in_num_encaps := in_num_encaps t; in_ingress_vlans := in_ingress_vlans t;
     out_ifindex := i; out_hw_ifindex := out_hw_ifindex t;
     out_h_source := out_h_source t; out_h_dest := out_h_dest t;
     xmit_type := xmit_type t |}.

Definition set_out_hw_ifindex (i : Z) (t : nf_flow_route_tuple)
  : nf_flow_route_tuple :=
  {| rt_dst := rt_dst t; in_ifindex := in_ifindex t; in_encap := in_encap t;
     in_num_encaps := in_num_encaps t; in_ingress_vlans := in_ingress_vlans t;
     out_ifindex := out_ifindex t; out_hw_ifindex := i;
     out_h_source := out_h_source t; out_h_dest := out_h_dest t;
     xmit_type := xmit_type t |}.

Definition set_out_h_source (a : list Z) (t : nf_flow_route_tuple)
  : nf_flow_route_tuple :=
  {| rt_dst := rt_dst t; in_ifindex := in_ifindex t; in_encap := in_encap t;
     in_num_encaps := in_num_encaps t; in_ingress_vlans := in_ingress_vlans t;
     out_ifindex := out_ifindex t; out_hw_ifindex := out_hw_ifindex t;
     out_h_source := a; out_h_dest := out_h_dest t;
     xmit_type := xmit_type t |}.

Definition set_out_h_dest (a : list Z) (t : nf_flow_route_tuple)
  : nf_flow_route_tuple :=
  {| rt_dst := rt_dst t; in_ifindex := in_ifindex t; in_encap := in_encap t;
     in_num_encaps := in_num_encaps t; in_ingress_vlans := in_ingress_vlans t;
     out_ifindex := out_ifindex t; out_hw_ifindex := out_hw_ifindex t;
     out_h_source := out_h_source t; out_h_dest := a;
     xmit_type := xmit_type t |}.

Definition set_xmit_type (x : flow_offload_xmit_type) (t : nf_flow_route_tuple)
  : nf_flow_route_tuple :=
  set_rt_dst (rt_dst t) x t.

(** Update [route->tuple[dir]] in place. *)
Definition upd_tuple (dir : ip_conntrack_dir)
    (f : nf_flow_route_tuple -> nf_flow_route_tuple) (route : nf_flow_route)
  : nf_flow_route :=
  set_route_tuple dir (f (route_tuple dir route)) route.

Definition xmit_type_eqb (a b : flow_offload_xmit_type) : bool :=
  match a, b with
  | FLOW_OFFLOAD_XMIT_UNSPEC, FLOW_OFFLOAD_XMIT_UNSPEC
  | FLOW_OFFLOAD_XMIT_NEIGH, FLOW_OFFLOAD_XMIT_NEIGH
  | FLOW_OFFLOAD_XMIT_XFRM, FLOW_OFFLOAD_XMIT_XFRM
  | FLOW_OFFLOAD_XMIT_DIRECT, FLOW_OFFLOAD_XMIT_DIRECT => true
  | _, _ => false
  end.

(** [memcpy(dst, src, ETH_ALEN)] into a six-byte array. *)
Definition memcpy_eth (src : list Z) : list Z := take (Z.to_nat ETH_ALEN) src.

(** [is_valid_ether_addr] (linux/etherdevice.h): neither a multicast
    address (low bit of the first byte set) nor all zero. *)
Definition is_valid_ether_addr (addr : list Z) : bool :=
  negb (Z.testbit (nth 0 addr 0) 0) &&
  negb (forallb (fun b => b =? 0) (memcpy_eth addr)).

(** The test both [flow_is_valid_ether_device] and the path resolver apply
    to a device that is known not to be null. *)
Definition ether_device_ok (dev : net_device) : bool :=
  negb (negb (Z.land (dev_flags dev) IFF_LOOPBACK =? 0) ||
        negb (dev_type dev =? ARPHRD_ETHER) ||
        negb (dev_addr_len dev =? ETH_ALEN) ||
        negb (is_valid_ether_addr (dev_addr dev))).

(** [flow_is_valid_ether_device] *)
Definition flow_is_valid_ether_device (dev : option net_device) : bool :=
  match dev with
  | None => false
  | Some dev => ether_device_ok dev
  end.

(** The local variables of the walk that outlive one iteration, and the
    route the walk updates through its pointer. *)
Record walk_state := {
  ws_route : nf_flow_route;
  ws_dev : option net_device;
  ws_last : bool
}.

Section Resolver.

(** [NF_FLOW_TABLE_ENCAP_MAX], the capacity of the [encap] array, and the
    width in bits of the unsigned bit-fields [num_encaps] and
    [ingress_vlans] of [struct nf_flow_route]; both are declared in
    net/netfilter/nf_flow_table.h. *)
Variable NF_FLOW_TABLE_ENCAP_MAX : Z.
Variable ENCAP_FIELD_BITS : Z.

(** Answers of the neighbour table and of the forwarding-path query. *)
Variable dst_neigh_lookup : dst_entry -> nf_inet_addr -> option neighbour.
Variable dev_fill_forward_path :
  net_device -> list Z -> Z * net_device_path_stack.

(** Storing into a bit-field keeps the low [ENCAP_FIELD_BITS] bits. *)
Definition bitfield (x : Z) : Z := x mod 2 ^ ENCAP_FIELD_BITS.

(** The three statements that add an encapsulation layer:
    [num_encaps++; encap[n_encaps].id = id; encap[n_encaps].proto = proto]. *)
Definition push_encap (n_encaps id proto : Z) (t : nf_flow_route_tuple)
  : nf_flow_route_tuple :=
  set_in_encaps (bitfield (in_num_encaps t + 1))
    (<[Z.to_nat n_encaps := {| encap_id := id; encap_proto := proto |}]> (in_encap t))
    t.

Definition with_last (s : walk_state) : walk_state :=
  {| ws_route := ws_route s; ws_dev := ws_dev s; ws_last := true |}.

(** [BIT(nr)], that is [1UL << nr]: the shift is defined for a count from 0
    to [BITS_PER_LONG - 1] only. *)
Definition BIT (nr : Z) : option Z :=
  if (0 <=? nr) && (nr <? BITS_PER_LONG) then Some (Z.shiftl 1 nr) else None.

(** The body of the [for] loop of [xt_flowoffload_route_check_path] for the
    index [i] and the segment [path = &stack.path[i]], up to but excluding
    the final [if (last) break;].  [None] is an iteration that leaves
    defined behaviour: [BIT(n_encaps - 1)] with no layer on the stack. *)
Definition path_step (dir : ip_conntrack_dir) (stack_num_paths i : Z)
    (path : net_device_path) (s : walk_state) : option walk_state :=
  let n_encaps := in_num_encaps (route_tuple (dir_not dir) (ws_route s)) in
  let dev := path_dev path in
  let route :=
    if flow_is_valid_ether_device dev then
      match dev with
      | Some d =>
          let route :=
            if negb (xmit_type_eqb (xmit_type (route_tuple dir (ws_route s)))
                                   FLOW_OFFLOAD_XMIT_DIRECT)
            then upd_tuple dir (fun t => set_out_ifindex (dev_ifindex d)
                                  (set_out_h_source (memcpy_eth (dev_addr d)) t))
                   (ws_route s)
            else ws_route s in
          upd_tuple dir (set_xmit_type FLOW_OFFLOAD_XMIT_DIRECT) route
      | None => ws_route s
      end
    else ws_route s in
  let s := {| ws_route := route; ws_dev := dev; ws_last := ws_last s |} in
  let upd f := {| ws_route := f route; ws_dev := dev; ws_last := ws_last s |} in
  match path_type path with
  | DEV_PATH_PPPOE | DEV_PATH_VLAN =>
      if (n_encaps >=? NF_FLOW_TABLE_ENCAP_MAX) || (i =? stack_num_paths)
      then Some (with_last s)
      else
        Some (upd (fun route =>
          let route :=
            upd_tuple (dir_not dir)
              (push_encap n_encaps (path_encap_id path) (path_encap_proto path))
              route in
          match path_type path with
          | DEV_PATH_PPPOE =>
              upd_tuple dir (set_out_h_dest (memcpy_eth (path_encap_h_dest path)))
                route
          | _ => route
          end))
  | DEV_PATH_BRIDGE =>
      match path_bridge_vlan_mode path with
      | DEV_PATH_BR_VLAN_TAG =>
          if (n_encaps >=? NF_FLOW_TABLE_ENCAP_MAX) || (i =? stack_num_paths)
          then Some (with_last s)
          else
            Some (upd (upd_tuple (dir_not dir)
                         (push_encap n_encaps (path_bridge_vlan_id path)
                                              (path_bridge_vlan_proto path))))
      | DEV_PATH_BR_VLAN_UNTAG =>
          Some (upd (upd_tuple (dir_not dir)
                       (fun t => set_in_encaps (bitfield (in_num_encaps t - 1))
                                   (in_encap t) t)))
      | DEV_PATH_BR_VLAN_UNTAG_HW =>
          match BIT (n_encaps - 1) with
          | None => None
          | Some bit =>
              Some (upd (upd_tuple (dir_not dir)
                           (fun t => set_in_ingress_vlans
                                       (bitfield (Z.lor (in_ingress_vlans t) bit))
                                       t)))
          end
      | DEV_PATH_BR_VLAN_KEEP => Some s
      end
  | _ => Some (with_last s)
  end.

(** The [for (i = ...; i <= stack.num_paths; i++)] loop from index [i]
    on, for at most [fuel] iterations.  [&stack.path[i]] is read from the
    array; an index outside of it leaves defined behaviour ([None]), and so
    does an iteration that does. *)
Fixpoint path_walk (fuel : nat) (dir : ip_conntrack_dir)
    (stack : net_device_path_stack) (i : Z) (s : walk_state)
  : option walk_state :=
  match fuel with
  | O => Some s
  | S fuel' =>
      if i <=? num_paths stack then
        match stack_path stack !! Z.to_nat i with
        | None => None
        | Some path =>
            match path_step dir (num_paths stack) i path s with
            | None => None
            | Some s' =>
                if ws_last s' then Some s'
                else path_walk fuel' dir stack (i + 1) s'
            end
        end
      else Some s
  end.

(** The whole loop: it runs for the indices [0 .. stack.num_paths], that
    is for [stack.num_paths + 1] iterations at most. *)
Definition path_walk_all (dir : ip_conntrack_dir) (stack : net_device_path_stack)
    (s : walk_state) : option walk_state :=
  path_walk (Z.to_nat (num_paths stack + 1)) dir stack 0 s.

(** [xt_flowoffload_route_check_path].  [out_dev] is the value of
    [*out_dev] on entry; the result carries the route and [*out_dev] on
    return. *)
Definition xt_flowoffload_route_check_path {S} (route : nf_flow_route)
    (ct : nf_conn) (dir : ip_conntrack_dir) (out_dev : option net_device)
  : M S (nf_flow_route * option net_device) :=
  match rt_dst (route_tuple dir route) with
  | None => fault
  | Some dst =>
      let daddr := tuple_src_u3 (ct_tuple (dir_not dir) ct) in
      let dev := dst_dev dst in
      let route := upd_tuple (dir_not dir) (set_in_ifindex (dev_ifindex dev)) route in
      let route := upd_tuple dir (set_out_ifindex (dev_ifindex dev)) route in
      if xmit_type_eqb (xmit_type (route_tuple dir route)) FLOW_OFFLOAD_XMIT_XFRM
      then ret (route, out_dev)
      else if negb (ether_device_ok dev) then ret (route, out_dev)
      else
        match dst_neigh_lookup dst daddr with
        | None => ret (route, out_dev)
        | Some n =>
            let route :=
              upd_tuple dir (set_out_h_dest (memcpy_eth (neigh_ha n))) route in
            emit Ev_neigh_release >>>
            if Z.land (nud_state n) NUD_VALID =? 0 then ret (route, out_dev)
            else
              let '(rc, stack) :=
                dev_fill_forward_path dev (out_h_dest (route_tuple dir route)) in
              if negb (rc =? 0) || (num_paths stack =? 0)
              then ret (route, out_dev)
              else
                match path_walk_all dir stack
                        {| ws_route := route; ws_dev := Some dev;
                           ws_last := false |} with
                | None => fault
                | Some s =>
                    match ws_dev s with
                    | None => fault
                    | Some dev =>
                        let route := ws_route s in
                        let route :=
                          upd_tuple dir (set_out_hw_ifindex (dev_ifindex dev))
                            route in
                        let route :=
                          upd_tuple (dir_not dir)
                            (set_in_ifindex (dev_ifindex dev)) route in
                        ret (route, Some dev)
                    end
                end
        end
  end.

End Resolver.

(* ================================================================== *)
(** * Offload admission decision *)
(* ================================================================== *)

(** What [flowoffload_tg] reaches through its arguments and the globals:
    the packet, the conntrack entry attached to it, and [flowtable[2]]. *)
Record world := {
  w_skb : sk_buff;
  w_ct : nf_conn;
  w_flowtable : flowtables
}.

Definition set_w_ct (ct : nf_conn) (w : world) : world :=
  {| w_skb := w_skb w; w_ct := ct; w_flowtable := w_flowtable w |}.

Definition set_w_flowtable (ts : flowtables) (w : world) : world :=
  {| w_skb := w_skb w; w_ct := w_ct w; w_flowtable := ts |}.

Definition set_ct_status (st : Z) (ct : nf_conn) : nf_conn :=
  {| ct_status := st; ct_tuple_original := ct_tuple_original ct;
     ct_tuple_reply := ct_tuple_reply ct; ct_tcp_state := ct_tcp_state ct;
     ct_tcp_seen0_flags := ct_tcp_seen0_flags ct;
     ct_tcp_seen1_flags := ct_tcp_seen1_flags ct;
     ct_ext_helper := ct_ext_helper ct |}.

Definition set_ct_seen_flags (f0 f1 : Z) (ct : nf_conn) : nf_conn :=
  {| ct_status := ct_status ct; ct_tuple_original := ct_tuple_original ct;
     ct_tuple_reply := ct_tuple_reply ct; ct_tcp_state := ct_tcp_state ct;
     ct_tcp_seen0_flags := f0; ct_tcp_seen1_flags := f1;
     ct_ext_helper := ct_ext_helper ct |}.

Definition set_ft_net (n : option Z) (ft : nf_flowtable) : nf_flowtable :=
  {| ft_flags := ft_flags ft; ft_net := n; ft_flows := ft_flows ft |}.

Definition set_ft_flows (fl : list flow_offload) (ft : nf_flowtable) : nf_flowtable :=
  {| ft_flags := ft_flags ft; ft_net := ft_net ft; ft_flows := fl |}.

(** Run a computation on the conntrack entry, on both tables, on one
    table. *)
Definition on_ct {A} (m : M nf_conn A) : M world A :=
  zoom w_ct set_w_ct m.

Definition on_flowtable {A} (m : M flowtables A) : M world A :=
  zoom w_flowtable set_w_flowtable m.

Definition on_world_table {A} (i : bool) (m : M xt_flowoffload_table A)
  : M world A :=
  on_flowtable (on_table i m).

(** [test_and_set_bit(nr, &ct->status)]: sets the bit and returns its old
    value. *)
Definition test_and_set_bit (nr : Z) : M nf_conn bool :=
  do ct <- get;
  modify (set_ct_status (Z.setbit (ct_status ct) nr)) >>>
  ret (Z.testbit (ct_status ct) nr).

(** [clear_bit(nr, &ct->status)] *)
Definition clear_bit (nr : Z) : M nf_conn unit :=
  modify (fun ct => set_ct_status (Z.clearbit (ct_status ct) nr) ct).

(** [nf_ct_is_confirmed] *)
Definition nf_ct_is_confirmed (ct : nf_conn) : bool :=
  Z.testbit (ct_status ct) IPS_CONFIRMED_BIT.

(** [CTINFO2DIR] *)
Definition CTINFO2DIR (ctinfo : Z) : ip_conntrack_dir :=
  if ctinfo >=? IP_CT_IS_REPLY then IP_CT_DIR_REPLY else IP_CT_DIR_ORIGINAL.

(** [xt_flowoffload_skip] *)
Definition xt_flowoffload_skip (skb : sk_buff) (family : Z) : bool :=
  if skb_sec_path skb then true
  else if (family =? NFPROTO_IPV4) && negb (skb_ip_optlen skb =? 0) then true
  else false.

(** The local array [devs[2]], indexed by direction. *)
Definition devs_t : Type := option net_device * option net_device.

Definition devs_get (dir : ip_conntrack_dir) (devs : devs_t) : option net_device :=
  match dir with
  | IP_CT_DIR_ORIGINAL => devs.1
  | IP_CT_DIR_REPLY => devs.2
  end.

Definition devs_set (dir : ip_conntrack_dir) (d : option net_device)
    (devs : devs_t) : devs_t :=
  match dir with
  | IP_CT_DIR_ORIGINAL => (d, devs.2)
  | IP_CT_DIR_REPLY => (devs.1, d)
  end.

(** [dst_release(dst)]: a null pointer is ignored. *)
Definition dst_release {S} (dst : option dst_entry) : M S unit :=
  match dst with
  | Some d => emit (Ev_dst_release d)
  | None => ret tt
  end.

(** Answers of the subsystems the admission decision calls into, for one
    invocation.
    - [nf_route net fl family]: the routing lookup; [Some dst] hands the
      caller one reference on [dst].
    - [dst_neigh_lookup], [dev_fill_forward_path]: see the path resolver.
    - [flow_offload_alloc ct]: the new flow entry, or [None].
    - [flow_offload_route_init flow route]: the return code and the flow as
      initialised from the route.
    - [flow_offload_add ft flow]: the return code of the insertion.
    - [kzalloc_hook0], [kzalloc_hook1]: whether the hook allocation of the
      first and of the second [xt_flowoffload_check_device] call succeeds,
      should that call allocate. *)
Record externals := {
  nf_route : Z -> flowi -> Z -> option dst_entry;
  ext_dst_neigh_lookup : dst_entry -> nf_inet_addr -> option neighbour;
  ext_dev_fill_forward_path : net_device -> list Z -> Z * net_device_path_stack;
  flow_offload_alloc : nf_conn -> option flow_offload;
  flow_offload_route_init : flow_offload -> nf_flow_route -> Z * flow_offload;
  flow_offload_add : nf_flowtable -> flow_offload -> Z;
  kzalloc_hook0 : bool;
  kzalloc_hook1 : bool
}.

Section Admission.

Variable NF_FLOW_TABLE_ENCAP_MAX : Z.
Variable ENCAP_FIELD_BITS : Z.
Variable ext : externals.

(** [struct nf_flow_route route = {};] *)
Definition route_tuple_zero : nf_flow_route_tuple :=
  {| rt_dst := None; in_ifindex := 0;
     in_encap := replicate (Z.to_nat NF_FLOW_TABLE_ENCAP_MAX)
                   {| encap_id := 0; encap_proto := 0 |};
     in_num_encaps := 0; in_ingress_vlans := 0;
     out_ifindex := 0; out_hw_ifindex := 0;
     out_h_source := replicate (Z.to_nat ETH_ALEN) 0;
     out_h_dest := replicate (Z.to_nat ETH_ALEN) 0;
     xmit_type := FLOW_OFFLOAD_XMIT_UNSPEC |}.

Definition route_zero : nf_flow_route :=
  {| route_tuple_original := route_tuple_zero;
     route_tuple_reply := route_tuple_zero |}.

(** [xt_flowoffload_route_dir]; the result is the return code and the
    route. *)
Definition xt_flowoffload_route_dir {S} (route : nf_flow_route) (ct : nf_conn)
    (dir : ip_conntrack_dir) (par : xt_action_param) (ifindex : Z)
  : M S (Z * nf_flow_route) :=
  let fl :=
    if par_family par =? NFPROTO_IPV4 then
      {| fl_saddr := 0;
         fl_daddr := addr_ip (tuple_src_u3 (ct_tuple (dir_not dir) ct));
         fl_oif := ifindex |}
    else if par_family par =? NFPROTO_IPV6 then
      {| fl_saddr := addr_in6 (tuple_dst_u3 (ct_tuple (dir_not dir) ct));
         fl_daddr := addr_in6 (tuple_src_u3 (ct_tuple (dir_not dir) ct));
         fl_oif := ifindex |}
    else {| fl_saddr := 0; fl_daddr := 0; fl_oif := 0 |} in
  match nf_route ext (par_net par) fl (par_family par) with
  | None => ret (- ENOENT, route)
  | Some dst =>
      emit (Ev_nf_route dst) >>>
      ret (0, upd_tuple dir
                (set_rt_dst (Some dst)
                   (if dst_is_xfrm dst then FLOW_OFFLOAD_XMIT_XFRM
                    else FLOW_OFFLOAD_XMIT_NEIGH))
                route)
  end.

(** [xt_flowoffload_route]; the result is the return code, the route and
    the array [dev] points at. *)
Definition xt_flowoffload_route {S} (ct : nf_conn) (par : xt_action_param)
    (route : nf_flow_route) (dir : ip_conntrack_dir) (dev : devs_t)
  : M S (Z * nf_flow_route * devs_t) :=
  match devs_get dir dev with
  | None => fault
  | Some d =>
      do '(rc, route) <- xt_flowoffload_route_dir route ct dir par (dev_ifindex d);
      if negb (rc =? 0) then ret (rc, route, dev)
      else
        match devs_get (dir_not dir) dev with
        | None => fault
        | Some d' =>
            do '(rc, route) <-
              xt_flowoffload_route_dir route ct (dir_not dir) par (dev_ifindex d');
            if negb (rc =? 0) then ret (rc, route, dev)
            else
              do '(route, od) <-
                xt_flowoffload_route_check_path NF_FLOW_TABLE_ENCAP_MAX
                  ENCAP_FIELD_BITS (ext_dst_neigh_lookup ext)
                  (ext_dev_fill_forward_path ext) route ct dir
                  (devs_get (dir_not dir) dev);
              let dev := devs_set (dir_not dir) od dev in
              do '(route, od) <-
                xt_flowoffload_route_check_path NF_FLOW_TABLE_ENCAP_MAX
                  ENCAP_FIELD_BITS (ext_dst_neigh_lookup ext)
                  (ext_dev_fill_forward_path ext) route ct (dir_not dir)
                  (devs_get dir dev);
              let dev := devs_set dir od dev in
              ret (0, route, dev)
        end
  end.

(** The [switch] on the protocol of [flowoffload_tg]: [None] for the
    branches that return, [Some tcph] for those that [break], with the
    value [tcph] then has. *)
Definition protocol_gate (skb : sk_buff) (ct : nf_conn) (par : xt_action_param)
  : option (option tcphdr) :=
  if tuple_dst_protonum (ct_tuple IP_CT_DIR_ORIGINAL ct) =? IPPROTO_TCP then
    if negb (ct_tcp_state ct =? TCP_CONNTRACK_ESTABLISHED) then None
    else
      match skb_tcph skb (par_thoff par) with
      | None => None
      | Some tcph =>
          if tcp_fin tcph || tcp_rst tcph then None else Some (Some tcph)
      end
  else if tuple_dst_protonum (ct_tuple IP_CT_DIR_ORIGINAL ct) =? IPPROTO_UDP then
    Some None
  else None.

(** Modelled from the spec: [flow_offload_add(&table->ft, flow)] belongs
    to the flow store (nf_flow_table_core.c).  It returns the code the store
    answers with and, when that code is not negative, has inserted the flow
    entry into the table's store. *)
Definition do_flow_offload_add (table : bool) (flow : flow_offload)
  : M xt_flowoffload_table Z :=
  do t <- get;
  let rc := flow_offload_add ext (tbl_ft t) flow in
  if rc <? 0 then ret rc
  else
    emit (Ev_flow_offload_add table flow) >>>
    modify (set_ft (set_ft_flows (flow :: ft_flows (tbl_ft t)) (tbl_ft t))) >>>
    ret rc.

(** The labels [err_flow_route], [err_flow_alloc] and [err_flow_add] of
    [flowoffload_tg], each falling through to the next. *)
Definition err_flow_route : M world Z :=
  on_ct (clear_bit IPS_OFFLOAD_BIT) >>>
  ret XT_CONTINUE.

Definition err_flow_alloc (route : nf_flow_route) (dir : ip_conntrack_dir)
  : M world Z :=
  dst_release (rt_dst (route_tuple dir route)) >>>
  dst_release (rt_dst (route_tuple (dir_not dir) route)) >>>
  err_flow_route.

Definition err_flow_add (flow : flow_offload) (route : nf_flow_route)
    (dir : ip_conntrack_dir) : M world Z :=
  emit (Ev_flow_offload_free flow) >>>
  err_flow_alloc route dir.

(** [flowoffload_tg], from the point where the offload bit has been set. *)
Definition flowoffload_tg_offload (par : xt_action_param) (ctinfo : Z)
    (tcph : option tcphdr) (devs : devs_t) : M world Z :=
  let dir := CTINFO2DIR ctinfo in
  do w <- get;
  do '(rc, route, devs) <- xt_flowoffload_route (w_ct w) par route_zero dir devs;
  if rc <? 0 then err_flow_route
  else
    match flow_offload_alloc ext (w_ct w) with
    | None => err_flow_alloc route dir
    | Some flow =>
        emit (Ev_flow_offload_alloc flow) >>>
        let '(rc, flow) := flow_offload_route_init ext flow route in
        if rc <? 0 then err_flow_add flow route dir
        else
          (match tcph with
           | Some _ =>
               on_ct (modify (fun ct =>
                 set_ct_seen_flags
                   (Z.lor (ct_tcp_seen0_flags ct) IP_CT_TCP_FLAG_BE_LIBERAL)
                   (Z.lor (ct_tcp_seen1_flags ct) IP_CT_TCP_FLAG_BE_LIBERAL) ct))
           | None => ret tt
           end) >>>
          let table :=
            negb (Z.land (par_targinfo_flags par) XT_FLOWOFFLOAD_HW =? 0) in
          do rc <- on_world_table table (do_flow_offload_add table flow);
          if rc <? 0 then err_flow_add flow route dir
          else
            on_world_table table
              (xt_flowoffload_check_device (kzalloc_hook0 ext) table
                 (devs_get IP_CT_DIR_ORIGINAL devs)) >>>
            on_world_table table
              (xt_flowoffload_check_device (kzalloc_hook1 ext) table
                 (devs_get IP_CT_DIR_REPLY devs)) >>>
            on_world_table table
              (modify (fun t =>
                 match ft_net (tbl_ft t) with
                 | None => set_ft (set_ft_net (Some (par_net par)) (tbl_ft t)) t
                 | Some _ => t
                 end)) >>>
            dst_release (rt_dst (route_tuple dir route)) >>>
            dst_release (rt_dst (route_tuple (dir_not dir) route)) >>>
            ret XT_CONTINUE
    end.

(** [flowoffload_tg]; the packet [skb] is the one of the world. *)
Definition flowoffload_tg (par : xt_action_param) : M world Z :=
  do w <- get;
  let skb := w_skb w in
  if xt_flowoffload_skip skb (par_family par) then ret XT_CONTINUE
  else
    match skb_nfct skb with
    | None => ret XT_CONTINUE
    | Some ctinfo =>
        let ct := w_ct w in
        match protocol_gate skb ct par with
        | None => ret XT_CONTINUE
        | Some tcph =>
            if ct_ext_helper ct || negb (Z.land (ct_status ct) IPS_SEQ_ADJUST =? 0)
            then ret XT_CONTINUE
            else if negb (nf_ct_is_confirmed ct) then ret XT_CONTINUE
            else
              let dir := CTINFO2DIR ctinfo in
              let devs : devs_t := (None, None) in
              let devs := devs_set dir (par_out par) devs in
              let devs := devs_set (dir_not dir) (par_in par) devs in
              match devs_get dir devs, devs_get (dir_not dir) devs with
              | Some _, Some _ =>
                  do was_set <- on_ct (test_and_set_bit IPS_OFFLOAD_BIT);
                  if was_set then ret XT_CONTINUE
                  else flowoffload_tg_offload par ctinfo tcph devs
              | _, _ => ret XT_CONTINUE
              end
        end
    end.

End Admission.

(* ================================================================== *)
(** * Target check and module lifecycle *)
(* ================================================================== *)

Section TargetCheck.

(** [XT_FLOWOFFLOAD_MASK], the flag bits the target knows; it is declared
    beside [XT_FLOWOFFLOAD_HW] in
    include/uapi/linux/netfilter/xt_FLOWOFFLOAD.h. *)
Variable XT_FLOWOFFLOAD_MASK : Z.

(** [flowoffload_chk]; [flags] is [info->flags], a [__u32].  The operand
    [~XT_FLOWOFFLOAD_MASK] is computed as an [int] and converted to
    [unsigned int] for the [&]. *)
Definition flowoffload_chk (flags : Z) : Z :=
  if negb (Z.land flags (Z.lnot XT_FLOWOFFLOAD_MASK mod 2 ^ 32) =? 0)
  then - EINVAL
  else 0.

End TargetCheck.

Definition set_ft_flags (f : Z) (ft : nf_flowtable) : nf_flowtable :=
  {| ft_flags := f; ft_net := ft_net ft; ft_flows := ft_flows ft |}.

(** Calls of the init and exit functions of the module into other
    subsystems, with the code the callee answers where the caller looks at
    it.  [register_netdevice_notifier] is called for its effect only: its
    result is dropped. *)
Inductive module_event :=
| Mev_register_netdevice_notifier
| Mev_unregister_netdevice_notifier
| Mev_nf_flow_table_init (table : bool) (rc : Z)
| Mev_nf_flow_table_free (table : bool)
| Mev_xt_register_target (rc : Z)
| Mev_xt_unregister_target.

(** [init_flowtable] for [flowtable[i]]; [rc] is what [nf_flow_table_init]
    answers.  [INIT_DELAYED_WORK] leaves the work item idle; the [type]
    member it sets is the constant [flowtable_inet], whose [setup] member
    the sweeper calls. *)
Definition init_flowtable (rc : Z) (i : bool) (ts : flowtables)
  : Z * flowtables * list module_event :=
  (rc, set_table i (set_work None (get_table i ts)) ts,
   [Mev_nf_flow_table_init i rc]).

(** [xt_flowoffload_tg_init]; [rc0], [rc1] and [rc_target] are the answers
    of the two [nf_flow_table_init] calls and of [xt_register_target]. *)
Definition xt_flowoffload_tg_init (rc0 rc1 rc_target : Z) (ts : flowtables)
  : Z * flowtables * list module_event :=
  let '(ret, ts, ev0) := init_flowtable rc0 false ts in
  if negb (ret =? 0)
  then (ret, ts, Mev_register_netdevice_notifier :: ev0)
  else
    let '(ret, ts, ev1) := init_flowtable rc1 true ts in
    if negb (ret =? 0)
    then (ret, ts,
          Mev_register_netdevice_notifier :: ev0 ++ ev1 ++
          [Mev_nf_flow_table_free false])
    else
      let ts :=
        set_table true
          (set_ft (set_ft_flags NF_FLOWTABLE_HW_OFFLOAD (tbl_ft (get_table true ts)))
             (get_table true ts))
          ts in
      let ret := rc_target in
      if negb (ret =? 0)
      then (ret, ts,
            Mev_register_netdevice_notifier :: ev0 ++ ev1 ++
            [Mev_xt_register_target ret;
             Mev_nf_flow_table_free true; Mev_nf_flow_table_free false])
      else (0, ts,
            Mev_register_netdevice_notifier :: ev0 ++ ev1 ++
            [Mev_xt_register_target ret]).

(** [xt_flowoffload_tg_exit]: four calls, none of which reaches the hook
    collections or the work items of the tables. *)
Definition xt_flowoffload_tg_exit : list module_event :=
  [Mev_xt_unregister_target; Mev_unregister_netdevice_notifier;
   Mev_nf_flow_table_free false; Mev_nf_flow_table_free true].

(* ================================================================== *)
(** * Vocabulary of the properties *)
(* ================================================================== *)

(** The hooks of a collection that are bound to [dev]. *)
Definition hooks_for (dev : net_device) (hooks : list xt_flowoffload_hook)
  : list xt_flowoffload_hook :=
  List.filter (fun hook => dev_ptr (ops_dev (hook_ops hook)) =? dev_ptr dev) hooks.

(** The collection holds at most one hook per device. *)
Definition one_hook_per_device (hooks : list xt_flowoffload_hook) : Prop :=
  forall dev, (length (hooks_for dev hooks) <= 1)%nat.

(** A hook the reap phase leaves alone: in use, or not yet registered. *)
Definition hook_active (hook : xt_flowoffload_hook) : bool :=
  hook_used hook || negb (hook_registered hook).

(** A hook as [xt_flowoffload_create_hook] leaves it: pending and unused. *)
Definition hook_fresh (hook : xt_flowoffload_hook) : Prop :=
  hook_registered hook = false /\ hook_used hook = false /\ hook_net hook = None.

(** What the register phase does to one hook. *)
Definition install (hook : xt_flowoffload_hook) : xt_flowoffload_hook :=
  if hook_registered hook then hook else set_registered hook.

(** The calls the register phase makes for one hook. *)
Definition register_events (hw : bool) (hook : xt_flowoffload_hook) : list event :=
  if hook_registered hook then []
  else
    [Ev_spin_unlock_bh;
     Ev_nf_register_net_hook (dev_net (ops_dev (hook_ops hook))) (hook_ops hook)] ++
    (if hw then [Ev_setup (ops_dev (hook_ops hook)) FLOW_BLOCK_BIND] else []) ++
    [Ev_spin_lock_bh].

(** The calls the reap phase makes for one hook. *)
Definition reap_events (hw : bool) (hook : xt_flowoffload_hook) : list event :=
  if hook_active hook then []
  else
    [Ev_spin_lock_bh; Ev_hlist_del hook; Ev_spin_unlock_bh] ++
    (if hw then [Ev_setup (ops_dev (hook_ops hook)) FLOW_BLOCK_UNBIND] else []) ++
    [Ev_nf_unregister_net_hook (hook_net hook) (hook_ops hook); Ev_kfree hook].

(** The flow iteration ended with an error other than a retry request. *)
Definition hard_error (stop : option (nat * Z)) : bool :=
  match stop with
  | Some (_, err) => negb (err =? 0) && negb (err =? - EAGAIN)
  | None => false
  end.

(** The hooks after the mark-live phase has visited [flows]. *)
Definition mark_live (flows : list flow_offload) (hooks : list xt_flowoffload_hook)
  : list xt_flowoffload_hook :=
  fold_left (fun hs flow => map (check_hook_mark flow) hs) flows hooks.

(** The flows the iteration visits. *)
Definition visited (stop : option (nat * Z)) (flows : list flow_offload)
  : list flow_offload :=
  match stop with
  | None => flows
  | Some (n, _) => take n flows
  end.

(** The hooks of a table once the register, reset-used and mark-live
    phases of a sweep cycle are over. *)
Definition swept_hooks (stop : option (nat * Z)) (t : xt_flowoffload_table)
  : list xt_flowoffload_hook :=
  mark_live (visited stop (ft_flows (tbl_ft t)))
    (map (set_used false) (map install (tbl_hooks t))).

(** Segments that add an encapsulation layer, and segments that take one
    away. *)
Definition seg_push (path : net_device_path) : bool :=
  match path_type path with
  | DEV_PATH_VLAN | DEV_PATH_PPPOE => true
  | DEV_PATH_BRIDGE =>
      match path_bridge_vlan_mode path with
      | DEV_PATH_BR_VLAN_TAG => true
      | _ => false
      end
  | _ => false
  end.

Definition seg_pop (path : net_device_path) : bool :=
  match path_type path, path_bridge_vlan_mode path with
  | DEV_PATH_BRIDGE, DEV_PATH_BR_VLAN_UNTAG => true
  | _, _ => false
  end.

(** Segments whose kind ends the walk wherever they stand. *)
Definition seg_final (path : net_device_path) : bool :=
  match path_type path with
  | DEV_PATH_VLAN | DEV_PATH_PPPOE | DEV_PATH_BRIDGE => false
  | _ => true
  end.

(** Bridge hops that neither end the walk nor shift, whatever the
    encapsulation count is: the VLAN dispositions keep and tag-pop. *)
Definition seg_passes (path : net_device_path) : bool :=
  match path_type path, path_bridge_vlan_mode path with
  | DEV_PATH_BRIDGE, DEV_PATH_BR_VLAN_KEEP
  | DEV_PATH_BRIDGE, DEV_PATH_BR_VLAN_UNTAG => true
  | _, _ => false
  end.

(** Bridge ports whose tag the hardware takes away. *)
Definition seg_hw_untag (path : net_device_path) : bool :=
  match path_type path, path_bridge_vlan_mode path with
  | DEV_PATH_BRIDGE, DEV_PATH_BR_VLAN_UNTAG_HW => true
  | _, _ => false
  end.

(** The iteration for [path], met with [n] layers on the stack, shifts by
    a count the shift is defined for, if it shifts at all. *)
Definition seg_shift_ok (n : Z) (path : net_device_path) : bool :=
  negb (seg_hw_untag path) || ((0 <=? n - 1) && (n - 1 <? BITS_PER_LONG)).

(** The iteration for the segment [path] at index [i] ends the walk: the
    kind of the segment does, or the segment pushes a layer while the depth
    limit is used up or the index is [num_paths]. *)
Definition seg_ends (ENCAP_MAX np i n : Z) (path : net_device_path) : bool :=
  seg_final path || (seg_push path && ((n >=? ENCAP_MAX) || (i =? np))).

(** The encapsulation count after that iteration, as the bit-field holds
    it. *)
Definition seg_count (ENCAP_MAX FIELD_BITS np i n : Z) (path : net_device_path)
  : Z :=
  if seg_ends ENCAP_MAX np i n path then n
  else if seg_push path then bitfield FIELD_BITS (n + 1)
  else if seg_pop path then bitfield FIELD_BITS (n - 1)
  else n.

Definition has_dev (path : net_device_path) : bool :=
  match path_dev path with
  | Some _ => true
  | None => false
  end.

(** The walk from index [i] on, over the slots [segs] the array holds from
    there, with [n] layers on the stack, stays within defined behaviour:
    every slot it reads lies in the array, no iteration shifts by a count
    the shift is undefined for, and the device in hand when the walk ends is
    not null ([have_dev] says whether the device in hand before the first
    iteration is).  Only the control flow of the loop is followed: which
    iteration ends the walk, and the count each one leaves. *)
Fixpoint walk_defined (ENCAP_MAX FIELD_BITS np i n : Z) (have_dev : bool)
    (segs : list net_device_path) {struct segs} : bool :=
  if i <=? np then
    match segs with
    | [] => false
    | p :: rest =>
        seg_shift_ok n p &&
        (if seg_ends ENCAP_MAX np i n p then has_dev p
         else walk_defined ENCAP_MAX FIELD_BITS np (i + 1)
                (seg_count ENCAP_MAX FIELD_BITS np i n p) (has_dev p) rest)
    end
  else have_dev.

(** The walk of a whole stack, started with [n] layers and a device in
    hand, stays within defined behaviour. *)
Definition stack_walkable (ENCAP_MAX FIELD_BITS n : Z)
    (stack : net_device_path_stack) : bool :=
  walk_defined ENCAP_MAX FIELD_BITS (num_paths stack) 0 n true (stack_path stack).

(** An answer of the forwarding-path query that the resolver, started with
    an empty encapsulation stack, gets through: an error code or an empty
    stack, which make it return before the walk, or a stack it can walk. *)
Definition answer_walkable (ENCAP_MAX FIELD_BITS : Z)
    (answer : Z * net_device_path_stack) : bool :=
  negb (answer.1 =? 0) || (num_paths answer.2 =? 0) ||
  stack_walkable ENCAP_MAX FIELD_BITS 0 answer.2.



(** [num_encaps] of the direction opposite to [dir]. *)
Definition opposite_num_encaps (dir : ip_conntrack_dir) (route : nf_flow_route) : Z :=
  in_num_encaps (route_tuple (dir_not dir) route).

(** How often a destination handle was acquired and released. *)
Definition is_acquire (d : dst_entry) (e : event) : bool :=
  match e with
  | Ev_nf_route d' => dst_ptr d' =? dst_ptr d
  | _ => false
  end.

Definition is_release (d : dst_entry) (e : event) : bool :=
  match e with
  | Ev_dst_release d' => dst_ptr d' =? dst_ptr d
  | _ => false
  end.

Definition acquired (d : dst_entry) (evs : list event) : nat :=
  length (List.filter (is_acquire d) evs).

Definition released (d : dst_entry) (evs : list event) : nat :=
  length (List.filter (is_release d) evs).

(** Events that neither acquire nor release a destination handle. *)
Definition neutral (e : event) : bool :=
  match e with
  | Ev_nf_route _ | Ev_dst_release _ => false
  | _ => true
  end.

(** A flow entry was inserted into a table. *)
Definition inserted (evs : list event) : bool :=
  existsb (fun e => match e with Ev_flow_offload_add _ _ => true | _ => false end) evs.

(** How many flow entries were allocated, and how many freed. *)
Definition flows_allocated (evs : list event) : nat :=
  length (List.filter
            (fun e => match e with Ev_flow_offload_alloc _ => true | _ => false end)
            evs).

Definition flows_freed (evs : list event) : nat :=
  length (List.filter
            (fun e => match e with Ev_flow_offload_free _ => true | _ => false end)
            evs).

(** Events of the hook lock and of the hook collection. *)
Definition lock_event (e : event) : bool :=
  match e with
  | Ev_spin_lock_bh | Ev_spin_unlock_bh
  | Ev_hlist_add_head _ | Ev_hlist_del _ => true
  | _ => false
  end.

(** Events that concern neither a destination handle nor a flow entry. *)
Definition quiet (e : event) : Prop :=
  e = Ev_neigh_release \/ lock_event e = true.

(** Why a packet is not considered for offload, gate by gate. *)
Inductive not_eligible (w : world) (par : xt_action_param) : Prop :=
| skip_sec_path :
    skb_sec_path (w_skb w) = true -> not_eligible w par
| skip_ip_options :
    par_family par = NFPROTO_IPV4 -> skb_ip_optlen (w_skb w) <> 0 ->
    not_eligible w par
| skip_untracked :
    skb_nfct (w_skb w) = None -> not_eligible w par
| skip_protocol :
    ~ (tuple_dst_protonum (ct_tuple_original (w_ct w)) = IPPROTO_TCP /\
       ct_tcp_state (w_ct w) = TCP_CONNTRACK_ESTABLISHED /\
       exists tcph, skb_tcph (w_skb w) (par_thoff par) = Some tcph /\
                    tcp_fin tcph = false /\ tcp_rst tcph = false) ->
    tuple_dst_protonum (ct_tuple_original (w_ct w)) <> IPPROTO_UDP ->
    not_eligible w par
| skip_helper :
    ct_ext_helper (w_ct w) = true -> not_eligible w par
| skip_seq_adjust :
    Z.land (ct_status (w_ct w)) IPS_SEQ_ADJUST <> 0 -> not_eligible w par
| skip_unconfirmed :
    Z.testbit (ct_status (w_ct w)) IPS_CONFIRMED_BIT = false -> not_eligible w par
| skip_no_egress_device :
    par_out par = None -> not_eligible w par
| skip_no_ingress_device :
    par_in par = None -> not_eligible w par.

(** The hook lock along a trace of calls, [held] telling whether the lock
    is held before the first call.  The result is whether it is held after
    the last one; [None] says that the trace takes the lock while it is
    held, drops it while it is not, changes a hook collection without the
    lock, or calls into the hook core or the offload driver (which may
    sleep) with the lock held. *)
Fixpoint lock_ok (held : bool) (evs : list event) : option bool :=
  match evs with
  | [] => Some held
  | e :: rest =>
      match e with
      | Ev_spin_lock_bh => if held then None else lock_ok true rest
      | Ev_spin_unlock_bh => if held then lock_ok false rest else None
      | Ev_hlist_add_head _ | Ev_hlist_del _ =>
          if held then lock_ok held rest else None
      | Ev_nf_register_net_hook _ _ | Ev_nf_unregister_net_hook _ _
      | Ev_setup _ _ =>
          if held then None else lock_ok held rest
      | _ => lock_ok held rest
      end
  end.

(** The device of a hook is the input interface of one of [flows], in
    either direction. *)
Definition carries_flow (flows : list flow_offload) (hook : xt_flowoffload_hook)
  : bool :=
  existsb (fun flow =>
             (dev_ifindex (ops_dev (hook_ops hook)) =? iifidx (flow_tuple0 flow)) ||
             (dev_ifindex (ops_dev (hook_ops hook)) =? iifidx (flow_tuple1 flow)))
    flows.

(** Calls of a trace, by kind. *)
Definition is_register_call (e : event) : bool :=
  match e with Ev_nf_register_net_hook _ _ => true | _ => false end.

Definition is_unregister_call (e : event) : bool :=
  match e with Ev_nf_unregister_net_hook _ _ => true | _ => false end.


Definition is_unlink (e : event) : bool :=
  match e with Ev_hlist_del _ => true | _ => false end.

Definition is_kfree (e : event) : bool :=
  match e with Ev_kfree _ => true | _ => false end.

Definition calls (kind : event -> bool) (evs : list event) : nat :=
  length (List.filter kind evs).

(** A hook as the reap phase of a sweep cycle finds it: marked registered,
    with the namespace of its device recorded unless it was marked
    registered before, and marked used when [used] says so. *)
Definition swept_hook (used : bool) (hook : xt_flowoffload_hook)
  : xt_flowoffload_hook :=
  {| hook_ops := hook_ops hook;
     hook_net := if hook_registered hook then hook_net hook
                 else Some (dev_net (ops_dev (hook_ops hook)));
     hook_registered := true;
     hook_used := used |}.

(** The calls that take a hook away: it is unlinked with the lock held;
    then, with the lock dropped, unbound from the hardware when [hw] says
    that the table does hardware offload, unregistered and freed. *)
Definition removal_calls (hw : bool) (hook : xt_flowoffload_hook) : list event :=
  [Ev_spin_lock_bh; Ev_hlist_del hook; Ev_spin_unlock_bh] ++
  (if hw then [Ev_setup (ops_dev (hook_ops hook)) FLOW_BLOCK_UNBIND] else []) ++
  [Ev_nf_unregister_net_hook (hook_net hook) (hook_ops hook); Ev_kfree hook].

(** A hook that is marked registered records the namespace of its device,
    as [xt_flowoffload_register_hooks] stores it. *)
Definition hook_net_recorded (hook : xt_flowoffload_hook) : Prop :=
  hook_registered hook = true ->
  hook_net hook = Some (dev_net (ops_dev (hook_ops hook))).

(** A call that unregisters a hook names the namespace of the hook's
    device. *)
Definition unregisters_with_net (e : event) : Prop :=
  match e with
  | Ev_nf_unregister_net_hook net ops => net = Some (dev_net (ops_dev ops))
  | _ => True
  end.

(** The encapsulation entry a push segment records: the VLAN of a bridge
    port, or the tag of a VLAN or PPPoE device. *)
Definition seg_encap (path : net_device_path) : encap_entry :=
  match path_type path with
  | DEV_PATH_BRIDGE =>
      {| encap_id := path_bridge_vlan_id path;
         encap_proto := path_bridge_vlan_proto path |}
  | _ =>
      {| encap_id := path_encap_id path; encap_proto := path_encap_proto path |}
  end.

(** What the module holds in other subsystems: its netdevice notifier, its
    target, and the two flow tables. *)
Record module_resources := {
  res_notifier : bool;
  res_target : bool;
  res_table0 : bool;
  res_table1 : bool
}.

Definition nothing_held : module_resources :=
  {| res_notifier := false; res_target := false;
     res_table0 := false; res_table1 := false |}.

Definition res_table (i : bool) (r : module_resources) : bool :=
  if i then res_table1 r else res_table0 r.

Definition set_res_table (i : bool) (b : bool) (r : module_resources)
  : module_resources :=
  if i
  then {| res_notifier := res_notifier r; res_target := res_target r;
          res_table0 := res_table0 r; res_table1 := b |}
  else {| res_notifier := res_notifier r; res_target := res_target r;
          res_table0 := b; res_table1 := res_table1 r |}.

(** One call of the init or exit function.  [None] says that the call
    registers or initialises what is held already, or releases what is not
    held.  A call that answers with an error hands nothing over. *)
Definition module_step (r : module_resources) (e : module_event)
  : option module_resources :=
  match e with
  | Mev_register_netdevice_notifier =>
      if res_notifier r then None
      else Some {| res_notifier := true; res_target := res_target r;
                   res_table0 := res_table0 r; res_table1 := res_table1 r |}
  | Mev_unregister_netdevice_notifier =>
      if res_notifier r
      then Some {| res_notifier := false; res_target := res_target r;
                   res_table0 := res_table0 r; res_table1 := res_table1 r |}
      else None
  | Mev_nf_flow_table_init i rc =>
      if res_table i r then None else Some (set_res_table i (rc =? 0) r)
  | Mev_nf_flow_table_free i =>
      if res_table i r then Some (set_res_table i false r) else None
  | Mev_xt_register_target rc =>
      if res_target r then None
      else Some {| res_notifier := res_notifier r; res_target := (rc =? 0);
                   res_table0 := res_table0 r; res_table1 := res_table1 r |}
  | Mev_xt_unregister_target =>
      if res_target r
      then Some {| res_notifier := res_notifier r; res_target := false;
                   res_table0 := res_table0 r; res_table1 := res_table1 r |}
      else None
  end.

Fixpoint module_run (r : module_resources) (evs : list module_event)
  : option module_resources :=
  match evs with
  | [] => Some r
  | e :: rest =>
      match module_step r e with
      | Some r' => module_run r' rest
      | None => None
      end
  end.

(* ================================================================== *)
(** * Sample inputs *)
(* ================================================================== *)

(** Values of the constants that other headers of the kernel tree give the
    functions above: 250 jiffies per second, an encapsulation depth of two
    and two-bit [num_encaps] and [ingress_vlans] fields. *)
Definition sample_HZ : Z := 250.
Definition sample_ENCAP_MAX : Z := 2.
Definition sample_FIELD_BITS : Z := 2.

Definition eth0 : net_device :=
  {| dev_ptr := 0x1000; dev_ifindex := 1; dev_flags := 0x1043; dev_type := 1;
     dev_addr_len := 6; dev_addr := [0x02; 0; 0; 0; 0; 0x01]; dev_nd_net := 1 |}.

Definition eth1 : net_device :=
  {| dev_ptr := 0x2000; dev_ifindex := 2; dev_flags := 0x1043; dev_type := 1;
     dev_addr_len := 6; dev_addr := [0x02; 0; 0; 0; 0; 0x02]; dev_nd_net := 1 |}.

Definition empty_ft : nf_flowtable :=
  {| ft_flags := 0; ft_net := None; ft_flows := [] |}.

Definition empty_table : xt_flowoffload_table :=
  {| tbl_ft := empty_ft; tbl_hooks := []; tbl_work := None |}.

(** A table whose only hook is the pending hook of [eth0]; its work item
    was queued by the creation of the hook. *)
Definition one_fresh_hook_table : xt_flowoffload_table :=
  {| tbl_ft := empty_ft; tbl_hooks := [new_hook false eth0]; tbl_work := Some 0 |}.

(** A hook of [eth0] that is installed and in use, and one of the
    hardware table that is still pending. *)
Definition installed_hook : xt_flowoffload_hook :=
  set_used true (set_registered (new_hook false eth0)).

Definition both_hooked : flowtables :=
  ({| tbl_ft := empty_ft; tbl_hooks := [installed_hook]; tbl_work := None |},
   {| tbl_ft := {| ft_flags := NF_FLOWTABLE_HW_OFFLOAD; ft_net := None;
                   ft_flows := [] |};
      tbl_hooks := [new_hook true eth1; new_hook true eth0];
      tbl_work := None |}).

Definition sample_flow : flow_offload :=
  {| flow_tuple0 := {| iifidx := 1 |}; flow_tuple1 := {| iifidx := 2 |} |}.

Definition ipv4_skb : sk_buff :=
  {| skb_protocol := 0x0008; skb_sec_path := false; skb_ip_optlen := 0;
     skb_nfct := Some 0;
     skb_tcph := fun _ => Some {| tcp_fin := false; tcp_rst := false |} |}.

Definition arp_skb : sk_buff :=
  {| skb_protocol := 0x0608; skb_sec_path := false; skb_ip_optlen := 0;
     skb_nfct := None; skb_tcph := fun _ => None |}.

(** A bridge hop that keeps the VLAN tag, a bridge hop that pops it, a
    bridge hop whose tag the hardware pops, a VLAN device and a plain
    Ethernet device. *)
Definition bridge_keep_seg : net_device_path :=
  {| path_type := DEV_PATH_BRIDGE; path_dev := Some eth0;
     path_encap_id := 0; path_encap_proto := 0; path_encap_h_dest := [];
     path_bridge_vlan_mode := DEV_PATH_BR_VLAN_KEEP;
     path_bridge_vlan_id := 0; path_bridge_vlan_proto := 0 |}.


Definition bridge_hw_untag_seg : net_device_path :=
  {| path_type := DEV_PATH_BRIDGE; path_dev := Some eth0;
     path_encap_id := 0; path_encap_proto := 0; path_encap_h_dest := [];
     path_bridge_vlan_mode := DEV_PATH_BR_VLAN_UNTAG_HW;
     path_bridge_vlan_id := 0; path_bridge_vlan_proto := 0 |}.

Definition vlan_seg : net_device_path :=
  {| path_type := DEV_PATH_VLAN; path_dev := Some eth0;
     path_encap_id := 100; path_encap_proto := 0x8100; path_encap_h_dest := [];
     path_bridge_vlan_mode := DEV_PATH_BR_VLAN_KEEP;
     path_bridge_vlan_id := 0; path_bridge_vlan_proto := 0 |}.

Definition ethernet_seg : net_device_path :=
  {| path_type := DEV_PATH_ETHERNET; path_dev := Some eth0;
     path_encap_id := 0; path_encap_proto := 0; path_encap_h_dest := [];
     path_bridge_vlan_mode := DEV_PATH_BR_VLAN_KEEP;
     path_bridge_vlan_id := 0; path_bridge_vlan_proto := 0 |}.

(** A stack whose five slots are all in use by bridge hops. *)
Definition full_bridge_stack : net_device_path_stack :=
  {| num_paths := 5; stack_path := replicate 5 bridge_keep_seg |}.


(** Three VLAN devices on top of an Ethernet device: more pushes than the
    encapsulation depth. *)
Definition triple_vlan_stack : net_device_path_stack :=
  {| num_paths := 4;
     stack_path := [vlan_seg; vlan_seg; vlan_seg; ethernet_seg; ethernet_seg] |}.


Definition hw_untag_first_stack : net_device_path_stack :=
  {| num_paths := 2;
     stack_path := [bridge_hw_untag_seg; ethernet_seg; ethernet_seg;
                    ethernet_seg; ethernet_seg] |}.

Definition dst_a : dst_entry :=
  {| dst_ptr := 0xA000; dst_dev := eth1; dst_is_xfrm := false |}.

Definition dst_b : dst_entry :=
  {| dst_ptr := 0xB000; dst_dev := eth0; dst_is_xfrm := false |}.

Definition sample_neighbour : neighbour :=
  {| nud_state := 0x02; neigh_ha := [0x02; 0; 0; 0; 0; 0x10] |}.

(** The route of [dst_a] for the walk of the original direction. *)
Definition sample_route : nf_flow_route :=
  upd_tuple IP_CT_DIR_ORIGINAL
    (set_rt_dst (Some dst_a) FLOW_OFFLOAD_XMIT_NEIGH)
    (route_zero sample_ENCAP_MAX).

Definition sample_walk_start : walk_state :=
  {| ws_route := sample_route; ws_dev := Some eth1; ws_last := false |}.

(** An established, confirmed TCP connection. *)
Definition sample_ct : nf_conn :=
  {| ct_status := 0x0E;
     ct_tuple_original :=
       {| tuple_src_u3 := {| addr_ip := 0x0A000001; addr_in6 := 0 |};
          tuple_dst_u3 := {| addr_ip := 0x0A000102; addr_in6 := 0 |};
          tuple_dst_protonum := 6 |};
     ct_tuple_reply :=
       {| tuple_src_u3 := {| addr_ip := 0x0A000102; addr_in6 := 0 |};
          tuple_dst_u3 := {| addr_ip := 0x0A000001; addr_in6 := 0 |};
          tuple_dst_protonum := 6 |};
     ct_tcp_state := 3; ct_tcp_seen0_flags := 0; ct_tcp_seen1_flags := 0;
     ct_ext_helper := false |}.

Definition sample_world : world :=
  {| w_skb := ipv4_skb; w_ct := sample_ct;
     w_flowtable := (empty_table, empty_table) |}.

(** An ICMP connection on the same packet. *)
Definition icmp_world : world :=
  {| w_skb := ipv4_skb;
     w_ct := {| ct_status := 0x0E;
                ct_tuple_original :=
                  {| tuple_src_u3 := {| addr_ip := 0x0A000001; addr_in6 := 0 |};
                     tuple_dst_u3 := {| addr_ip := 0x0A000102; addr_in6 := 0 |};
                     tuple_dst_protonum := 1 |};
                ct_tuple_reply :=
                  {| tuple_src_u3 := {| addr_ip := 0x0A000102; addr_in6 := 0 |};
                     tuple_dst_u3 := {| addr_ip := 0x0A000001; addr_in6 := 0 |};
                     tuple_dst_protonum := 1 |};
                ct_tcp_state := 0; ct_tcp_seen0_flags := 0;
                ct_tcp_seen1_flags := 0; ct_ext_helper := false |};
     w_flowtable := (empty_table, empty_table) |}.

(** The packet leaves through [eth1] and came in through [eth0]. *)
Definition sample_par : xt_action_param :=
  {| par_family := 2; par_thoff := 20; par_targinfo_flags := 0;
     par_in := Some eth0; par_out := Some eth1; par_net := 1 |}.

(** Every subsystem answers with success; the forwarding path of either
    device is three VLAN devices on an Ethernet device. *)
Definition all_good : externals :=
  {| nf_route := fun _ fl _ => if fl_oif fl =? 2 then Some dst_a else Some dst_b;
     ext_dst_neigh_lookup := fun _ _ => Some sample_neighbour;
     ext_dev_fill_forward_path := fun _ _ => (0, triple_vlan_stack);
     flow_offload_alloc := fun _ => Some sample_flow;
     flow_offload_route_init := fun flow _ => (0, flow);
     flow_offload_add := fun _ _ => 0;
     kzalloc_hook0 := true;
     kzalloc_hook1 := true |}.

(** The routing lookup finds a destination through [eth1] (the direction of
    the packet) and none through [eth0] (the opposite direction). *)
Definition second_lookup_fails : externals :=
  {| nf_route := fun _ fl _ => if fl_oif fl =? 2 then Some dst_a else None;
     ext_dst_neigh_lookup := fun _ _ => Some sample_neighbour;
     ext_dev_fill_forward_path := fun _ _ => (0, triple_vlan_stack);
     flow_offload_alloc := fun _ => Some sample_flow;
     flow_offload_route_init := fun flow _ => (0, flow);
     flow_offload_add := fun _ _ => 0;
     kzalloc_hook0 := true;
     kzalloc_hook1 := true |}.

(** A third device, which carries no flow. *)
Definition eth2 : net_device :=
  {| dev_ptr := 0x3000; dev_ifindex := 3; dev_flags := 0x1043; dev_type := 1;
     dev_addr_len := 6; dev_addr := [0x02; 0; 0; 0; 0; 0x03]; dev_nd_net := 1 |}.

(** A table that holds one flow between [eth0] and [eth1], and three hooks:
    a pending one of [eth2], the installed one of [eth0] and a pending one
    of [eth1]. *)
Definition busy_table : xt_flowoffload_table :=
  {| tbl_ft := {| ft_flags := 0; ft_net := Some 1; ft_flows := [sample_flow] |};
     tbl_hooks := [new_hook false eth2; installed_hook; new_hook false eth1];
     tbl_work := Some 0 |}.

(** A second VLAN device, with another tag. *)
Definition vlan_seg_200 : net_device_path :=
  {| path_type := DEV_PATH_VLAN; path_dev := Some eth1;
     path_encap_id := 200; path_encap_proto := 0x88A8; path_encap_h_dest := [];
     path_bridge_vlan_mode := DEV_PATH_BR_VLAN_KEEP;
     path_bridge_vlan_id := 0; path_bridge_vlan_proto := 0 |}.

(** Two VLAN devices on top of an Ethernet device. *)
Definition double_vlan_stack : net_device_path_stack :=
  {| num_paths := 3;
     stack_path := [vlan_seg; vlan_seg_200; ethernet_seg; ethernet_seg; ethernet_seg] |}.

(** The neighbour table knows every address; the forwarding path of every
    device is [triple_vlan_stack]. *)
Definition sample_neigh_lookup (_ : dst_entry) (_ : nf_inet_addr) : option neighbour :=
  Some sample_neighbour.

Definition sample_fill (_ : net_device) (_ : list Z) : Z * net_device_path_stack :=
  (0, triple_vlan_stack).

(** The route the resolver leaves for [sample_route], and the state of the
    walk over [triple_vlan_stack] it goes through. *)
Definition resolved_route : nf_flow_route :=
  Eval vm_compute in
    match xt_flowoffload_route_check_path sample_ENCAP_MAX sample_FIELD_BITS
            sample_neigh_lookup sample_fill sample_route sample_ct
            IP_CT_DIR_ORIGINAL None tt with
    | Some ((route, _), _, _) => route
    | None => sample_route
    end.

Definition walked_state : walk_state :=
  Eval vm_compute in
    match path_walk sample_ENCAP_MAX sample_FIELD_BITS 5 IP_CT_DIR_ORIGINAL
            triple_vlan_stack 0 sample_walk_start with
    | Some s => s
    | None => sample_walk_start
    end.

(** The state the first iteration of that walk leaves. *)
Definition stepped_state : walk_state :=
  Eval vm_compute in
    match path_step sample_ENCAP_MAX sample_FIELD_BITS IP_CT_DIR_ORIGINAL 4 0
            vlan_seg sample_walk_start with
    | Some s => s
    | None => sample_walk_start
    end.

(** The forwarding-path query knows no path. *)
Definition no_forward_path : externals :=
  {| nf_route := nf_route all_good;
     ext_dst_neigh_lookup := ext_dst_neigh_lookup all_good;
     ext_dev_fill_forward_path := fun _ _ => (-1, triple_vlan_stack);
     flow_offload_alloc := flow_offload_alloc all_good;
     flow_offload_route_init := flow_offload_route_init all_good;
     flow_offload_add := flow_offload_add all_good;
     kzalloc_hook0 := true;
     kzalloc_hook1 := true |}.

(** The flow store refuses the insertion. *)
Definition insertion_fails : externals :=
  {| nf_route := nf_route all_good;
     ext_dst_neigh_lookup := ext_dst_neigh_lookup all_good;
     ext_dev_fill_forward_path := ext_dev_fill_forward_path all_good;
     flow_offload_alloc := flow_offload_alloc all_good;
     flow_offload_route_init := flow_offload_route_init all_good;
     flow_offload_add := fun _ _ => -17;
     kzalloc_hook0 := true;
     kzalloc_hook1 := true |}.

(** The world the run on [sample_world] leaves then, and the calls it
    makes. *)
Definition unwound_world : world :=
  Eval vm_compute in
    match flowoffload_tg sample_ENCAP_MAX sample_FIELD_BITS insertion_fails
            sample_par sample_world with
    | Some (_, w, _) => w
    | None => sample_world
    end.

Definition unwound_events : list event :=
  Eval vm_compute in
    match flowoffload_tg sample_ENCAP_MAX sample_FIELD_BITS insertion_fails
            sample_par sample_world with
    | Some (_, _, evs) => evs
    | None => []
    end.

(** The world a successful run on [sample_world] leaves, and the calls it
    makes. *)
Definition offloaded_world : world :=
  Eval vm_compute in
    match flowoffload_tg sample_ENCAP_MAX sample_FIELD_BITS no_forward_path
            sample_par sample_world with
    | Some (_, w, _) => w
    | None => sample_world
    end.

Definition offloaded_events : list event :=
  Eval vm_compute in
    match flowoffload_tg sample_ENCAP_MAX sample_FIELD_BITS no_forward_path
            sample_par sample_world with
    | Some (_, _, evs) => evs
    | None => []
    end.

(* ================================================================== *)
(** * Proofs *)
(* ================================================================== *)

(** Unfold the operations of the monad. *)
Ltac munfold :=
  unfold bind, ret, emit, modify, get, put, zoom, fault in *.

(** ** Hook registry *)

Lemma lookup_hook_None (hooks : list xt_flowoffload_hook) (dev : net_device) :
  flow_offload_lookup_hook hooks dev = None <-> hooks_for dev hooks = [].
Proof.
  induction hooks as [|h hs IH]; simpl; [tauto|].
  destruct (dev_ptr (ops_dev (hook_ops h)) =? dev_ptr dev); [split; discriminate|].
  destruct (flow_offload_lookup_hook hs dev) as [[j h']|]; simpl.
  - split; [discriminate|]. intros E. apply IH in E. discriminate.
  - split; intros _; [now apply IH | reflexivity].
Qed.

Lemma lookup_hook_Some (hooks : list xt_flowoffload_hook) (dev : net_device)
    (i : nat) (hook : xt_flowoffload_hook) :
  flow_offload_lookup_hook hooks dev = Some (i, hook) ->
  hooks !! i = Some hook /\
  (dev_ptr (ops_dev (hook_ops hook)) =? dev_ptr dev) = true /\
  exists others,
    hooks_for dev hooks = hook :: others /\
    hooks_for dev (delete i hooks) = others /\
    forall hook',
      (dev_ptr (ops_dev (hook_ops hook')) =? dev_ptr dev) = true ->
      hooks_for dev (<[i := hook']> hooks) = hook' :: others.
Proof.
  revert i. induction hooks as [|h hs IH]; simpl; intros i E; [discriminate|].
  destruct (dev_ptr (ops_dev (hook_ops h)) =? dev_ptr dev) eqn:Eh.
  - injection E as <- <-. repeat split; [assumption|].
    exists (hooks_for dev hs). repeat split.
    intros h' Eh'. simpl. now rewrite Eh'.
  - destruct (flow_offload_lookup_hook hs dev) as [[j h']|]; simpl in E;
      [|discriminate].
    injection E as <- <-.
    destruct (IH j eq_refl) as (Hl & Hd & others & Ho & Hdel & Hins).
    repeat split; [assumption..|].
    exists others. repeat split; [assumption| |].
    + simpl. now rewrite Eh.
    + intros h'' Eh''. simpl. rewrite Eh. now apply Hins.
Qed.

(** [xt_flowoffload_check_device] on a device that has a hook: the hook is
    marked used, nothing else changes. *)
Lemma check_device_found (kz table : bool) (dev : net_device)
    (t : xt_flowoffload_table) (i : nat) (hook : xt_flowoffload_hook) :
  flow_offload_lookup_hook (tbl_hooks t) dev = Some (i, hook) ->
  xt_flowoffload_check_device kz table (Some dev) t =
    Some (tt, set_hooks (<[i := set_used true hook]> (tbl_hooks t)) t,
          [Ev_spin_lock_bh; Ev_spin_unlock_bh]).
Proof.
  intros E. unfold xt_flowoffload_check_device. munfold. simpl. now rewrite E.
Qed.

(** ... and on a device that has none, when the allocation succeeds. *)
Lemma check_device_created (table : bool) (dev : net_device)
    (t : xt_flowoffload_table) :
  flow_offload_lookup_hook (tbl_hooks t) dev = None ->
  xt_flowoffload_check_device true table (Some dev) t =
    Some (tt, set_work (Some 0) (set_hooks (new_hook table dev :: tbl_hooks t) t),
          [Ev_spin_lock_bh; Ev_hlist_add_head (new_hook table dev);
           Ev_spin_unlock_bh]).
Proof.
  intros E. unfold xt_flowoffload_check_device, xt_flowoffload_create_hook,
    mod_delayed_work. munfold. simpl. now rewrite E.
Qed.

Lemma hooks_for_same_ptr (dev dev' : net_device) (hooks : list xt_flowoffload_hook) :
  dev_ptr dev = dev_ptr dev' -> hooks_for dev hooks = hooks_for dev' hooks.
Proof. intros E. unfold hooks_for. now rewrite E. Qed.

Lemma hooks_for_insert (dev : net_device) (hooks : list xt_flowoffload_hook) :
  forall (i : nat) (hook hook' : xt_flowoffload_hook),
    hooks !! i = Some hook ->
    dev_ptr (ops_dev (hook_ops hook')) = dev_ptr (ops_dev (hook_ops hook)) ->
    length (hooks_for dev (<[i := hook']> hooks)) = length (hooks_for dev hooks).
Proof.
  induction hooks as [|h hs IH]; intros i hook hook' Hl Hp; [discriminate|].
  destruct i as [|i]; simpl in *.
  - injection Hl as ->. rewrite Hp. now destruct (_ =? _).
  - destruct (_ =? _); simpl; now rewrite (IH i hook hook').
Qed.

(** [xt_flowoffload_check_device], the only function that inserts a hook,
    keeps the collection at one hook per device at most. *)
Lemma check_device_one_hook_per_device (kz table : bool)
    (dev : option net_device) (t t' : xt_flowoffload_table) (evs : list event) :
  one_hook_per_device (tbl_hooks t) ->
  xt_flowoffload_check_device kz table dev t = Some (tt, t', evs) ->
  one_hook_per_device (tbl_hooks t').
Proof.
  intros Hone. destruct dev as [dev|]; [|now intros [= <- _]].
  destruct (flow_offload_lookup_hook (tbl_hooks t) dev) as [[i h]|] eqn:E.
  - rewrite (check_device_found _ _ _ _ _ _ E). intros [= <- _] d. simpl.
    destruct (lookup_hook_Some _ _ _ _ E) as (Hl & _).
    rewrite (hooks_for_insert d _ i h); [apply Hone|assumption|reflexivity].
  - destruct kz.
    + rewrite (check_device_created _ _ _ E). intros [= <- _] d. simpl.
      destruct (Z.eqb_spec (dev_ptr dev) (dev_ptr d)) as [Hp|_]; [|apply Hone].
      apply lookup_hook_None in E.
      now rewrite <- (hooks_for_same_ptr dev d _ Hp), E.
    + unfold xt_flowoffload_check_device, xt_flowoffload_create_hook.
      munfold. simpl. rewrite E. simpl. now intros [= <- _].
Qed.

(** C6 (as amended).  In a table that holds at most one hook per device,
    two calls of [xt_flowoffload_check_device] in a row for the same table
    and device, the hook allocation of the first call succeeding, leave
    exactly one hook for the device, and that hook is marked used.  When the
    device had no hook, the first call puts a new hook at the head of the
    collection, pending and unused, and queues the sweep with delay 0. *)
Theorem check_device_twice (kz2 table : bool) (dev : net_device)
    (t : xt_flowoffload_table) :
  (length (hooks_for dev (tbl_hooks t)) <= 1)%nat ->
  exists t1 t2 ev1 ev2 hook,
    xt_flowoffload_check_device true table (Some dev) t = Some (tt, t1, ev1) /\
    xt_flowoffload_check_device kz2 table (Some dev) t1 = Some (tt, t2, ev2) /\
    hooks_for dev (tbl_hooks t2) = [hook] /\
    hook_used hook = true /\
    (flow_offload_lookup_hook (tbl_hooks t) dev = None ->
       tbl_hooks t1 = new_hook table dev :: tbl_hooks t /\
       hook_registered (new_hook table dev) = false /\
       hook_used (new_hook table dev) = false /\
       tbl_work t1 = Some 0).
Proof.
  intros Hone.
  destruct (flow_offload_lookup_hook (tbl_hooks t) dev) as [[i h]|] eqn:E.
  - (* the device is hooked already *)
    destruct (lookup_hook_Some _ _ _ _ E) as (Hl & Hd & others & Ho & _ & Hins).
    rewrite Ho in Hone. destruct others; [|simpl in Hone; lia].
    pose (t1 := set_hooks (<[i := set_used true h]> (tbl_hooks t)) t).
    assert (E1 : flow_offload_lookup_hook (tbl_hooks t1) dev <> None).
    { intros N. apply lookup_hook_None in N. unfold t1 in N. simpl in N.
      rewrite (Hins (set_used true h) Hd) in N. discriminate. }
    destruct (flow_offload_lookup_hook (tbl_hooks t1) dev) as [[j h1]|] eqn:E2;
      [|congruence].
    destruct (lookup_hook_Some _ _ _ _ E2) as (_ & Hd1 & others1 & Ho1 & _ & Hins1).
    unfold t1 in Ho1. simpl in Ho1. rewrite (Hins (set_used true h) Hd) in Ho1.
    injection Ho1 as <- <-.
    exists t1, (set_hooks (<[j := set_used true (set_used true h)]> (tbl_hooks t1)) t1),
      [Ev_spin_lock_bh; Ev_spin_unlock_bh], [Ev_spin_lock_bh; Ev_spin_unlock_bh],
      (set_used true (set_used true h)).
    split; [now apply check_device_found|].
    split; [now apply check_device_found|].
    split; [simpl; now apply Hins1|].
    split; [reflexivity|discriminate].
  - (* the first call creates the hook, the second finds it at the head *)
    pose (t1 := set_work (Some 0) (set_hooks (new_hook table dev :: tbl_hooks t) t)).
    assert (E2 : flow_offload_lookup_hook (tbl_hooks t1) dev =
                 Some (0%nat, new_hook table dev)).
    { unfold t1. simpl. now rewrite Z.eqb_refl. }
    exists t1, (set_hooks (<[0%nat := set_used true (new_hook table dev)]> (tbl_hooks t1)) t1),
      [Ev_spin_lock_bh; Ev_hlist_add_head (new_hook table dev); Ev_spin_unlock_bh],
      [Ev_spin_lock_bh; Ev_spin_unlock_bh],
      (set_used true (new_hook table dev)).
    split; [now apply check_device_created|].
    split; [now apply check_device_found|].
    split; [|split; [reflexivity|intros _; repeat split]].
    simpl. rewrite Z.eqb_refl. apply lookup_hook_None in E. now rewrite E.
Qed.

(** The table [both_hooked] holds one hook of [eth0]. *)
Lemma check_device_twice_witness :
  exists t1 t2 ev1 ev2 hook,
    xt_flowoffload_check_device true false (Some eth0) (both_hooked.1)
      = Some (tt, t1, ev1) /\
    xt_flowoffload_check_device false false (Some eth0) t1 = Some (tt, t2, ev2) /\
    hooks_for eth0 (tbl_hooks t2) = [hook] /\
    hook_used hook = true /\
    (flow_offload_lookup_hook (tbl_hooks both_hooked.1) eth0 = None ->
       tbl_hooks t1 = new_hook false eth0 :: tbl_hooks both_hooked.1 /\
       hook_registered (new_hook false eth0) = false /\
       hook_used (new_hook false eth0) = false /\
       tbl_work t1 = Some 0).
Proof.
  apply (check_device_twice false false eth0 both_hooked.1). simpl. lia.
Defined.

(** C6, as the claim states it, fails when memory is short: neither call
    can allocate the hook, and the table holds no hook for the device after
    the second call. *)
Lemma check_device_twice_no_memory :
  (xt_flowoffload_check_device false false (Some eth0) >>>
   xt_flowoffload_check_device false false (Some eth0)) empty_table
  = Some (tt, empty_table,
          [Ev_spin_lock_bh; Ev_spin_unlock_bh; Ev_spin_lock_bh; Ev_spin_unlock_bh])
  /\ length (hooks_for eth0 (tbl_hooks empty_table)) = 0%nat.
Proof. split; reflexivity. Qed.

(** ** Device lifecycle observer *)

(** C9.  On [NETDEV_UNREGISTER] for a device that has a hook in both
    tables, [flow_offload_netdev_event] takes the hook lock, unlinks the
    hook of the device from the collection of either table, drops the lock,
    and only then unregisters and frees the first and the second hook,
    whatever their [used] and [registered] flags are; its last call asks the
    flow store to clean up the entries of the device.  In the tables it
    leaves, the collection of either table is the one it found without the
    hook of the device, one hook shorter, and the flow table and the work
    item are as before: no work item is queued or run for this.  In a table
    that held one hook per device no hook of the device is left. *)
Theorem netdev_unregister_revokes_both (dev : net_device) (ts : flowtables)
    (i0 i1 : nat) (hook0 hook1 : xt_flowoffload_hook) :
  flow_offload_lookup_hook (tbl_hooks ts.1) dev = Some (i0, hook0) ->
  flow_offload_lookup_hook (tbl_hooks ts.2) dev = Some (i1, hook1) ->
  exists ts',
    flow_offload_netdev_event NETDEV_UNREGISTER dev ts =
      Some (NOTIFY_DONE, ts',
            [Ev_spin_lock_bh; Ev_hlist_del hook0; Ev_hlist_del hook1;
             Ev_spin_unlock_bh;
             Ev_nf_unregister_net_hook (hook_net hook0) (hook_ops hook0);
             Ev_kfree hook0;
             Ev_nf_unregister_net_hook (hook_net hook1) (hook_ops hook1);
             Ev_kfree hook1;
             Ev_nf_flow_table_cleanup dev]) /\
    tbl_hooks ts.1 !! i0 = Some hook0 /\
    tbl_hooks ts.2 !! i1 = Some hook1 /\
    tbl_hooks ts'.1 = take i0 (tbl_hooks ts.1) ++ drop (S i0) (tbl_hooks ts.1) /\
    tbl_hooks ts'.2 = take i1 (tbl_hooks ts.2) ++ drop (S i1) (tbl_hooks ts.2) /\
    (length (tbl_hooks ts'.1) + 1 = length (tbl_hooks ts.1))%nat /\
    (length (tbl_hooks ts'.2) + 1 = length (tbl_hooks ts.2))%nat /\
    tbl_ft ts'.1 = tbl_ft ts.1 /\ tbl_ft ts'.2 = tbl_ft ts.2 /\
    tbl_work ts'.1 = tbl_work ts.1 /\ tbl_work ts'.2 = tbl_work ts.2 /\
    ((length (hooks_for dev (tbl_hooks ts.1)) <= 1)%nat ->
     hooks_for dev (tbl_hooks ts'.1) = [] /\
     flow_offload_lookup_hook (tbl_hooks ts'.1) dev = None) /\
    ((length (hooks_for dev (tbl_hooks ts.2)) <= 1)%nat ->
     hooks_for dev (tbl_hooks ts'.2) = [] /\
     flow_offload_lookup_hook (tbl_hooks ts'.2) dev = None).
Proof.
  intros E0 E1.
  assert (Hrun : flow_offload_netdev_event NETDEV_UNREGISTER dev ts =
            Some (NOTIFY_DONE,
                  (set_hooks (delete i0 (tbl_hooks ts.1)) ts.1,
                   set_hooks (delete i1 (tbl_hooks ts.2)) ts.2),
                  [Ev_spin_lock_bh; Ev_hlist_del hook0; Ev_hlist_del hook1;
                   Ev_spin_unlock_bh;
                   Ev_nf_unregister_net_hook (hook_net hook0) (hook_ops hook0);
                   Ev_kfree hook0;
                   Ev_nf_unregister_net_hook (hook_net hook1) (hook_ops hook1);
                   Ev_kfree hook1;
                   Ev_nf_flow_table_cleanup dev])).
  { destruct ts as [t0 t1]. simpl in E0, E1.
    unfold flow_offload_netdev_event, on_table, lookup_and_del,
      unregister_and_free.
    munfold. simpl. rewrite E0. simpl. rewrite E1. reflexivity. }
  rewrite Hrun. eexists. split; [reflexivity|].
  cbn [fst snd tbl_hooks tbl_ft tbl_work set_hooks].
  destruct (lookup_hook_Some _ _ _ _ E0) as (Hl0 & _ & others0 & Ho0 & Hdel0 & _).
  destruct (lookup_hook_Some _ _ _ _ E1) as (Hl1 & _ & others1 & Ho1 & Hdel1 & _).
  split; [exact Hl0|]. split; [exact Hl1|].
  split; [apply delete_take_drop|]. split; [apply delete_take_drop|].
  split.
  { rewrite length_delete by (now exists hook0). apply lookup_lt_Some in Hl0. lia. }
  split.
  { rewrite length_delete by (now exists hook1). apply lookup_lt_Some in Hl1. lia. }
  do 4 (split; [reflexivity|]).
  split; intros Hone.
  - assert (Hnone : hooks_for dev (delete i0 (tbl_hooks ts.1)) = []).
    { rewrite Hdel0. rewrite Ho0 in Hone.
      destruct others0; [reflexivity|simpl in Hone; lia]. }
    split; [exact Hnone|]. now apply lookup_hook_None.
  - assert (Hnone : hooks_for dev (delete i1 (tbl_hooks ts.2)) = []).
    { rewrite Hdel1. rewrite Ho1 in Hone.
      destruct others1; [reflexivity|simpl in Hone; lia]. }
    split; [exact Hnone|]. now apply lookup_hook_None.
Qed.

(** [eth0] has an installed hook in the first table and a pending one,
    behind the hook of [eth1], in the second. *)
Lemma netdev_unregister_revokes_both_witness :
  exists ts',
    flow_offload_netdev_event NETDEV_UNREGISTER eth0 both_hooked =
      Some (NOTIFY_DONE, ts',
            [Ev_spin_lock_bh; Ev_hlist_del installed_hook;
             Ev_hlist_del (new_hook true eth0); Ev_spin_unlock_bh;
             Ev_nf_unregister_net_hook (hook_net installed_hook)
               (hook_ops installed_hook);
             Ev_kfree installed_hook;
             Ev_nf_unregister_net_hook (hook_net (new_hook true eth0))
               (hook_ops (new_hook true eth0));
             Ev_kfree (new_hook true eth0);
             Ev_nf_flow_table_cleanup eth0]) /\
    tbl_hooks both_hooked.1 !! 0%nat = Some installed_hook /\
    tbl_hooks both_hooked.2 !! 1%nat = Some (new_hook true eth0) /\
    tbl_hooks ts'.1 =
      take 0 (tbl_hooks both_hooked.1) ++ drop 1 (tbl_hooks both_hooked.1) /\
    tbl_hooks ts'.2 =
      take 1 (tbl_hooks both_hooked.2) ++ drop 2 (tbl_hooks both_hooked.2) /\
    (length (tbl_hooks ts'.1) + 1 = length (tbl_hooks both_hooked.1))%nat /\
    (length (tbl_hooks ts'.2) + 1 = length (tbl_hooks both_hooked.2))%nat /\
    tbl_ft ts'.1 = tbl_ft both_hooked.1 /\ tbl_ft ts'.2 = tbl_ft both_hooked.2 /\
    tbl_work ts'.1 = tbl_work both_hooked.1 /\
    tbl_work ts'.2 = tbl_work both_hooked.2 /\
    ((length (hooks_for eth0 (tbl_hooks both_hooked.1)) <= 1)%nat ->
     hooks_for eth0 (tbl_hooks ts'.1) = [] /\
     flow_offload_lookup_hook (tbl_hooks ts'.1) eth0 = None) /\
    ((length (hooks_for eth0 (tbl_hooks both_hooked.2)) <= 1)%nat ->
     hooks_for eth0 (tbl_hooks ts'.2) = [] /\
     flow_offload_lookup_hook (tbl_hooks ts'.2) eth0 = None).
Proof.
  apply (netdev_unregister_revokes_both eth0 both_hooked 0 1
           installed_hook (new_hook true eth0)); reflexivity.
Defined.

(** ** Ingress interception hook *)

(** C10.  When the flow store of the table is empty, or the protocol of
    the packet is neither IPv4 nor IPv6, [xt_flowoffload_net_hook] returns
    [NF_ACCEPT] and calls neither fast-path function; so a fast-path
    function is only called for an IPv4 or IPv6 packet and a table that
    holds a flow. *)
Theorem net_hook_accepts (cpu_big_endian : bool)
    (ip_hook ipv6_hook : nf_flowtable -> sk_buff -> Z)
    (skb : sk_buff) (ft : nf_flowtable) :
  ft_flows ft = [] \/
  (skb_protocol skb <> htons cpu_big_endian ETH_P_IP /\
   skb_protocol skb <> htons cpu_big_endian ETH_P_IPV6) ->
  xt_flowoffload_net_hook cpu_big_endian ip_hook ipv6_hook skb ft =
    Some (NF_ACCEPT, ft, []) /\
  (NF_ACCEPT =? NF_DROP) = false.
Proof.
  intros H. split; [|reflexivity].
  unfold xt_flowoffload_net_hook, rhashtable_nelems. munfold.
  destruct H as [H|[H4 H6]].
  - now rewrite H.
  - destruct (2 * Z.of_nat (length (ft_flows ft)) =? 0); [reflexivity|].
    destruct (Z.eqb_spec (skb_protocol skb) (htons cpu_big_endian ETH_P_IP));
      [contradiction|].
    destruct (Z.eqb_spec (skb_protocol skb) (htons cpu_big_endian ETH_P_IPV6));
      [contradiction|].
    reflexivity.
Qed.

(** An ARP packet on a little-endian machine, the table holding a flow. *)
Lemma net_hook_accepts_witness :
  xt_flowoffload_net_hook false (fun _ _ => NF_DROP) (fun _ _ => NF_DROP) arp_skb
    (set_ft_flows [sample_flow] empty_ft)
  = Some (NF_ACCEPT, set_ft_flows [sample_flow] empty_ft, []) /\
  (NF_ACCEPT =? NF_DROP) = false.
Proof.
  apply (net_hook_accepts false (fun _ _ => NF_DROP) (fun _ _ => NF_DROP) arp_skb
           (set_ft_flows [sample_flow] empty_ft)).
  right. split; discriminate.
Defined.

(** X14.  When the table holds a flow, [xt_flowoffload_net_hook] hands an
    IPv4 packet to [nf_flow_offload_ip_hook] and an IPv6 packet to
    [nf_flow_offload_ipv6_hook], makes no other call, and returns the verdict
    of the function it called as it is, the drop verdict included; the flow
    table is untouched. *)
Lemma net_hook_fast_path (cpu_big_endian : bool)
    (ip_hook ipv6_hook : nf_flowtable -> sk_buff -> Z)
    (skb : sk_buff) (ft : nf_flowtable) :
  ft_flows ft <> [] ->
  (skb_protocol skb = htons cpu_big_endian ETH_P_IP ->
   xt_flowoffload_net_hook cpu_big_endian ip_hook ipv6_hook skb ft =
     Some (ip_hook ft skb, ft, [Ev_nf_flow_offload_ip_hook])) /\
  (skb_protocol skb = htons cpu_big_endian ETH_P_IPV6 ->
   xt_flowoffload_net_hook cpu_big_endian ip_hook ipv6_hook skb ft =
     Some (ipv6_hook ft skb, ft, [Ev_nf_flow_offload_ipv6_hook])).
Proof.
  intros Hne.
  assert (E : (rhashtable_nelems ft =? 0) = false).
  { unfold rhashtable_nelems. destruct (ft_flows ft); [congruence|].
    apply Z.eqb_neq. simpl length. lia. }
  unfold xt_flowoffload_net_hook. munfold. rewrite E.
  split; intros ->.
  - now rewrite Z.eqb_refl.
  - destruct cpu_big_endian; reflexivity.
Qed.

(** An IPv4 packet on a little-endian machine, the IPv4 fast path dropping
    it. *)
Lemma net_hook_fast_path_witness :
  (skb_protocol ipv4_skb = htons false ETH_P_IP ->
   xt_flowoffload_net_hook false (fun _ _ => NF_DROP) (fun _ _ => NF_ACCEPT) ipv4_skb
     (set_ft_flows [sample_flow] empty_ft) =
     Some ((fun _ _ => NF_DROP) (set_ft_flows [sample_flow] empty_ft) ipv4_skb,
           set_ft_flows [sample_flow] empty_ft, [Ev_nf_flow_offload_ip_hook])) /\
  (skb_protocol ipv4_skb = htons false ETH_P_IPV6 ->
   xt_flowoffload_net_hook false (fun _ _ => NF_DROP) (fun _ _ => NF_ACCEPT) ipv4_skb
     (set_ft_flows [sample_flow] empty_ft) =
     Some ((fun _ _ => NF_ACCEPT) (set_ft_flows [sample_flow] empty_ft) ipv4_skb,
           set_ft_flows [sample_flow] empty_ft, [Ev_nf_flow_offload_ipv6_hook])).
Proof.
  apply (net_hook_fast_path false (fun _ _ => NF_DROP) (fun _ _ => NF_ACCEPT)
           ipv4_skb (set_ft_flows [sample_flow] empty_ft)).
  simpl. discriminate.
Defined.

(** ** Periodic sweeper *)

Lemma insert_after (pre : list xt_flowoffload_hook) (h h' : xt_flowoffload_hook)
    (rest : list xt_flowoffload_hook) :
  <[length pre := h']> (pre ++ h :: rest) = pre ++ h' :: rest.
Proof. induction pre as [|p pre IH]; simpl; [reflexivity|]. now f_equal. Qed.

Lemma delete_after (pre : list xt_flowoffload_hook) (h : xt_flowoffload_hook)
    (rest : list xt_flowoffload_hook) :
  delete (length pre) (pre ++ h :: rest) = pre ++ rest.
Proof. induction pre as [|p pre IH]; simpl; [reflexivity|]. now f_equal. Qed.

Lemma register_scan_done (pre : list xt_flowoffload_hook) :
  Forall (fun h => hook_registered h = true) pre ->
  register_hooks_scan pre = None.
Proof.
  induction 1 as [|p pre Hp _ IH]; simpl; [reflexivity|].
  now rewrite Hp, IH.
Qed.

Lemma register_scan_stops (pre : list xt_flowoffload_hook)
    (h : xt_flowoffload_hook) (rest : list xt_flowoffload_hook) :
  Forall (fun h => hook_registered h = true) pre ->
  hook_registered h = false ->
  register_hooks_scan (pre ++ h :: rest) = Some (length pre, h).
Proof.
  intros Hpre Hh. induction Hpre as [|p pre Hp _ IH]; simpl.
  - now rewrite Hh.
  - now rewrite Hp, IH.
Qed.

(** The register phase, from its [restart:] label: every hook behind the
    registered hooks [pre] ends up registered, and the restarts are
    enough. *)
Lemma register_hooks_restart_spec (rest : list xt_flowoffload_hook) :
  forall (pre : list xt_flowoffload_hook) (fuel : nat) (t : xt_flowoffload_table),
    Forall (fun h => hook_registered h = true) pre ->
    tbl_hooks t = pre ++ rest ->
    (length rest < fuel)%nat ->
    register_hooks_restart fuel t =
      Some (tt, set_hooks (pre ++ map install rest) t,
            flat_map (register_events (hw_offload t)) rest).
Proof.
  induction rest as [|h rest IH]; intros pre fuel t Hpre Ht Hfuel.
  - destruct fuel as [|fuel]; [simpl in Hfuel; lia|].
    rewrite app_nil_r in Ht. simpl. munfold.
    rewrite Ht, (register_scan_done _ Hpre).
    destruct t; simpl in *. subst. unfold set_hooks. simpl.
    now rewrite app_nil_r.
  - destruct (hook_registered h) eqn:Hh.
    + rewrite (IH (pre ++ [h]) fuel t).
      * simpl. unfold install at 2, register_events at 2. rewrite Hh.
        now rewrite <- app_assoc.
      * apply Forall_app. split; [assumption|]. now constructor.
      * now rewrite <- app_assoc.
      * simpl in Hfuel. lia.
    + destruct fuel as [|fuel]; [simpl in Hfuel; lia|].
      simpl register_hooks_restart. munfold.
      rewrite Ht, (register_scan_stops _ _ _ Hpre Hh), insert_after.
      simpl.
      pose (t' := set_hooks (pre ++ set_registered h :: rest) t).
      assert (IH' := IH (pre ++ [set_registered h]) fuel t').
      rewrite <- app_assoc in IH'. simpl in IH'.
      assert (Hw : hw_offload t' = hw_offload t) by reflexivity.
      fold t'.
      destruct (hw_offload t) eqn:Ehw; simpl; rewrite IH'; try rewrite Hw;
        try (apply Forall_app; split; [assumption|now constructor]);
        try reflexivity; try (simpl in Hfuel; lia).
      * unfold install at 2, register_events at 2. rewrite Hh.
        simpl. now rewrite <- app_assoc.
      * unfold install at 2, register_events at 2. rewrite Hh.
        simpl. now rewrite <- app_assoc.
Qed.

(** [xt_flowoffload_register_hooks] leaves every hook registered. *)
Lemma register_hooks_spec (t : xt_flowoffload_table) :
  xt_flowoffload_register_hooks t =
    Some (tt, set_hooks (map install (tbl_hooks t)) t,
          flat_map (register_events (hw_offload t)) (tbl_hooks t)).
Proof.
  unfold xt_flowoffload_register_hooks. unfold bind at 1, get at 1.
  rewrite (register_hooks_restart_spec (tbl_hooks t) [] _ t);
    [reflexivity|constructor|reflexivity|lia].
Qed.

Lemma cleanup_scan_done (pre : list xt_flowoffload_hook) :
  Forall (fun h => hook_active h = true) pre ->
  cleanup_hooks_scan pre = (existsb hook_active pre, None).
Proof.
  induction 1 as [|p pre Hp _ IH]; simpl; [reflexivity|].
  unfold hook_active in Hp. rewrite Hp, IH. simpl.
  unfold hook_active at 1. now rewrite Hp.
Qed.

Lemma cleanup_scan_stops (pre : list xt_flowoffload_hook)
    (h : xt_flowoffload_hook) (rest : list xt_flowoffload_hook) :
  Forall (fun h => hook_active h = true) pre ->
  hook_active h = false ->
  cleanup_hooks_scan (pre ++ h :: rest) =
    (existsb hook_active pre, Some (length pre, h)).
Proof.
  intros Hpre Hh. induction Hpre as [|p pre Hp _ IH]; simpl.
  - unfold hook_active in Hh. now rewrite Hh.
  - unfold hook_active in Hp. rewrite Hp, IH. simpl.
    unfold hook_active at 1. now rewrite Hp.
Qed.

Lemma existsb_active_app (pre rest : list xt_flowoffload_hook) :
  existsb hook_active (pre ++ rest) =
  existsb hook_active pre || existsb hook_active rest.
Proof. apply existsb_app. Qed.

(** The reap phase, from its [restart:] label: of the hooks behind the
    active hooks [pre], those that are registered and unused are removed,
    unregistered and freed; the others stay, and [active] tells whether there
    is one. *)
Lemma cleanup_hooks_restart_spec (rest : list xt_flowoffload_hook) :
  forall (pre : list xt_flowoffload_hook) (fuel : nat) (active : bool)
         (t : xt_flowoffload_table),
    Forall (fun h => hook_active h = true) pre ->
    tbl_hooks t = pre ++ rest ->
    (length rest < fuel)%nat ->
    cleanup_hooks_restart fuel active t =
      Some (active || existsb hook_active (pre ++ rest),
            set_hooks (pre ++ List.filter hook_active rest) t,
            flat_map (reap_events (hw_offload t)) rest ++
            [Ev_spin_lock_bh; Ev_spin_unlock_bh]).
Proof.
  induction rest as [|h rest IH]; intros pre fuel active t Hpre Ht Hfuel.
  - destruct fuel as [|fuel]; [simpl in Hfuel; lia|].
    rewrite app_nil_r in Ht. simpl. munfold.
    rewrite Ht, (cleanup_scan_done _ Hpre).
    destruct t; simpl in *. subst. unfold set_hooks. simpl.
    now rewrite !app_nil_r.
  - destruct (hook_active h) eqn:Hh.
    + rewrite (IH (pre ++ [h]) fuel active t).
      * simpl. unfold reap_events at 2. rewrite Hh.
        now rewrite <- !app_assoc.
      * apply Forall_app. split; [assumption|]. now constructor.
      * now rewrite <- app_assoc.
      * simpl in Hfuel. lia.
    + destruct fuel as [|fuel]; [simpl in Hfuel; lia|].
      simpl cleanup_hooks_restart. munfold.
      rewrite Ht, (cleanup_scan_stops _ _ _ Hpre Hh), delete_after.
      pose (t' := set_hooks (pre ++ rest) t).
      assert (IH' := IH pre fuel (active || existsb hook_active pre) t' Hpre eq_refl).
      assert (Hw : hw_offload t' = hw_offload t) by reflexivity.
      assert (Hex : active || existsb hook_active pre || existsb hook_active (pre ++ rest)
                    = active || existsb hook_active (pre ++ h :: rest)).
      { rewrite !existsb_active_app. simpl. rewrite Hh.
        destruct active, (existsb hook_active pre), (existsb hook_active rest);
          reflexivity. }
      fold t'. simpl.
      destruct (hw_offload t) eqn:Ehw; simpl; rewrite IH'; try rewrite Hw;
        try (simpl in Hfuel; lia).
      * rewrite Hex. unfold reap_events at 2. now rewrite Hh.
      * rewrite Hex. unfold reap_events at 2. now rewrite Hh.
Qed.

Lemma cleanup_hooks_spec (t : xt_flowoffload_table) :
  xt_flowoffload_cleanup_hooks t =
    Some (existsb hook_active (tbl_hooks t),
          set_hooks (List.filter hook_active (tbl_hooks t)) t,
          flat_map (reap_events (hw_offload t)) (tbl_hooks t) ++
          [Ev_spin_lock_bh; Ev_spin_unlock_bh]).
Proof.
  unfold xt_flowoffload_cleanup_hooks. unfold bind at 1, get at 1.
  rewrite (cleanup_hooks_restart_spec (tbl_hooks t) [] _ false t);
    [reflexivity|constructor|reflexivity|lia].
Qed.

Lemma for_each_check_hook (flows : list flow_offload) :
  forall t : xt_flowoffload_table,
    for_each xt_flowoffload_check_hook flows t =
      Some (tt, set_hooks (mark_live flows (tbl_hooks t)) t,
            flat_map (fun _ => [Ev_spin_lock_bh; Ev_spin_unlock_bh]) flows).
Proof.
  induction flows as [|f flows IH]; intros t; simpl.
  - destruct t; reflexivity.
  - unfold bind at 1. unfold xt_flowoffload_check_hook at 1. munfold. simpl.
    rewrite (IH (set_hooks (map (check_hook_mark f) (tbl_hooks t)) t)).
    reflexivity.
Qed.

(** One sweep cycle, phase by phase. *)
Lemma process_one_work_spec (HZ : Z) (stop : option (nat * Z))
    (t : xt_flowoffload_table) :
  process_one_work HZ stop t =
    Some (tt,
          (if hard_error stop
           then set_work (Some HZ) (set_hooks (swept_hooks stop t) t)
           else set_work (if existsb hook_active (swept_hooks stop t)
                          then Some HZ else None)
                  (set_hooks (List.filter hook_active (swept_hooks stop t)) t)),
          [Ev_spin_lock_bh] ++
          flat_map (register_events (hw_offload t)) (tbl_hooks t) ++
          [Ev_spin_unlock_bh] ++
          flat_map (fun _ => [Ev_spin_lock_bh; Ev_spin_unlock_bh])
            (visited stop (ft_flows (tbl_ft t))) ++
          (if hard_error stop then []
           else flat_map (reap_events (hw_offload t)) (swept_hooks stop t) ++
                [Ev_spin_lock_bh; Ev_spin_unlock_bh])).
Proof.
  unfold process_one_work, xt_flowoffload_hook_work, nf_flow_table_iterate,
    queue_delayed_work, swept_hooks.
  unfold bind, modify, emit, get.
  rewrite register_hooks_spec. simpl.
  destruct stop as [[n err]|]; simpl.
  - unfold bind. rewrite for_each_check_hook. simpl. unfold ret.
    destruct (negb (err =? 0) && negb (err =? - EAGAIN)); simpl.
    + now rewrite !app_nil_r.
    + rewrite cleanup_hooks_spec. simpl.
      destruct (existsb hook_active _); simpl; now rewrite ?app_nil_r.
  - unfold bind. rewrite for_each_check_hook. simpl. unfold ret. simpl.
    rewrite cleanup_hooks_spec. simpl.
    destruct (existsb hook_active _); simpl; now rewrite ?app_nil_r.
Qed.

Lemma existsb_active_filter (hooks : list xt_flowoffload_hook) :
  existsb hook_active (List.filter hook_active hooks) = existsb hook_active hooks.
Proof.
  induction hooks as [|h hooks IH]; simpl; [reflexivity|].
  destruct (hook_active h) eqn:Hh; simpl; now rewrite ?Hh, ?IH.
Qed.

Lemma mark_live_nil (flows : list flow_offload) : mark_live flows [] = [].
Proof. induction flows as [|f flows IH]; simpl; [reflexivity|apply IH]. Qed.

(** C8 (as amended).  A sweep cycle leaves its work item queued for the
    next interval exactly when the flow iteration ended with an error other
    than a retry request (the reap phase is then skipped), or when a hook
    that is in use or not yet registered is left after the reap phase;
    otherwise the work item is left idle.  A retry request counts as
    success. *)
Theorem sweep_reschedules (HZ : Z) (stop : option (nat * Z))
    (t : xt_flowoffload_table) :
  exists t' evs,
    process_one_work HZ stop t = Some (tt, t', evs) /\
    tbl_work t' =
      (if hard_error stop || existsb hook_active (tbl_hooks t')
       then Some HZ else None).
Proof.
  rewrite process_one_work_spec.
  eexists _, _. split; [reflexivity|].
  destruct (hard_error stop); simpl; [reflexivity|].
  now rewrite existsb_active_filter.
Qed.

(** C8, as the claim states it, fails on a retry request: the iteration
    reports [-EAGAIN] before it has visited a flow, the cycle reaps the only
    hook, and the work item is left idle. *)
Lemma retry_request_goes_idle :
  exists evs,
    process_one_work sample_HZ (Some (0%nat, - EAGAIN)) one_fresh_hook_table
      = Some (tt, empty_table, evs) /\
    tbl_work empty_table = None.
Proof. eexists. split; reflexivity. Qed.

(** Further cycles find nothing to do on a table without hooks. *)
Lemma sweep_cycles_no_hooks (HZ : Z) (stops : list (option (nat * Z))) :
  forall t : xt_flowoffload_table,
    tbl_hooks t = [] ->
    exists t' evs,
      sweep_cycles HZ stops t = Some (tt, t', evs) /\ tbl_hooks t' = [].
Proof.
  induction stops as [|stop stops IH]; intros t Ht; simpl.
  - now exists t, [].
  - unfold bind. rewrite process_one_work_spec.
    unfold swept_hooks. rewrite Ht. simpl. rewrite mark_live_nil. simpl.
    match goal with
    | |- context [sweep_cycles HZ stops ?t1] =>
        destruct (IH t1) as (t' & evs & E & Hn)
    end.
    { now destruct (hard_error stop). }
    rewrite E. now eexists _, _.
Qed.

Lemma fresh_hooks_swept (hooks : list xt_flowoffload_hook) :
  Forall hook_fresh hooks ->
  map install hooks = map set_registered hooks /\
  List.filter hook_active (map (set_used false) (map set_registered hooks)) = [] /\
  existsb hook_active (map (set_used false) (map set_registered hooks)) = false.
Proof.
  induction 1 as [|h hooks (Hr & _) _ (IH1 & IH2 & IH3)]; simpl; [easy|].
  unfold install at 1. rewrite Hr, IH1. now split.
Qed.

(** C7 (as amended).  On a table whose hooks are all pending and unused
    and whose flow store is empty, a single sweep cycle whose flow iteration
    reports no error other than a retry request leaves no hook: the cycle
    registers every hook, clears the used flags and, as no flow marks a
    hook, unlinks, unregisters and frees every hook in its own reap phase;
    the work item is left idle.  Any number of further cycles leaves the
    collection empty. *)
Theorem sweep_reaps_fresh_hooks (HZ : Z) (stop : option (nat * Z))
    (t : xt_flowoffload_table) :
  Forall hook_fresh (tbl_hooks t) ->
  ft_flows (tbl_ft t) = [] ->
  hard_error stop = false ->
  process_one_work HZ stop t =
    Some (tt, set_work None (set_hooks [] t),
          [Ev_spin_lock_bh] ++
          flat_map (register_events (hw_offload t)) (tbl_hooks t) ++
          [Ev_spin_unlock_bh] ++
          flat_map (reap_events (hw_offload t))
            (map (set_used false) (map set_registered (tbl_hooks t))) ++
          [Ev_spin_lock_bh; Ev_spin_unlock_bh]) /\
  forall more : list (option (nat * Z)),
    exists t' evs,
      sweep_cycles HZ (stop :: more) t = Some (tt, t', evs) /\
      tbl_hooks t' = [].
Proof.
  intros Hfresh Hflows Hstop.
  destruct (fresh_hooks_swept _ Hfresh) as (Hi & Hf & He).
  assert (Hs : swept_hooks stop t =
               map (set_used false) (map set_registered (tbl_hooks t))).
  { unfold swept_hooks. rewrite Hflows, Hi. now destruct stop as [[[|n] err]|]. }
  assert (Hv : visited stop (ft_flows (tbl_ft t)) = []).
  { rewrite Hflows. now destruct stop as [[[|n] err]|]. }
  assert (E : process_one_work HZ stop t =
    Some (tt, set_work None (set_hooks [] t),
          [Ev_spin_lock_bh] ++
          flat_map (register_events (hw_offload t)) (tbl_hooks t) ++
          [Ev_spin_unlock_bh] ++
          flat_map (reap_events (hw_offload t))
            (map (set_used false) (map set_registered (tbl_hooks t))) ++
          [Ev_spin_lock_bh; Ev_spin_unlock_bh])).
  { rewrite process_one_work_spec, Hstop, Hs, Hv, Hf, He. reflexivity. }
  split; [exact E|].
  intros more. simpl. unfold bind. rewrite E.
  destruct (sweep_cycles_no_hooks HZ more (set_work None (set_hooks [] t)) eq_refl)
    as (t' & evs & E' & Hn).
  rewrite E'. now eexists _, _.
Qed.

(** One pending hook of [eth0], no flow, an iteration without error. *)
Lemma sweep_reaps_fresh_hooks_witness :
  process_one_work sample_HZ None one_fresh_hook_table =
    Some (tt, set_work None (set_hooks [] one_fresh_hook_table),
          [Ev_spin_lock_bh] ++
          flat_map (register_events (hw_offload one_fresh_hook_table))
            (tbl_hooks one_fresh_hook_table) ++
          [Ev_spin_unlock_bh] ++
          flat_map (reap_events (hw_offload one_fresh_hook_table))
            (map (set_used false)
               (map set_registered (tbl_hooks one_fresh_hook_table))) ++
          [Ev_spin_lock_bh; Ev_spin_unlock_bh]) /\
  forall more : list (option (nat * Z)),
    exists t' evs,
      sweep_cycles sample_HZ (None :: more) one_fresh_hook_table
        = Some (tt, t', evs) /\
      tbl_hooks t' = [].
Proof.
  apply (sweep_reaps_fresh_hooks sample_HZ None one_fresh_hook_table).
  - repeat constructor.
  - reflexivity.
  - reflexivity.
Defined.

(** C7, as the claim states it, fails: the first cycle does not leave the
    installed hook for the next cycle to reap.  It registers the hook of
    [eth0] and, in its own reap phase, unregisters and frees it; the
    collection is empty and the work item idle when the first cycle ends. *)
Lemma first_cycle_reaps_fresh_hook :
  process_one_work sample_HZ None one_fresh_hook_table =
    Some (tt, empty_table,
          [Ev_spin_lock_bh;
           Ev_spin_unlock_bh;
           Ev_nf_register_net_hook 1 (hook_ops (new_hook false eth0));
           Ev_spin_lock_bh;
           Ev_spin_unlock_bh;
           Ev_spin_lock_bh;
           Ev_hlist_del (set_registered (new_hook false eth0));
           Ev_spin_unlock_bh;
           Ev_nf_unregister_net_hook (Some 1) (hook_ops (new_hook false eth0));
           Ev_kfree (set_registered (new_hook false eth0));
           Ev_spin_lock_bh;
           Ev_spin_unlock_bh]) /\
  length (tbl_hooks empty_table) = 0%nat.
Proof. split; reflexivity. Qed.

(** ** Path resolver *)

Lemma route_tuple_upd_same (dir : ip_conntrack_dir)
    (f : nf_flow_route_tuple -> nf_flow_route_tuple) (route : nf_flow_route) :
  route_tuple dir (upd_tuple dir f route) = f (route_tuple dir route).
Proof. now destruct dir. Qed.

Lemma route_tuple_upd_other (dir : ip_conntrack_dir)
    (f : nf_flow_route_tuple -> nf_flow_route_tuple) (route : nf_flow_route) :
  route_tuple (dir_not dir) (upd_tuple dir f route) = route_tuple (dir_not dir) route.
Proof. now destruct dir. Qed.

Lemma route_tuple_upd_not (dir : ip_conntrack_dir)
    (f : nf_flow_route_tuple -> nf_flow_route_tuple) (route : nf_flow_route) :
  route_tuple dir (upd_tuple (dir_not dir) f route) = route_tuple dir route.
Proof. now destruct dir. Qed.

Lemma opposite_num_encaps_upd (dir : ip_conntrack_dir)
    (f : nf_flow_route_tuple -> nf_flow_route_tuple) (route : nf_flow_route) :
  opposite_num_encaps dir (upd_tuple dir f route) = opposite_num_encaps dir route.
Proof. unfold opposite_num_encaps. now rewrite route_tuple_upd_other. Qed.

Lemma opposite_num_encaps_upd_not (dir : ip_conntrack_dir)
    (f : nf_flow_route_tuple -> nf_flow_route_tuple) (route : nf_flow_route) :
  opposite_num_encaps dir (upd_tuple (dir_not dir) f route) =
  in_num_encaps (f (route_tuple (dir_not dir) route)).
Proof. unfold opposite_num_encaps. now rewrite route_tuple_upd_same. Qed.

(** What one iteration of the walk does to the control state of the loop:
    whether it is defined, the device it leaves in hand, whether it ends the
    walk, and the encapsulation count of the opposite direction. *)
Lemma path_step_control (ENCAP_MAX FIELD_BITS : Z) (dir : ip_conntrack_dir)
    (np i : Z) (path : net_device_path) (s : walk_state) :
  let n := opposite_num_encaps dir (ws_route s) in
  match path_step ENCAP_MAX FIELD_BITS dir np i path s with
  | None => seg_shift_ok n path = false
  | Some s' =>
      seg_shift_ok n path = true /\
      ws_dev s' = path_dev path /\
      ws_last s' = ws_last s || seg_ends ENCAP_MAX np i n path /\
      opposite_num_encaps dir (ws_route s') =
        seg_count ENCAP_MAX FIELD_BITS np i n path
  end.
Proof.
  intros n. subst n. unfold path_step, opposite_num_encaps.
  set (r1 := if flow_is_valid_ether_device (path_dev path) then _ else _).
  assert (Hopp : route_tuple (dir_not dir) r1 = route_tuple (dir_not dir) (ws_route s)).
  { subst r1. destruct (flow_is_valid_ether_device (path_dev path)); [|reflexivity].
    destruct (path_dev path); [|reflexivity].
    rewrite route_tuple_upd_other.
    destruct (negb _); [apply route_tuple_upd_other|reflexivity]. }
  clearbody r1.
  set (n := in_num_encaps (route_tuple (dir_not dir) (ws_route s))).
  unfold seg_shift_ok, seg_hw_untag, seg_count, seg_ends, seg_final, seg_push, seg_pop.
  destruct (path_type path) eqn:Ety; cbv zeta; cbn [negb orb andb].
  - (* DEV_PATH_ETHERNET *)
    cbn [ws_dev ws_last ws_route with_last]. rewrite orb_true_r, Hopp. now repeat split.
  - (* DEV_PATH_VLAN *)
    destruct ((n >=? ENCAP_MAX) || (i =? np)) eqn:G;
      cbn [ws_dev ws_last ws_route with_last].
    + rewrite orb_true_r, Hopp. now repeat split.
    + rewrite orb_false_r, route_tuple_upd_same, Hopp. now repeat split.
  - (* DEV_PATH_BRIDGE *)
    destruct (path_bridge_vlan_mode path) eqn:Emode; cbn [negb orb andb].
    + cbn [ws_dev ws_last ws_route]. rewrite orb_false_r, Hopp. now repeat split.
    + destruct ((n >=? ENCAP_MAX) || (i =? np)) eqn:G;
        cbn [ws_dev ws_last ws_route with_last].
      * rewrite orb_true_r, Hopp. now repeat split.
      * rewrite orb_false_r, route_tuple_upd_same, Hopp. now repeat split.
    + cbn [ws_dev ws_last ws_route]. rewrite orb_false_r, route_tuple_upd_same, Hopp.
      now repeat split.
    + unfold BIT. destruct ((0 <=? n - 1) && (n - 1 <? BITS_PER_LONG)); [|reflexivity].
      cbn [ws_dev ws_last ws_route]. rewrite orb_false_r, route_tuple_upd_same, Hopp.
      now repeat split.
  - (* DEV_PATH_PPPOE *)
    destruct ((n >=? ENCAP_MAX) || (i =? np)) eqn:G;
      cbn [ws_dev ws_last ws_route with_last].
    + rewrite orb_true_r, Hopp. now repeat split.
    + rewrite orb_false_r, route_tuple_upd_other, route_tuple_upd_same, Hopp.
      now repeat split.
  - (* DEV_PATH_DSA *)
    cbn [ws_dev ws_last ws_route with_last]. rewrite orb_true_r, Hopp. now repeat split.
Qed.

Lemma walk_defined_eq (ENCAP_MAX FIELD_BITS np i n : Z) (have_dev : bool)
    (segs : list net_device_path) :
  walk_defined ENCAP_MAX FIELD_BITS np i n have_dev segs =
    if i <=? np then
      match segs with
      | [] => false
      | p :: rest =>
          seg_shift_ok n p &&
          (if seg_ends ENCAP_MAX np i n p then has_dev p
           else walk_defined ENCAP_MAX FIELD_BITS np (i + 1)
                  (seg_count ENCAP_MAX FIELD_BITS np i n p) (has_dev p) rest)
      end
    else have_dev.
Proof. now destruct segs. Qed.


Lemma has_dev_is_Some (path : net_device_path) :
  has_dev path = true <-> is_Some (path_dev path).
Proof.
  unfold has_dev. destruct (path_dev path); split.
  - intros _. now eexists.
  - reflexivity.
  - discriminate.
  - now intros [x Hx].
Qed.

Lemma drop_lookup_cons {A} (l : list A) (j : nat) (p : A) (rest : list A) :
  drop j l = p :: rest -> l !! j = Some p /\ drop (S j) l = rest.
Proof.
  intros Ed. split.
  - rewrite <- (Nat.add_0_r j), <- lookup_drop, Ed. reflexivity.
  - rewrite <- (Nat.add_1_r j), <- drop_drop, Ed. reflexivity.
Qed.

Section ResolverProofs.

Variable ENCAP_MAX : Z.
Variable FIELD_BITS : Z.

(** The walk is defined, and ends with a device in hand once it has run to
    its end, on every stack that [walk_defined] accepts. *)
Lemma path_walk_defined (dir : ip_conntrack_dir) (stack : net_device_path_stack)
    (fuel : nat) :
  forall (j : nat) (s : walk_state),
    ws_last s = false ->
    walk_defined ENCAP_MAX FIELD_BITS (num_paths stack) (Z.of_nat j)
      (opposite_num_encaps dir (ws_route s))
      (match ws_dev s with Some _ => true | None => false end)
      (drop j (stack_path stack)) = true ->
    exists s',
      path_walk ENCAP_MAX FIELD_BITS fuel dir stack (Z.of_nat j) s = Some s' /\
      (num_paths stack + 1 - Z.of_nat j <= Z.of_nat fuel -> is_Some (ws_dev s')).
Proof.
  induction fuel as [|fuel IH]; intros j s Hlast Hw; rewrite walk_defined_eq in Hw;
    simpl path_walk.
  - exists s. split; [reflexivity|]. intros Hj.
    destruct (Z.leb_spec (Z.of_nat j) (num_paths stack)); [lia|].
    destruct (ws_dev s); [now eexists|discriminate].
  - destruct (Z.leb_spec (Z.of_nat j) (num_paths stack)) as [Hle|Hgt].
    2:{ exists s. split; [reflexivity|]. intros _.
        destruct (ws_dev s); [now eexists|discriminate]. }
    destruct (drop j (stack_path stack)) as [|p rest] eqn:Ed; [discriminate|].
    destruct (drop_lookup_cons _ _ _ _ Ed) as [Hl Er].
    rewrite Nat2Z.id, Hl.
    apply andb_true_iff in Hw as [Hshift Hw].
    pose proof (path_step_control ENCAP_MAX FIELD_BITS dir (num_paths stack)
                  (Z.of_nat j) p s) as Hc.
    cbv zeta in Hc.
    destruct (path_step ENCAP_MAX FIELD_BITS dir (num_paths stack) (Z.of_nat j) p s)
      as [s1|]; [|congruence].
    destruct Hc as (_ & Hdev & Hl1 & Hn1).
    rewrite Hlast in Hl1. simpl in Hl1. rewrite Hl1.
    destruct (seg_ends ENCAP_MAX (num_paths stack) (Z.of_nat j)
                (opposite_num_encaps dir (ws_route s)) p).
    + exists s1. split; [reflexivity|]. intros _. rewrite Hdev.
      now apply has_dev_is_Some.
    + replace (Z.of_nat j + 1) with (Z.of_nat (S j)) in * by lia.
      destruct (IH (S j) s1 Hl1) as (s' & E & Hd).
      * rewrite Er, Hn1, Hdev. exact Hw.
      * exists s'. split; [exact E|]. intros Hj. apply Hd. lia.
Qed.

(** Conversely, a walk that runs to its end and ends with a device in hand
    is one [walk_defined] accepts. *)
Lemma path_walk_defined_inv (dir : ip_conntrack_dir) (stack : net_device_path_stack)
    (fuel : nat) :
  forall (j : nat) (s s' : walk_state),
    ws_last s = false ->
    num_paths stack + 1 - Z.of_nat j <= Z.of_nat fuel ->
    path_walk ENCAP_MAX FIELD_BITS fuel dir stack (Z.of_nat j) s = Some s' ->
    is_Some (ws_dev s') ->
    walk_defined ENCAP_MAX FIELD_BITS (num_paths stack) (Z.of_nat j)
      (opposite_num_encaps dir (ws_route s))
      (match ws_dev s with Some _ => true | None => false end)
      (drop j (stack_path stack)) = true.
Proof.
  induction fuel as [|fuel IH]; intros j s s' Hlast Hj; rewrite walk_defined_eq;
    simpl path_walk.
  - intros [= <-] [d Hd]. destruct (Z.leb_spec (Z.of_nat j) (num_paths stack)); [lia|].
    now rewrite Hd.
  - destruct (Z.leb_spec (Z.of_nat j) (num_paths stack)) as [Hle|Hgt].
    2:{ intros [= <-] [d Hd]. now rewrite Hd. }
    rewrite Nat2Z.id.
    destruct (stack_path stack !! j) as [p|] eqn:Hl; [|discriminate].
    rewrite (drop_S _ _ _ Hl).
    pose proof (path_step_control ENCAP_MAX FIELD_BITS dir (num_paths stack)
                  (Z.of_nat j) p s) as Hc.
    cbv zeta in Hc.
    destruct (path_step ENCAP_MAX FIELD_BITS dir (num_paths stack) (Z.of_nat j) p s)
      as [s1|]; [|discriminate].
    destruct Hc as (Hshift & Hdev & Hl1 & Hn1).
    rewrite Hlast in Hl1. simpl in Hl1. rewrite Hl1, Hshift. simpl.
    destruct (seg_ends ENCAP_MAX (num_paths stack) (Z.of_nat j)
                (opposite_num_encaps dir (ws_route s)) p).
    + intros [= <-] Hd. rewrite Hdev in Hd. now apply has_dev_is_Some.
    + replace (Z.of_nat j + 1) with (Z.of_nat (S j)) in * by lia.
      intros E Hd.
      specialize (IH (S j) s1 s' Hl1 ltac:(lia) E Hd).
      now rewrite Hn1, Hdev in IH.
Qed.

(** [stack_walkable] is exactly the condition under which the walk of a
    stack is defined and ends with a device in hand. *)
Lemma stack_walkable_iff (dir : ip_conntrack_dir) (stack : net_device_path_stack)
    (s : walk_state) :
  ws_last s = false ->
  is_Some (ws_dev s) ->
  stack_walkable ENCAP_MAX FIELD_BITS (opposite_num_encaps dir (ws_route s)) stack
    = true <->
  exists s',
    path_walk_all ENCAP_MAX FIELD_BITS dir stack s = Some s' /\ is_Some (ws_dev s').
Proof.
  intros Hlast [d Hd]. unfold stack_walkable, path_walk_all. split.
  - intros Hw.
    destruct (path_walk_defined dir stack (Z.to_nat (num_paths stack + 1)) 0%nat s Hlast)
      as (s' & E & Hdev).
    + now rewrite Hd.
    + exists s'. split; [exact E|]. apply Hdev. lia.
  - intros (s' & E & Hdev).
    pose proof (path_walk_defined_inv dir stack (Z.to_nat (num_paths stack + 1))
                  0%nat s s' Hlast ltac:(lia) E Hdev) as Hw.
    now rewrite Hd in Hw.
Qed.

Hypothesis ENCAP_MAX_fits : 0 <= ENCAP_MAX < 2 ^ FIELD_BITS.




End ResolverProofs.

Lemma path_step_passes (ENCAP_MAX FIELD_BITS : Z) (dir : ip_conntrack_dir)
    (np i : Z) (path : net_device_path) (s : walk_state) :
  seg_passes path = true ->
  exists s',
    path_step ENCAP_MAX FIELD_BITS dir np i path s = Some s' /\
    ws_last s' = ws_last s.
Proof.
  intros Hp.
  pose proof (path_step_control ENCAP_MAX FIELD_BITS dir np i path s) as Hc.
  cbv zeta in Hc.
  assert (Hk : seg_shift_ok (opposite_num_encaps dir (ws_route s)) path = true /\
               seg_ends ENCAP_MAX np i (opposite_num_encaps dir (ws_route s)) path
                 = false).
  { revert Hp. unfold seg_passes, seg_shift_ok, seg_hw_untag, seg_ends, seg_final,
      seg_push.
    now destruct (path_type path), (path_bridge_vlan_mode path). }
  destruct Hk as [Hshift Hends].
  destruct (path_step ENCAP_MAX FIELD_BITS dir np i path s) as [s'|]; [|congruence].
  destruct Hc as (_ & _ & Hl & _). exists s'. split; [reflexivity|].
  now rewrite Hl, Hends, orb_false_r.
Qed.

Lemma path_walk_past_end (ENCAP_MAX FIELD_BITS : Z) (dir : ip_conntrack_dir)
    (stack : net_device_path_stack) (fuel : nat) :
  num_paths stack = Z.of_nat (length (stack_path stack)) ->
  forallb seg_passes (stack_path stack) = true ->
  forall (j : nat) (s : walk_state),
    ws_last s = false ->
    (j <= length (stack_path stack))%nat ->
    (length (stack_path stack) - j < fuel)%nat ->
    path_walk ENCAP_MAX FIELD_BITS fuel dir stack (Z.of_nat j) s = None.
Proof.
  intros Hfull Hpass.
  induction fuel as [|fuel IH]; intros j s Hlast Hj Hfuel; [lia|].
  simpl.
  destruct (Z.leb_spec (Z.of_nat j) (num_paths stack)) as [_|Hgt]; [|lia].
  rewrite Nat2Z.id.
  destruct (stack_path stack !! j) as [p|] eqn:Hl; [|reflexivity].
  assert (Hp : seg_passes p = true).
  { rewrite forallb_forall in Hpass. apply Hpass.
    apply list_elem_of_In. now apply list_elem_of_lookup_2 with j. }
  destruct (path_step_passes ENCAP_MAX FIELD_BITS dir (num_paths stack) (Z.of_nat j)
              p s Hp) as (s1 & E1 & Hl1).
  rewrite E1, Hl1, Hlast.
  apply lookup_lt_Some in Hl.
  replace (Z.of_nat j + 1) with (Z.of_nat (S j)) by lia.
  apply IH; [congruence|lia|lia].
Qed.

(** C4.  The walk reads [stack.path[stack.num_paths]].  On a stack whose
    array is full ([num_paths] equals its capacity) and whose segments are
    bridge hops that keep the tag or pop it, no iteration ends the walk
    before the index reaches [num_paths], and the read at that index is past
    the end of the array. *)
Theorem walk_reads_past_full_stack (ENCAP_MAX FIELD_BITS : Z)
    (dir : ip_conntrack_dir) (stack : net_device_path_stack) (s : walk_state) :
  num_paths stack = Z.of_nat (length (stack_path stack)) ->
  forallb seg_passes (stack_path stack) = true ->
  ws_last s = false ->
  path_walk_all ENCAP_MAX FIELD_BITS dir stack s = None /\
  stack_path stack !! Z.to_nat (num_paths stack) = None /\
  is_Some (path_walk ENCAP_MAX FIELD_BITS (Z.to_nat (num_paths stack)) dir stack 0 s).
Proof.
  intros Hfull Hpass Hlast. split; [|split].
  - unfold path_walk_all.
    apply (path_walk_past_end _ _ _ _ _ Hfull Hpass 0%nat s Hlast); lia.
  - apply lookup_ge_None. lia.
  - rewrite Hfull, Nat2Z.id.
    assert (G : forall fuel j s0,
              (j + fuel <= length (stack_path stack))%nat ->
              is_Some (path_walk ENCAP_MAX FIELD_BITS fuel dir stack (Z.of_nat j) s0)).
    { induction fuel as [|fuel IH]; intros j s0 Hj; simpl; [now eexists|].
      destruct (Z.leb_spec (Z.of_nat j) (num_paths stack)) as [_|Hgt]; [|lia].
      rewrite Nat2Z.id.
      destruct (lookup_lt_is_Some_2 (stack_path stack) j) as [p Hl]; [lia|].
      rewrite Hl.
      assert (Hp : seg_passes p = true).
      { rewrite forallb_forall in Hpass. apply Hpass.
        apply list_elem_of_In. now apply list_elem_of_lookup_2 with j. }
      destruct (path_step_passes ENCAP_MAX FIELD_BITS dir (num_paths stack)
                  (Z.of_nat j) p s0 Hp) as (s1 & E1 & _).
      rewrite E1.
      replace (Z.of_nat j + 1) with (Z.of_nat (S j)) by lia.
      destruct (ws_last s1); [now eexists|].
      apply IH. lia. }
    apply (G _ 0%nat). lia.
Qed.

(** Five bridge hops in an array of five slots. *)
Lemma walk_reads_past_full_stack_witness :
  path_walk_all sample_ENCAP_MAX sample_FIELD_BITS IP_CT_DIR_ORIGINAL
    full_bridge_stack sample_walk_start = None /\
  stack_path full_bridge_stack !! Z.to_nat (num_paths full_bridge_stack) = None /\
  is_Some (path_walk sample_ENCAP_MAX sample_FIELD_BITS
             (Z.to_nat (num_paths full_bridge_stack)) IP_CT_DIR_ORIGINAL
             full_bridge_stack 0 sample_walk_start).
Proof.
  apply (walk_reads_past_full_stack sample_ENCAP_MAX sample_FIELD_BITS
           IP_CT_DIR_ORIGINAL full_bridge_stack sample_walk_start);
    reflexivity.
Defined.

(** When the array has a slot at index [num_paths], the read of the last
    iteration is inside the array. *)
Lemma sentinel_inside (stack : net_device_path_stack) :
  0 <= num_paths stack < Z.of_nat (length (stack_path stack)) ->
  is_Some (stack_path stack !! Z.to_nat (num_paths stack)).
Proof. intros H. apply lookup_lt_is_Some_2. lia. Qed.

(** A bridge port whose tag the hardware takes away, met with an empty
    encapsulation stack: the iteration shifts by -1, and the walk and the
    resolver leave defined behaviour. *)
Example hw_untag_on_empty_stack :
  path_step sample_ENCAP_MAX sample_FIELD_BITS IP_CT_DIR_ORIGINAL 2 0
    bridge_hw_untag_seg sample_walk_start = None /\
  path_walk_all sample_ENCAP_MAX sample_FIELD_BITS IP_CT_DIR_ORIGINAL
    hw_untag_first_stack sample_walk_start = None /\
  xt_flowoffload_route_check_path sample_ENCAP_MAX sample_FIELD_BITS
    (fun _ _ => Some sample_neighbour) (fun _ _ => (0, hw_untag_first_stack))
    sample_route sample_ct IP_CT_DIR_ORIGINAL None tt = None /\
  stack_walkable sample_ENCAP_MAX sample_FIELD_BITS 0 hw_untag_first_stack = false.
Proof. repeat split. Qed.




(** ** Path resolver: return path by return path *)

(** An iteration of the walk leaves the destination handles of the route
    and the encapsulation count of the direction it resolves alone. *)
Lemma path_step_keeps (ENCAP_MAX FIELD_BITS : Z) (dir : ip_conntrack_dir)
    (np i : Z) (path : net_device_path) (s s' : walk_state) :
  path_step ENCAP_MAX FIELD_BITS dir np i path s = Some s' ->
  (forall d, rt_dst (route_tuple d (ws_route s')) = rt_dst (route_tuple d (ws_route s))) /\
  in_num_encaps (route_tuple dir (ws_route s')) =
    in_num_encaps (route_tuple dir (ws_route s)).
Proof.
  unfold path_step. intros E.
  destruct (path_type path), (path_bridge_vlan_mode path);
    destruct (flow_is_valid_ether_device (path_dev path)), (path_dev path);
    simpl in E;
    repeat match type of E with
           | context [match BIT ?x with _ => _ end] => destruct (BIT x); simpl in E
           | context [if ?c then _ else _] => destruct c; simpl in E
           end;
    try discriminate; injection E as <-;
    (split; [intros d; now destruct dir, d|now destruct dir]).
Qed.

Lemma path_walk_keeps (ENCAP_MAX FIELD_BITS : Z) (dir : ip_conntrack_dir)
    (stack : net_device_path_stack) (fuel : nat) :
  forall (i : Z) (s s' : walk_state),
    path_walk ENCAP_MAX FIELD_BITS fuel dir stack i s = Some s' ->
    (forall d, rt_dst (route_tuple d (ws_route s')) = rt_dst (route_tuple d (ws_route s))) /\
    in_num_encaps (route_tuple dir (ws_route s')) =
      in_num_encaps (route_tuple dir (ws_route s)).
Proof.
  induction fuel as [|fuel IH]; intros i s s'; simpl.
  - now intros [= <-].
  - destruct (i <=? num_paths stack); [|now intros [= <-]].
    destruct (stack_path stack !! Z.to_nat i) as [p|]; [|discriminate].
    destruct (path_step ENCAP_MAX FIELD_BITS dir (num_paths stack) i p s)
      as [s1|] eqn:E1; [|discriminate].
    destruct (path_step_keeps _ _ _ _ _ _ _ _ E1) as [Hd1 Hn1].
    destruct (ws_last s1).
    + now intros [= <-].
    + intros E. destruct (IH _ _ _ E) as [Hd Hn]. split.
      * intros d. now rewrite Hd, Hd1.
      * now rewrite Hn, Hn1.
Qed.

Lemma rt_dst_upd (d dir : ip_conntrack_dir)
    (f : nf_flow_route_tuple -> nf_flow_route_tuple) (route : nf_flow_route) :
  (forall t, rt_dst (f t) = rt_dst t) ->
  rt_dst (route_tuple d (upd_tuple dir f route)) = rt_dst (route_tuple d route).
Proof. intros Hf. destruct d, dir; simpl; auto. Qed.

Lemma in_num_encaps_upd (d dir : ip_conntrack_dir)
    (f : nf_flow_route_tuple -> nf_flow_route_tuple) (route : nf_flow_route) :
  (forall t, in_num_encaps (f t) = in_num_encaps t) ->
  in_num_encaps (route_tuple d (upd_tuple dir f route)) =
    in_num_encaps (route_tuple d route).
Proof. intros Hf. destruct d, dir; simpl; auto. Qed.

(** The resolver, return path by return path. *)
Lemma check_path_cases (ENCAP_MAX FIELD_BITS : Z)
    (neigh : dst_entry -> nf_inet_addr -> option neighbour)
    (fill : net_device -> list Z -> Z * net_device_path_stack)
    {S : Type} (route : nf_flow_route) (ct : nf_conn)
    (dir : ip_conntrack_dir) (out_dev : option net_device) (st : S)
    (dst : dst_entry) (route' : nf_flow_route) (out_dev' : option net_device)
    (st' : S) (evs : list event) :
  rt_dst (route_tuple dir route) = Some dst ->
  xt_flowoffload_route_check_path ENCAP_MAX FIELD_BITS neigh fill route ct dir
    out_dev st = Some ((route', out_dev'), st', evs) ->
  let r1 :=
    upd_tuple dir (set_out_ifindex (dev_ifindex (dst_dev dst)))
      (upd_tuple (dir_not dir) (set_in_ifindex (dev_ifindex (dst_dev dst))) route) in
  st' = st /\
  ((xmit_type (route_tuple dir route) = FLOW_OFFLOAD_XMIT_XFRM \/
    ether_device_ok (dst_dev dst) = false \/
    neigh dst (tuple_src_u3 (ct_tuple (dir_not dir) ct)) = None) /\
   route' = r1 /\ out_dev' = out_dev /\ evs = []
   \/
   exists n,
     xmit_type (route_tuple dir route) <> FLOW_OFFLOAD_XMIT_XFRM /\
     ether_device_ok (dst_dev dst) = true /\
     neigh dst (tuple_src_u3 (ct_tuple (dir_not dir) ct)) = Some n /\
     evs = [Ev_neigh_release] /\
     let r2 := upd_tuple dir (set_out_h_dest (memcpy_eth (neigh_ha n))) r1 in
     (route' = r2 /\ out_dev' = out_dev /\
      (Z.land (nud_state n) NUD_VALID = 0 \/
       (fill (dst_dev dst) (out_h_dest (route_tuple dir r2))).1 <> 0 \/
       num_paths (fill (dst_dev dst) (out_h_dest (route_tuple dir r2))).2 = 0)
      \/
      exists s dev,
        Z.land (nud_state n) NUD_VALID <> 0 /\
        (fill (dst_dev dst) (out_h_dest (route_tuple dir r2))).1 = 0 /\
        num_paths (fill (dst_dev dst) (out_h_dest (route_tuple dir r2))).2 <> 0 /\
        path_walk_all ENCAP_MAX FIELD_BITS dir
          (fill (dst_dev dst) (out_h_dest (route_tuple dir r2))).2
          {| ws_route := r2; ws_dev := Some (dst_dev dst); ws_last := false |}
          = Some s /\
        ws_dev s = Some dev /\
        out_dev' = Some dev /\
        route' =
          upd_tuple (dir_not dir) (set_in_ifindex (dev_ifindex dev))
            (upd_tuple dir (set_out_hw_ifindex (dev_ifindex dev)) (ws_route s)))).
Proof.
  intros Hdst E r1. unfold xt_flowoffload_route_check_path in E.
  rewrite Hdst in E. fold r1 in E.
  assert (Hx : xmit_type (route_tuple dir r1) = xmit_type (route_tuple dir route)).
  { subst r1. now destruct dir. }
  rewrite Hx in E.
  destruct (xmit_type (route_tuple dir route)) eqn:Ex; simpl in E;
    try (injection E as <- <- <- <-; split; [reflexivity|];
         left; repeat split; now left).
  all: destruct (ether_device_ok (dst_dev dst)) eqn:Eok; simpl in E;
    try (injection E as <- <- <- <-; split; [reflexivity|];
         left; repeat split; right; now left).
  all: destruct (neigh dst _) as [n|] eqn:En;
    try (injection E as <- <- <- <-; split; [reflexivity|];
         left; repeat split; right; now right).
  all: unfold bind, emit in E;
    destruct (Z.eqb_spec (Z.land (nud_state n) NUD_VALID) 0) as [Hnud|Hnud];
    [injection E as <- <- <- <-; split; [reflexivity|]; right; exists n;
     repeat split; try discriminate; left; repeat split; now left|].
  all: destruct (fill (dst_dev dst) _) as [rc stack] eqn:Efill;
    destruct (Z.eqb_spec rc 0) as [Hrc|Hrc]; simpl in E;
    [|injection E as <- <- <- <-; split; [reflexivity|]; right; exists n;
      cbn [fst snd]; repeat split; try discriminate; left; repeat split;
      right; left; rewrite Efill; exact Hrc];
    destruct (Z.eqb_spec (num_paths stack) 0) as [Hnp|Hnp];
    [injection E as <- <- <- <-; split; [reflexivity|]; right; exists n;
     cbn [fst snd]; repeat split; try discriminate; left; repeat split;
     right; right; rewrite Efill; exact Hnp|].
  all: destruct (path_walk_all _ _ _ _ _) as [s|] eqn:Ew; [|discriminate];
    destruct (ws_dev s) as [dev|] eqn:Edev; [|discriminate];
    injection E as <- <- <- <-; split; [reflexivity|]; right; exists n;
    cbn [fst snd]; repeat split; try discriminate; right; exists s, dev;
    rewrite Efill; repeat split; assumption.
Qed.

(** Whenever the path resolver returns, it has left the state it does not
    own, the destination handles of the route and the encapsulation count of
    the direction it resolves alone, and has released the neighbour entry it
    looked up. *)
Lemma check_path_run (ENCAP_MAX FIELD_BITS : Z)
    (neigh : dst_entry -> nf_inet_addr -> option neighbour)
    (fill : net_device -> list Z -> Z * net_device_path_stack)
    {S : Type} (route : nf_flow_route) (ct : nf_conn)
    (dir : ip_conntrack_dir) (out_dev : option net_device) (st : S)
    (route' : nf_flow_route) (out_dev' : option net_device)
    (st' : S) (evs : list event) :
  xt_flowoffload_route_check_path ENCAP_MAX FIELD_BITS neigh fill route ct dir
    out_dev st = Some ((route', out_dev'), st', evs) ->
  st' = st /\
  (forall d, rt_dst (route_tuple d route') = rt_dst (route_tuple d route)) /\
  in_num_encaps (route_tuple dir route') = in_num_encaps (route_tuple dir route) /\
  Forall quiet evs.
Proof.
  intros E.
  destruct (rt_dst (route_tuple dir route)) as [dst|] eqn:Hdst.
  2:{ unfold xt_flowoffload_route_check_path in E. now rewrite Hdst in E. }
  destruct (check_path_cases ENCAP_MAX FIELD_BITS neigh fill route ct dir out_dev st
              dst route' out_dev' st' evs Hdst E)
    as (Hst & [(_ & -> & _ & ->)|(n & _ & _ & _ & -> & Hr)]).
  - split; [exact Hst|]. split; [|split; [|constructor]].
    + intros d. now rewrite !rt_dst_upd.
    + now rewrite !in_num_encaps_upd.
  - split; [exact Hst|].
    assert (Hq : Forall quiet [Ev_neigh_release]) by (repeat constructor; now left).
    cbv zeta in Hr.
    destruct Hr as [(-> & _)|(s & dev & _ & _ & _ & Ew & _ & _ & ->)].
    + split; [|split; [|exact Hq]].
      * intros d. now rewrite !rt_dst_upd.
      * now rewrite !in_num_encaps_upd.
    + unfold path_walk_all in Ew.
      destruct (path_walk_keeps _ _ _ _ _ _ _ _ Ew) as [Hd Hn]. simpl in Hd, Hn.
      split; [|split; [|exact Hq]].
      * intros d. rewrite !rt_dst_upd by reflexivity. rewrite Hd.
        now rewrite !rt_dst_upd.
      * rewrite !in_num_encaps_upd by reflexivity. rewrite Hn.
        now rewrite !in_num_encaps_upd.
Qed.

(** The path resolver returns when the stack it gets to walk, if any, is
    one the walk stays within defined behaviour on. *)
Lemma check_path_defined (ENCAP_MAX FIELD_BITS : Z)
    (neigh : dst_entry -> nf_inet_addr -> option neighbour)
    (fill : net_device -> list Z -> Z * net_device_path_stack)
    (route : nf_flow_route) (ct : nf_conn) (dir : ip_conntrack_dir)
    (out_dev : option net_device) (S : Type) (st : S) :
  is_Some (rt_dst (route_tuple dir route)) ->
  opposite_num_encaps dir route = 0 ->
  (forall dev mac, answer_walkable ENCAP_MAX FIELD_BITS (fill dev mac) = true) ->
  is_Some (xt_flowoffload_route_check_path ENCAP_MAX FIELD_BITS neigh fill
             route ct dir out_dev st).
Proof.
  intros [dst Hdst] Hn0 Hstack. unfold xt_flowoffload_route_check_path. rewrite Hdst.
  set (r1 := upd_tuple dir _ (upd_tuple (dir_not dir) _ route)).
  destruct (xmit_type_eqb _ _); [now eexists|].
  destruct (negb _); [now eexists|].
  destruct (neigh dst _) as [n|]; [|now eexists].
  set (r2 := upd_tuple dir _ r1).
  assert (Hr2 : opposite_num_encaps dir r2 = 0).
  { subst r2 r1.
    now rewrite !opposite_num_encaps_upd, opposite_num_encaps_upd_not. }
  unfold bind, emit.
  destruct (Z.land (nud_state n) NUD_VALID =? 0); [now eexists|].
  specialize (Hstack (dst_dev dst) (out_h_dest (route_tuple dir r2))).
  unfold answer_walkable in Hstack.
  destruct (fill (dst_dev dst) (out_h_dest (route_tuple dir r2))) as [rc stack].
  simpl in Hstack.
  destruct (negb (rc =? 0) || (num_paths stack =? 0)); [now eexists|].
  simpl in Hstack.
  set (s0 := {| ws_route := r2; ws_dev := Some (dst_dev dst); ws_last := false |}).
  destruct (proj1 (stack_walkable_iff ENCAP_MAX FIELD_BITS dir stack s0 eq_refl
                     ltac:(now eexists)))
    as (s' & E & [d' Hd']).
  { simpl. now rewrite Hr2. }
  fold s0. rewrite E, Hd'. now eexists.
Qed.

(** ** Offload admission decision *)

(** ** Offload admission decision *)

Lemma protocol_gate_open (skb : sk_buff) (ct : nf_conn) (par : xt_action_param)
    (tcph : option tcphdr) :
  protocol_gate skb ct par = Some tcph ->
  (tuple_dst_protonum (ct_tuple_original ct) = IPPROTO_TCP /\
   ct_tcp_state ct = TCP_CONNTRACK_ESTABLISHED /\
   exists h, skb_tcph skb (par_thoff par) = Some h /\
             tcp_fin h = false /\ tcp_rst h = false) \/
  tuple_dst_protonum (ct_tuple_original ct) = IPPROTO_UDP.
Proof.
  unfold protocol_gate. simpl.
  destruct (Z.eqb_spec (tuple_dst_protonum (ct_tuple_original ct)) IPPROTO_TCP)
    as [Htcp|_].
  - destruct (Z.eqb_spec (ct_tcp_state ct) TCP_CONNTRACK_ESTABLISHED) as [Hest|_];
      simpl; [|discriminate].
    destruct (skb_tcph skb (par_thoff par)) as [h|]; [|discriminate].
    destruct (tcp_fin h) eqn:Hfin; [discriminate|].
    destruct (tcp_rst h) eqn:Hrst; [discriminate|].
    intros _. left. repeat split; [assumption..|]. now exists h.
  - destruct (Z.eqb_spec (tuple_dst_protonum (ct_tuple_original ct)) IPPROTO_UDP)
      as [Hudp|_]; [|discriminate].
    intros _. now right.
Qed.

(** C2.  A packet that fails one of the gates checked before the offload
    bit is set (security path, IPv4 options, no conntrack entry, a protocol
    that is neither established TCP without FIN and RST nor UDP, a helper,
    sequence adjustment, an unconfirmed connection, an unknown ingress or
    egress device) gets [XT_CONTINUE], and nothing changes: the packet, the
    connection with its status bits, and both tables with their hooks, flow
    stores and work items are as before, and no call into another subsystem
    is made. *)
Theorem ineligible_passes_through (ENCAP_MAX FIELD_BITS : Z) (ext : externals)
    (par : xt_action_param) (w : world) :
  not_eligible w par ->
  flowoffload_tg ENCAP_MAX FIELD_BITS ext par w = Some (XT_CONTINUE, w, []).
Proof.
  intros H. unfold flowoffload_tg. unfold bind at 1, get at 1.
  unfold xt_flowoffload_skip.
  destruct (skb_sec_path (w_skb w)) eqn:E1; [reflexivity|].
  destruct ((par_family par =? NFPROTO_IPV4) && negb (skb_ip_optlen (w_skb w) =? 0))
    eqn:E2; [reflexivity|].
  destruct (skb_nfct (w_skb w)) as [ctinfo|] eqn:E3; [|reflexivity].
  destruct (protocol_gate (w_skb w) (w_ct w) par) as [tcph|] eqn:E4; [|reflexivity].
  destruct (ct_ext_helper (w_ct w) ||
            negb (Z.land (ct_status (w_ct w)) IPS_SEQ_ADJUST =? 0)) eqn:E5;
    [reflexivity|].
  destruct (negb (nf_ct_is_confirmed (w_ct w))) eqn:E6; [reflexivity|].
  destruct (par_out par) as [dout|] eqn:E7;
    [|now destruct (CTINFO2DIR ctinfo), (par_in par)].
  destruct (par_in par) as [din|] eqn:E8;
    [|now destruct (CTINFO2DIR ctinfo)].
  exfalso.
  apply orb_false_iff in E5 as [E5a E5b].
  apply negb_false_iff in E5b, E6.
  destruct H as [H|Hf Ho|H|Hp Hu|H|H|H|H|H]; try congruence.
  - apply Z.eqb_eq in Hf. apply Z.eqb_neq in Ho. now rewrite Hf, Ho in E2.
  - destruct (protocol_gate_open _ _ _ _ E4) as [Ht|Hudp]; tauto.
  - apply Z.eqb_eq in E5b. contradiction.
  - unfold nf_ct_is_confirmed in E6. congruence.
Qed.

(** An ICMP connection. *)
Lemma ineligible_passes_through_witness :
  flowoffload_tg sample_ENCAP_MAX sample_FIELD_BITS all_good sample_par icmp_world
    = Some (XT_CONTINUE, icmp_world, []).
Proof.
  apply (ineligible_passes_through sample_ENCAP_MAX sample_FIELD_BITS all_good
           sample_par icmp_world).
  apply skip_protocol; simpl.
  - intros (H & _). discriminate.
  - discriminate.
Defined.

(** [xt_flowoffload_route_dir] returns either [-ENOENT], with the route as
    it was, or 0, with the handle it acquired stored in [tuple[dir]]. *)
Lemma route_dir_spec (ext : externals) (route : nf_flow_route) (ct : nf_conn)
    (dir : ip_conntrack_dir) (par : xt_action_param) (ifindex : Z)
    (S : Type) (st : S) :
  exists rc route' evs,
    xt_flowoffload_route_dir ext route ct dir par ifindex st
      = Some ((rc, route'), st, evs) /\
    ((rc = - ENOENT /\ route' = route /\ evs = [] /\
      exists fl, nf_route ext (par_net par) fl (par_family par) = None) \/
     (exists dst, rc = 0 /\
        rt_dst (route_tuple dir route') = Some dst /\
        rt_dst (route_tuple (dir_not dir) route')
          = rt_dst (route_tuple (dir_not dir) route) /\
        evs = [Ev_nf_route dst])).
Proof.
  unfold xt_flowoffload_route_dir.
  destruct (nf_route ext _ _ _) as [dst|] eqn:E.
  - eexists _, _, _. split; [reflexivity|]. right. exists dst.
    repeat split.
    + now rewrite route_tuple_upd_same.
    + now rewrite route_tuple_upd_other.
  - eexists _, _, _. split; [reflexivity|]. left.
    repeat split. eexists. exact E.
Qed.

Lemma route_dir_counts (ext : externals) (route : nf_flow_route) (ct : nf_conn)
    (dir : ip_conntrack_dir) (par : xt_action_param) (ifindex : Z)
    (S : Type) (st st' : S) (rc : Z) (route' : nf_flow_route) (evs : list event) :
  xt_flowoffload_route_dir ext route ct dir par ifindex st
    = Some ((rc, route'), st', evs) ->
  forall d, in_num_encaps (route_tuple d route') = in_num_encaps (route_tuple d route).
Proof.
  unfold xt_flowoffload_route_dir.
  destruct (nf_route ext _ _ _) as [dst|]; intros [= _ <- _ _] d; [|reflexivity].
  now rewrite in_num_encaps_upd.
Qed.

(** Whenever [xt_flowoffload_route] returns, a negative code comes with no
    handle acquired, or with one handle acquired and none released; any
    other code comes with the two handles of the route acquired. *)
Lemma route_run (ENCAP_MAX FIELD_BITS : Z) (ext : externals) (ct : nf_conn)
    (par : xt_action_param) (route : nf_flow_route) (dir : ip_conntrack_dir)
    (devs : devs_t) (S : Type) (st st' : S)
    (rc : Z) (route' : nf_flow_route) (devs' : devs_t) (evs : list event) :
  xt_flowoffload_route ENCAP_MAX FIELD_BITS ext ct par route dir devs st
    = Some ((rc, route', devs'), st', evs) ->
  st' = st /\
  ((rc <? 0) = true /\
   (exists fl, nf_route ext (par_net par) fl (par_family par) = None) /\
   (evs = [] \/ exists d1, evs = [Ev_nf_route d1]) \/
   (rc <? 0) = false /\
   exists d1 d2 rest,
     rt_dst (route_tuple dir route') = Some d1 /\
     rt_dst (route_tuple (dir_not dir) route') = Some d2 /\
     evs = Ev_nf_route d1 :: Ev_nf_route d2 :: rest /\
     Forall quiet rest).
Proof.
  unfold xt_flowoffload_route.
  destruct (devs_get dir devs) as [d|]; [|discriminate].
  destruct (route_dir_spec ext route ct dir par (dev_ifindex d) S st)
    as (rc1 & r1 & ev1 & E1 & [(-> & -> & -> & Hf)|(dst1 & -> & H1a & H1b & ->)]);
    unfold bind at 1; rewrite E1; simpl.
  { intros [= <- <- <- <- <-]. split; [reflexivity|]. left.
    split; [reflexivity|]. split; [exact Hf|now left]. }
  destruct (devs_get (dir_not dir) devs) as [d'|]; [|discriminate].
  destruct (route_dir_spec ext r1 ct (dir_not dir) par (dev_ifindex d') S st)
    as (rc2 & r2 & ev2 & E2 & [(-> & -> & -> & Hf)|(dst2 & -> & H2a & H2b & ->)]);
    unfold bind at 1; rewrite E2; simpl.
  { intros [= <- <- <- <- <-]. split; [reflexivity|]. left.
    split; [reflexivity|]. split; [exact Hf|right; now exists dst1]. }
  assert (H2c : rt_dst (route_tuple dir r2) = Some dst1).
  { destruct dir; simpl in *; congruence. }
  unfold bind at 1.
  destruct (xt_flowoffload_route_check_path _ _ _ _ r2 ct dir _ st)
    as [[[[r3 od3] st3] ev3]|] eqn:E3; [|discriminate].
  destruct (check_path_run _ _ _ _ _ _ _ _ _ _ _ _ _ E3) as (-> & H3 & _ & F3).
  unfold bind at 1.
  destruct (xt_flowoffload_route_check_path _ _ _ _ r3 ct (dir_not dir) _ st)
    as [[[[r4 od4] st4] ev4]|] eqn:E4; [|discriminate].
  destruct (check_path_run _ _ _ _ _ _ _ _ _ _ _ _ _ E4) as (-> & H4 & _ & F4).
  simpl. intros [= <- <- <- <- <-]. split; [reflexivity|]. right.
  split; [reflexivity|].
  exists dst1, dst2, (ev3 ++ ev4).
  split; [now rewrite H4, H3|]. split; [now rewrite H4, H3|].
  split; [now rewrite app_nil_r|]. now apply Forall_app.
Qed.

(** [xt_flowoffload_route] returns when every answer of the
    forwarding-path query is one the resolver gets through. *)
Lemma route_defined (ENCAP_MAX FIELD_BITS : Z) (ext : externals) (ct : nf_conn)
    (par : xt_action_param) (route : nf_flow_route) (dir : ip_conntrack_dir)
    (devs : devs_t) (S : Type) (st : S) :
  is_Some (devs_get dir devs) ->
  is_Some (devs_get (dir_not dir) devs) ->
  (forall d, in_num_encaps (route_tuple d route) = 0) ->
  (forall dev mac,
     answer_walkable ENCAP_MAX FIELD_BITS (ext_dev_fill_forward_path ext dev mac)
       = true) ->
  is_Some (xt_flowoffload_route ENCAP_MAX FIELD_BITS ext ct par route dir devs st).
Proof.
  intros [d Hd] [d' Hd'] Hzero Hstack. unfold xt_flowoffload_route. rewrite Hd.
  destruct (route_dir_spec ext route ct dir par (dev_ifindex d) S st)
    as (rc1 & r1 & ev1 & E1 & [(-> & -> & -> & Hf)|(dst1 & -> & H1a & H1b & ->)]);
    unfold bind at 1; rewrite E1; simpl; [now eexists|].
  pose proof (route_dir_counts _ _ _ _ _ _ _ _ _ _ _ _ E1) as Hc1.
  rewrite Hd'.
  destruct (route_dir_spec ext r1 ct (dir_not dir) par (dev_ifindex d') S st)
    as (rc2 & r2 & ev2 & E2 & [(-> & -> & -> & Hf)|(dst2 & -> & H2a & H2b & ->)]);
    unfold bind at 1; rewrite E2; simpl; [now eexists|].
  pose proof (route_dir_counts _ _ _ _ _ _ _ _ _ _ _ _ E2) as Hc2.
  assert (H2c : rt_dst (route_tuple dir r2) = Some dst1).
  { destruct dir; simpl in *; congruence. }
  assert (Hz2 : forall x, in_num_encaps (route_tuple x r2) = 0).
  { intros x. now rewrite Hc2, Hc1. }
  unfold bind at 1.
  match goal with
  | |- context [xt_flowoffload_route_check_path _ _ _ _ r2 ct dir ?od st] =>
      destruct (check_path_defined ENCAP_MAX FIELD_BITS (ext_dst_neigh_lookup ext)
                  (ext_dev_fill_forward_path ext) r2 ct dir od S st)
        as ([[[r3 od3] st3] ev3] & E3);
        [rewrite H2c; now eexists|apply Hz2|assumption|]
  end.
  rewrite E3.
  destruct (check_path_run _ _ _ _ _ _ _ _ _ _ _ _ _ E3) as (-> & H3 & Hn3 & _).
  unfold bind at 1.
  match goal with
  | |- context [xt_flowoffload_route_check_path _ _ _ _ r3 ct (dir_not dir) ?od st] =>
      destruct (check_path_defined ENCAP_MAX FIELD_BITS (ext_dst_neigh_lookup ext)
                  (ext_dev_fill_forward_path ext) r3 ct (dir_not dir) od S st)
        as ([[[r4 od4] st4] ev4] & E4);
        [rewrite H3, H2a; now eexists| |assumption|]
  end.
  { unfold opposite_num_encaps.
    replace (dir_not (dir_not dir)) with dir by (now destruct dir).
    rewrite Hn3. apply Hz2. }
  rewrite E4. now eexists.
Qed.

Lemma acquired_app (d : dst_entry) (l1 l2 : list event) :
  acquired d (l1 ++ l2) = (acquired d l1 + acquired d l2)%nat.
Proof. unfold acquired. now rewrite List.filter_app, length_app. Qed.

Lemma released_app (d : dst_entry) (l1 l2 : list event) :
  released d (l1 ++ l2) = (released d l1 + released d l2)%nat.
Proof. unfold released. now rewrite List.filter_app, length_app. Qed.

Lemma flows_allocated_app (l1 l2 : list event) :
  flows_allocated (l1 ++ l2) = (flows_allocated l1 + flows_allocated l2)%nat.
Proof. unfold flows_allocated. now rewrite List.filter_app, length_app. Qed.

Lemma flows_freed_app (l1 l2 : list event) :
  flows_freed (l1 ++ l2) = (flows_freed l1 + flows_freed l2)%nat.
Proof. unfold flows_freed. now rewrite List.filter_app, length_app. Qed.

Lemma inserted_app (l1 l2 : list event) :
  inserted (l1 ++ l2) = inserted l1 || inserted l2.
Proof. apply existsb_app. Qed.

(** Lock events and neighbour releases count for nothing. *)
Lemma quiet_events (l : list event) :
  Forall quiet l ->
  (forall d, acquired d l = 0%nat /\ released d l = 0%nat) /\
  flows_allocated l = 0%nat /\ flows_freed l = 0%nat /\ inserted l = false.
Proof.
  induction 1 as [|e l He _ IH]; [easy|].
  destruct IH as (IHd & IHa & IHf & IHi).
  assert (Hq : (forall d, is_acquire d e = false /\ is_release d e = false) /\
               flows_allocated [e] = 0%nat /\ flows_freed [e] = 0%nat /\
               inserted [e] = false).
  { destruct He as [->|He]; [easy|]. now destruct e. }
  destruct Hq as (Hd & Ha & Hf & Hi).
  repeat split.
  - unfold acquired. simpl. rewrite (proj1 (Hd d)). apply IHd.
  - unfold released. simpl. rewrite (proj2 (Hd d)). apply IHd.
  - change (e :: l) with ([e] ++ l). now rewrite flows_allocated_app, Ha, IHa.
  - change (e :: l) with ([e] ++ l). now rewrite flows_freed_app, Hf, IHf.
  - change (e :: l) with ([e] ++ l). now rewrite inserted_app, Hi, IHi.
Qed.

(** [xt_flowoffload_check_device] always returns, and only takes the hook
    lock. *)
Lemma check_device_total (kz table : bool) (dev : option net_device)
    (t : xt_flowoffload_table) :
  exists t' evs,
    xt_flowoffload_check_device kz table dev t = Some (tt, t', evs) /\
    tbl_ft t' = tbl_ft t /\
    Forall quiet evs.
Proof.
  unfold xt_flowoffload_check_device, xt_flowoffload_create_hook, mod_delayed_work.
  destruct dev as [dev|]; [|now eexists _, _].
  munfold. simpl.
  destruct (flow_offload_lookup_hook (tbl_hooks t) dev) as [[i h]|]; simpl.
  - eexists _, _. split; [reflexivity|]. split; [reflexivity|].
    repeat constructor; now right.
  - destruct kz; simpl; eexists _, _; (split; [reflexivity|]);
      (split; [reflexivity|]); repeat constructor; now right.
Qed.

Lemma on_world_table_run {A} (i : bool) (m : M xt_flowoffload_table A) (w : world) :
  on_world_table i m w =
    match m (get_table i (w_flowtable w)) with
    | Some (a, t', l) =>
        Some (a, set_w_flowtable (set_table i t' (w_flowtable w)) w, l)
    | None => None
    end.
Proof.
  unfold on_world_table, on_flowtable, on_table, zoom.
  now destruct (m (get_table i (w_flowtable w))) as [[[a t'] l]|].
Qed.

Lemma clearbit_setbit (a n : Z) :
  0 <= n -> Z.testbit a n = false -> Z.clearbit (Z.setbit a n) n = a.
Proof.
  intros Hn Hb. apply Z.bits_inj'. intros m Hm.
  destruct (Z.eq_dec m n) as [->|Hne].
  - now rewrite Z.clearbit_eq, Hb.
  - rewrite Z.clearbit_neq, Z.setbit_neq by (try assumption; congruence).
    reflexivity.
Qed.

Lemma setbit_already (a n : Z) :
  0 <= n -> Z.testbit a n = true -> Z.setbit a n = a.
Proof.
  intros Hn Hb. apply Z.bits_inj'. intros m Hm.
  destruct (Z.eq_dec m n) as [->|Hne].
  - now rewrite Z.setbit_eq, Hb.
  - now rewrite Z.setbit_neq by (try assumption; congruence).
Qed.

Lemma acquired_cons (d : dst_entry) (e : event) (l : list event) :
  acquired d (e :: l) = ((if is_acquire d e then 1 else 0) + acquired d l)%nat.
Proof. unfold acquired. simpl. now destruct (is_acquire d e). Qed.

Lemma released_cons (d : dst_entry) (e : event) (l : list event) :
  released d (e :: l) = ((if is_release d e then 1 else 0) + released d l)%nat.
Proof. unfold released. simpl. now destruct (is_release d e). Qed.

Lemma flows_allocated_cons (e : event) (l : list event) :
  flows_allocated (e :: l) =
    ((match e with Ev_flow_offload_alloc _ => 1 | _ => 0 end) + flows_allocated l)%nat.
Proof. unfold flows_allocated. simpl. now destruct e. Qed.

Lemma flows_freed_cons (e : event) (l : list event) :
  flows_freed (e :: l) =
    ((match e with Ev_flow_offload_free _ => 1 | _ => 0 end) + flows_freed l)%nat.
Proof. unfold flows_freed. simpl. now destruct e. Qed.

Lemma inserted_cons (e : event) (l : list event) :
  inserted (e :: l) =
    (match e with Ev_flow_offload_add _ _ => true | _ => false end) || inserted l.
Proof. reflexivity. Qed.

Lemma quiet_acquired (d : dst_entry) (l : list event) :
  Forall quiet l -> acquired d l = 0%nat.
Proof. intros H. apply (quiet_events l H). Qed.

Lemma quiet_released (d : dst_entry) (l : list event) :
  Forall quiet l -> released d l = 0%nat.
Proof. intros H. apply (quiet_events l H). Qed.

Lemma quiet_allocated (l : list event) : Forall quiet l -> flows_allocated l = 0%nat.
Proof. intros H. apply (quiet_events l H). Qed.

Lemma quiet_freed (l : list event) : Forall quiet l -> flows_freed l = 0%nat.
Proof. intros H. apply (quiet_events l H). Qed.

Lemma quiet_inserted (l : list event) : Forall quiet l -> inserted l = false.
Proof. intros H. apply (quiet_events l H). Qed.

(** Count the events of a list given as a nest of [::] and [++] whose
    unknown parts are quiet. *)
Ltac count_events :=
  repeat first
    [ rewrite acquired_app | rewrite released_app | rewrite flows_allocated_app
    | rewrite flows_freed_app | rewrite inserted_app
    | rewrite acquired_cons | rewrite released_cons
    | rewrite flows_allocated_cons | rewrite flows_freed_cons
    | rewrite inserted_cons ];
  repeat first
    [ rewrite quiet_acquired by (assumption || constructor)
    | rewrite quiet_released by (assumption || constructor)
    | rewrite quiet_allocated by (assumption || constructor)
    | rewrite quiet_freed by (assumption || constructor)
    | rewrite quiet_inserted by (assumption || constructor) ];
  cbn [is_acquire is_release orb Nat.add].

Lemma err_flow_route_run (w : world) :
  err_flow_route w =
    Some (XT_CONTINUE,
          set_w_ct (set_ct_status (Z.clearbit (ct_status (w_ct w)) IPS_OFFLOAD_BIT)
                      (w_ct w)) w,
          []).
Proof. reflexivity. Qed.

Lemma err_flow_alloc_run (route : nf_flow_route) (dir : ip_conntrack_dir)
    (d1 d2 : dst_entry) (w : world) :
  rt_dst (route_tuple dir route) = Some d1 ->
  rt_dst (route_tuple (dir_not dir) route) = Some d2 ->
  err_flow_alloc route dir w =
    Some (XT_CONTINUE,
          set_w_ct (set_ct_status (Z.clearbit (ct_status (w_ct w)) IPS_OFFLOAD_BIT)
                      (w_ct w)) w,
          [Ev_dst_release d1; Ev_dst_release d2]).
Proof.
  intros H1 H2. unfold err_flow_alloc, dst_release. rewrite H1, H2. reflexivity.
Qed.

Lemma err_flow_add_run (flow : flow_offload) (route : nf_flow_route)
    (dir : ip_conntrack_dir) (d1 d2 : dst_entry) (w : world) :
  rt_dst (route_tuple dir route) = Some d1 ->
  rt_dst (route_tuple (dir_not dir) route) = Some d2 ->
  err_flow_add flow route dir w =
    Some (XT_CONTINUE,
          set_w_ct (set_ct_status (Z.clearbit (ct_status (w_ct w)) IPS_OFFLOAD_BIT)
                      (w_ct w)) w,
          [Ev_flow_offload_free flow; Ev_dst_release d1; Ev_dst_release d2]).
Proof.
  intros H1 H2. unfold err_flow_add. unfold bind at 1, emit at 1.
  now rewrite (err_flow_alloc_run _ _ _ _ _ H1 H2).
Qed.

(** [flowoffload_tg] from the point where it has set the offload bit.  It
    leaves defined behaviour only where [xt_flowoffload_route] does.
    Otherwise it returns [XT_CONTINUE] and leaves the packet alone; when it
    inserts no flow entry it clears the bit, leaves the tables as they were
    and frees the flow entry it allocated; when no routing lookup fails it
    releases every destination handle as often as it acquired it. *)
Lemma tg_offload_spec (ENCAP_MAX FIELD_BITS : Z) (ext : externals)
    (par : xt_action_param) (ctinfo : Z) (tcph : option tcphdr) (devs : devs_t)
    (w : world) :
  match xt_flowoffload_route ENCAP_MAX FIELD_BITS ext (w_ct w) par
          (route_zero ENCAP_MAX) (CTINFO2DIR ctinfo) devs w with
  | None =>
      flowoffload_tg_offload ENCAP_MAX FIELD_BITS ext par ctinfo tcph devs w = None
  | Some _ =>
      exists w' evs,
        flowoffload_tg_offload ENCAP_MAX FIELD_BITS ext par ctinfo tcph devs w
          = Some (XT_CONTINUE, w', evs) /\
        w_skb w' = w_skb w /\
        (inserted evs = false ->
           ct_status (w_ct w') = Z.clearbit (ct_status (w_ct w)) IPS_OFFLOAD_BIT /\
           w_flowtable w' = w_flowtable w /\
           flows_allocated evs = flows_freed evs) /\
        ((forall fl, is_Some (nf_route ext (par_net par) fl (par_family par))) ->
         forall d, acquired d evs = released d evs)
  end.
Proof.
  destruct (xt_flowoffload_route ENCAP_MAX FIELD_BITS ext (w_ct w) par
              (route_zero ENCAP_MAX) (CTINFO2DIR ctinfo) devs w)
    as [[[[[rc route] devs'] w0] evs0]|] eqn:E.
  2:{ unfold flowoffload_tg_offload. unfold bind at 1, get at 1.
      unfold bind at 1. now rewrite E. }
  unfold flowoffload_tg_offload. unfold bind at 1, get at 1.
  destruct (route_run _ _ _ _ _ _ _ _ _ _ _ _ _ _ _ E)
    as (-> & [(Hrc & (fl & Hfl) & Hev)|(Hrc & d1 & d2 & rest & Hd1 & Hd2 & -> & Hrest)]);
    unfold bind at 1; rewrite E; cbv beta iota; rewrite Hrc.
  - (* err_flow_route *)
    rewrite err_flow_route_run.
    eexists _, _. split; [reflexivity|]. split; [reflexivity|]. split.
    + intros _. repeat split. now destruct Hev as [->|[d1 ->]].
    + intros Hall. destruct (Hall fl) as [x Hx]. congruence.
  - destruct (flow_offload_alloc ext (w_ct w)) as [flow|].
    2:{ (* err_flow_alloc *)
        rewrite (err_flow_alloc_run _ _ _ _ _ Hd1 Hd2).
        eexists _, _. split; [reflexivity|]. split; [reflexivity|]. split.
        - intros _. repeat split. count_events. reflexivity.
        - intros _ d. count_events.
          destruct (dst_ptr d1 =? dst_ptr d), (dst_ptr d2 =? dst_ptr d); reflexivity. }
    unfold bind at 1, emit at 1.
    destruct (flow_offload_route_init ext flow route) as [rc1 flow1].
    destruct (rc1 <? 0).
    { (* err_flow_add after flow_offload_route_init *)
      rewrite (err_flow_add_run _ _ _ _ _ _ Hd1 Hd2).
      eexists _, _. split; [reflexivity|]. split; [reflexivity|]. split.
      - intros _. repeat split. count_events. reflexivity.
      - intros _ d. count_events.
        destruct (dst_ptr d1 =? dst_ptr d), (dst_ptr d2 =? dst_ptr d); reflexivity. }
    set (table := negb (Z.land (par_targinfo_flags par) XT_FLOWOFFLOAD_HW =? 0)).
    set (liberal := match tcph with Some _ => _ | None => _ end).
    assert (Hlib : exists ct1,
              liberal w = Some (tt, set_w_ct ct1 w, []) /\
              ct_status ct1 = ct_status (w_ct w)).
    { subst liberal. destruct tcph; [|exists (w_ct w); now destruct w].
      eexists. split; reflexivity. }
    destruct Hlib as (ct1 & Elib & Hct1).
    unfold bind at 1. rewrite Elib. cbv beta iota.
    unfold bind at 1. rewrite on_world_table_run.
    unfold do_flow_offload_add at 1. unfold bind at 1, get at 1. cbv beta iota zeta.
    set (w1 := set_w_ct ct1 w).
    set (t1 := get_table table (w_flowtable w1)).
    destruct (flow_offload_add ext (tbl_ft t1) flow1 <? 0) eqn:Eadd.
    { (* err_flow_add after flow_offload_add *)
      unfold ret at 1. cbv beta iota. rewrite Eadd.
      rewrite (err_flow_add_run _ _ _ _ _ _ Hd1 Hd2).
      eexists _, _. split; [reflexivity|]. split; [reflexivity|]. split.
      - intros _. split; [exact (f_equal (fun s => Z.clearbit s IPS_OFFLOAD_BIT) Hct1)|].
        split.
        + subst w1 t1. destruct w as [skb ct [ta tb]]. now destruct table.
        + count_events. reflexivity.
      - intros _ d. count_events.
        destruct (dst_ptr d1 =? dst_ptr d), (dst_ptr d2 =? dst_ptr d); reflexivity. }
    (* the flow entry is in the table *)
    unfold bind at 1, emit at 1. unfold bind at 1, modify at 1. unfold ret at 1.
    cbv beta iota. rewrite Eadd.
    unfold bind at 1. rewrite on_world_table_run.
    match goal with
    | |- context [xt_flowoffload_check_device ?kz ?tb ?dv ?t] =>
        destruct (check_device_total kz tb dv t) as (t2 & ev2 & E2 & _ & Hq2)
    end.
    rewrite E2. cbv beta iota.
    unfold bind at 1. rewrite on_world_table_run.
    match goal with
    | |- context [xt_flowoffload_check_device ?kz ?tb ?dv ?t] =>
        destruct (check_device_total kz tb dv t) as (t3 & ev3 & E3 & _ & Hq3)
    end.
    rewrite E3. cbv beta iota.
    unfold bind at 1. rewrite on_world_table_run.
    unfold modify at 1. cbv beta iota.
    unfold dst_release. rewrite Hd1, Hd2.
    unfold bind, emit, ret. cbv beta iota.
    eexists _, _. split; [reflexivity|]. split; [reflexivity|]. split.
    + intros Hins. exfalso. revert Hins. count_events. discriminate.
    + intros _ d. count_events.
      destruct (dst_ptr d1 =? dst_ptr d), (dst_ptr d2 =? dst_ptr d); reflexivity.
Qed.

(** The three ways through [flowoffload_tg]: a gate sends the packet on
    with nothing changed; the offload bit is set already, and nothing
    changes either; or the bit is set now and the function goes on to
    offload the connection. *)
Lemma tg_unfold (ENCAP_MAX FIELD_BITS : Z) (ext : externals)
    (par : xt_action_param) (w : world) :
  flowoffload_tg ENCAP_MAX FIELD_BITS ext par w = Some (XT_CONTINUE, w, []) \/
  exists ctinfo tcph din dout,
    protocol_gate (w_skb w) (w_ct w) par = Some tcph /\
    Z.testbit (ct_status (w_ct w)) IPS_OFFLOAD_BIT = false /\
    let dir := CTINFO2DIR ctinfo in
    let devs :=
      devs_set (dir_not dir) (par_in par) (devs_set dir (par_out par) (None, None)) in
    devs_get dir devs = Some dout /\
    devs_get (dir_not dir) devs = Some din /\
    flowoffload_tg ENCAP_MAX FIELD_BITS ext par w =
      flowoffload_tg_offload ENCAP_MAX FIELD_BITS ext par ctinfo tcph devs
        (set_w_ct (set_ct_status (Z.setbit (ct_status (w_ct w)) IPS_OFFLOAD_BIT)
                     (w_ct w)) w).
Proof.
  set (r := flowoffload_tg ENCAP_MAX FIELD_BITS ext par w).
  assert (Er : r = flowoffload_tg ENCAP_MAX FIELD_BITS ext par w) by reflexivity.
  clearbody r. revert Er.
  unfold flowoffload_tg. unfold bind at 1, get at 1. cbv beta iota zeta.
  destruct (xt_flowoffload_skip (w_skb w) (par_family par)); [now left|].
  destruct (skb_nfct (w_skb w)) as [ctinfo|]; [|now left].
  destruct (protocol_gate (w_skb w) (w_ct w) par) as [tcph|] eqn:Egate; [|now left].
  destruct (ct_ext_helper (w_ct w) || _); [now left|].
  destruct (negb (nf_ct_is_confirmed (w_ct w))); [now left|].
  set (devs := devs_set (dir_not (CTINFO2DIR ctinfo)) (par_in par)
                 (devs_set (CTINFO2DIR ctinfo) (par_out par) (None, None))).
  destruct (devs_get (CTINFO2DIR ctinfo) devs) as [dout|] eqn:Eout; [|now left].
  destruct (devs_get (dir_not (CTINFO2DIR ctinfo)) devs) as [din|] eqn:Ein;
    [|now left].
  unfold bind at 1.
  change (on_ct (test_and_set_bit IPS_OFFLOAD_BIT) w)
    with (Some (Z.testbit (ct_status (w_ct w)) IPS_OFFLOAD_BIT,
                set_w_ct (set_ct_status (Z.setbit (ct_status (w_ct w)) IPS_OFFLOAD_BIT)
                            (w_ct w)) w,
                @nil event)).
  cbv beta iota.
  destruct (Z.testbit (ct_status (w_ct w)) IPS_OFFLOAD_BIT) eqn:Ebit.
  - intros ->. left. unfold ret. cbv beta iota.
    rewrite setbit_already by (assumption || discriminate).
    destruct w as [skb ct ts]. now destruct ct.
  - intros ->. right. exists ctinfo, tcph, din, dout.
    split; [reflexivity|]. split; [reflexivity|].
    cbv zeta. fold devs. split; [exact Eout|]. split; [exact Ein|].
    set (w1 := set_w_ct _ w).
    now destruct (flowoffload_tg_offload ENCAP_MAX FIELD_BITS ext par ctinfo tcph devs w1)
      as [[[v w'] evs]|].
Qed.

(** [flowoffload_tg] as a whole, under the same reading. *)
Lemma tg_spec (ENCAP_MAX FIELD_BITS : Z) (ext : externals)
    (par : xt_action_param) (w : world) :
  flowoffload_tg ENCAP_MAX FIELD_BITS ext par w = None \/
  exists w' evs,
    flowoffload_tg ENCAP_MAX FIELD_BITS ext par w = Some (XT_CONTINUE, w', evs) /\
    w_skb w' = w_skb w /\
    (inserted evs = false ->
       ct_status (w_ct w') = ct_status (w_ct w) /\
       w_flowtable w' = w_flowtable w /\
       flows_allocated evs = flows_freed evs) /\
    ((forall fl, is_Some (nf_route ext (par_net par) fl (par_family par))) ->
     forall d, acquired d evs = released d evs).
Proof.
  destruct (tg_unfold ENCAP_MAX FIELD_BITS ext par w)
    as [E|(ctinfo & tcph & din & dout & _ & Ebit & _ & _ & E)].
  - right. exists w, []. now rewrite E.
  - rewrite E. set (w1 := set_w_ct _ w).
    pose proof (tg_offload_spec ENCAP_MAX FIELD_BITS ext par ctinfo tcph
                  (devs_set (dir_not (CTINFO2DIR ctinfo)) (par_in par)
                     (devs_set (CTINFO2DIR ctinfo) (par_out par) (None, None)))
                  w1) as Hs.
    destruct (xt_flowoffload_route _ _ _ _ _ _ _ _ _) as [r|]; [|now left].
    destruct Hs as (w' & evs & E' & Hskb & Hfail & Hbal).
    right. exists w', evs. split; [exact E'|]. split; [exact Hskb|].
    split; [|exact Hbal].
    intros Hins. destruct (Hfail Hins) as (Hst & Hft & Hfl).
    split; [|now split].
    rewrite Hst. simpl. apply clearbit_setbit; [discriminate|assumption].
Qed.

(** [flowoffload_tg] returns when every answer of the forwarding-path query
    is one the resolver gets through. *)
Lemma tg_defined (ENCAP_MAX FIELD_BITS : Z) (ext : externals)
    (par : xt_action_param) (w : world) :
  (forall dev mac,
     answer_walkable ENCAP_MAX FIELD_BITS (ext_dev_fill_forward_path ext dev mac)
       = true) ->
  is_Some (flowoffload_tg ENCAP_MAX FIELD_BITS ext par w).
Proof.
  intros Hstack.
  destruct (tg_unfold ENCAP_MAX FIELD_BITS ext par w)
    as [E|(ctinfo & tcph & din & dout & _ & _ & Eout & Ein & E)].
  - rewrite E. now eexists.
  - cbv zeta in Eout, Ein. rewrite E. set (w1 := set_w_ct _ w).
    set (devs := devs_set (dir_not (CTINFO2DIR ctinfo)) (par_in par)
                   (devs_set (CTINFO2DIR ctinfo) (par_out par) (None, None))) in *.
    pose proof (tg_offload_spec ENCAP_MAX FIELD_BITS ext par ctinfo tcph devs w1) as Hs.
    destruct (route_defined ENCAP_MAX FIELD_BITS ext (w_ct w1) par
                (route_zero ENCAP_MAX) (CTINFO2DIR ctinfo) devs world w1)
      as [r Er]; [rewrite Eout; now eexists|rewrite Ein; now eexists|
                  now intros []|assumption|].
    rewrite Er in Hs. destruct Hs as (w' & evs & E' & _). rewrite E'. now eexists.
Qed.



(** C1.  The routing lookup succeeds for the direction of the packet and
    fails for the opposite direction: [xt_flowoffload_route] returns the
    error of the second lookup, [flowoffload_tg] jumps to [err_flow_route],
    and the handle the first lookup acquired is never released.  The offload
    bit is cleared again and the connection is as before. *)
Theorem second_lookup_failure_leaks :
  flowoffload_tg sample_ENCAP_MAX sample_FIELD_BITS second_lookup_fails
    sample_par sample_world
  = Some (XT_CONTINUE, sample_world, [Ev_nf_route dst_a]) /\
  acquired dst_a [Ev_nf_route dst_a] = 1%nat /\
  released dst_a [Ev_nf_route dst_a] = 0%nat.
Proof. repeat split. Qed.

(** X24.  When no routing lookup fails, every destination handle
    [flowoffload_tg] acquires is released exactly as often, whenever it
    returns: on success and on every failure branch. *)
Lemma handles_balanced (ENCAP_MAX FIELD_BITS : Z) (ext : externals)
    (par : xt_action_param) (w w' : world) (verdict : Z) (evs : list event) :
  (forall fl, is_Some (nf_route ext (par_net par) fl (par_family par))) ->
  flowoffload_tg ENCAP_MAX FIELD_BITS ext par w = Some (verdict, w', evs) ->
  forall d, acquired d evs = released d evs.
Proof.
  intros Hroute E.
  destruct (tg_spec ENCAP_MAX FIELD_BITS ext par w)
    as [F|(w1 & evs1 & E1 & _ & _ & Hbal)]; [congruence|].
  rewrite E in E1. injection E1 as _ _ ->. now apply Hbal.
Qed.

(** The run whose insertion into the flow store fails: both handles are
    acquired once and released once. *)
Lemma handles_balanced_witness :
  acquired dst_a unwound_events = released dst_a unwound_events /\
  acquired dst_b unwound_events = released dst_b unwound_events.
Proof.
  split;
    apply (handles_balanced sample_ENCAP_MAX sample_FIELD_BITS insertion_fails
             sample_par sample_world unwound_world XT_CONTINUE unwound_events);
    solve [reflexivity | intros fl; simpl; destruct (fl_oif fl =? 2); now eexists].
Defined.



(** On success the two handles are released once each, the flow entry is
    in the table and the bit stays set. *)
Example offload_succeeds :
  exists w' mid,
    flowoffload_tg sample_ENCAP_MAX sample_FIELD_BITS all_good sample_par sample_world
      = Some (XT_CONTINUE, w',
              [Ev_nf_route dst_a; Ev_nf_route dst_b] ++ mid ++
              [Ev_dst_release dst_a; Ev_dst_release dst_b]) /\
    forallb neutral mid = true /\
    Z.testbit (ct_status (w_ct w')) IPS_OFFLOAD_BIT = true /\
    ft_flows (tbl_ft (w_flowtable w').1) = [sample_flow].
Proof.
  eexists _, [_; _; _; _; _; _; _; _; _]. repeat split.
Qed.

(** Whenever the lookup of the first direction succeeds and the lookup of
    the second fails, [xt_flowoffload_route] returns the error with the
    first handle acquired and not released. *)
Lemma route_keeps_first_handle (ENCAP_MAX FIELD_BITS : Z) (ext : externals)
    (ct : nf_conn) (par : xt_action_param) (route r1 : nf_flow_route)
    (dir : ip_conntrack_dir) (devs : devs_t) (d d' : net_device)
    (dst1 : dst_entry) (S : Type) (st : S) :
  devs_get dir devs = Some d ->
  devs_get (dir_not dir) devs = Some d' ->
  xt_flowoffload_route_dir ext route ct dir par (dev_ifindex d) st
    = Some ((0, r1), st, [Ev_nf_route dst1]) ->
  xt_flowoffload_route_dir ext r1 ct (dir_not dir) par (dev_ifindex d') st
    = Some ((- ENOENT, r1), st, []) ->
  xt_flowoffload_route ENCAP_MAX FIELD_BITS ext ct par route dir devs st
    = Some ((- ENOENT, r1, devs), st, [Ev_nf_route dst1]).
Proof.
  intros Hd Hd' E1 E2. unfold xt_flowoffload_route. rewrite Hd.
  unfold bind at 1. rewrite E1. cbv beta iota.
  change (negb (0 =? 0)) with false. cbv iota. rewrite Hd'.
  unfold bind at 1. rewrite E2. reflexivity.
Qed.

(** ** Hook registry: lookup, creation, and what a call keeps *)

Lemma lock_ok_app (l1 l2 : list event) :
  forall held : bool,
    lock_ok held (l1 ++ l2) =
      match lock_ok held l1 with
      | Some held' => lock_ok held' l2
      | None => None
      end.
Proof.
  induction l1 as [|e l1 IH]; intros held; simpl; [reflexivity|].
  destruct e, held; simpl; auto.
Qed.

Lemma lock_ok_flat_map {A} (f : A -> list event) (held : bool) (l : list A) :
  (forall x, lock_ok held (f x) = Some held) ->
  lock_ok held (flat_map f l) = Some held.
Proof.
  intros Hf. induction l as [|x l IH]; simpl; [reflexivity|].
  now rewrite lock_ok_app, Hf.
Qed.

(** What [xt_flowoffload_check_device] does to the hook collection. *)
Lemma check_device_hooks (kz table : bool) (dev : option net_device)
    (t : xt_flowoffload_table) :
  exists t' evs,
    xt_flowoffload_check_device kz table dev t = Some (tt, t', evs) /\
    tbl_ft t' = tbl_ft t /\
    Forall quiet evs /\
    lock_ok false evs = Some false /\
    (forall dev' : net_device,
       (length (hooks_for dev' (tbl_hooks t)) <=
        length (hooks_for dev' (tbl_hooks t')))%nat) /\
    (forall dev' d : net_device,
       dev = Some d -> dev_ptr dev' <> dev_ptr d ->
       hooks_for dev' (tbl_hooks t') = hooks_for dev' (tbl_hooks t)) /\
    (one_hook_per_device (tbl_hooks t) -> one_hook_per_device (tbl_hooks t')) /\
    (forall d : net_device,
       dev = Some d -> kz = true -> hooks_for d (tbl_hooks t') <> []) /\
    (forall d : net_device,
       dev = Some d -> kz = false ->
       flow_offload_lookup_hook (tbl_hooks t) d = None -> t' = t) /\
    (dev = None -> t' = t).
Proof.
  destruct (check_device_total kz table dev t) as (t' & evs & E & Hft & Hq).
  exists t', evs. split; [exact E|]. split; [exact Hft|]. split; [exact Hq|].
  assert (Hone : one_hook_per_device (tbl_hooks t) ->
                 one_hook_per_device (tbl_hooks t')).
  { intros H. exact (check_device_one_hook_per_device kz table dev t t' evs H E). }
  destruct dev as [dev|].
  2:{ injection E as <- <-. repeat split; try easy. }
  destruct (flow_offload_lookup_hook (tbl_hooks t) dev) as [[i h]|] eqn:El.
  - rewrite (check_device_found _ _ _ _ _ _ El) in E. injection E as <- <-.
    destruct (lookup_hook_Some _ _ _ _ El) as (Hl & Hd & others & Ho & _ & Hins).
    assert (Hoth : forall dev',
              dev_ptr dev' <> dev_ptr dev ->
              hooks_for dev' (<[i := set_used true h]> (tbl_hooks t)) =
              hooks_for dev' (tbl_hooks t)).
    { intros dev' Hne. clear - Hl Hd Hne. revert i Hl.
      induction (tbl_hooks t) as [|x xs IH]; intros [|i] Hl;
        try discriminate; simpl in *.
      - injection Hl as ->. apply Z.eqb_eq in Hd.
        destruct (Z.eqb_spec (dev_ptr (ops_dev (hook_ops h))) (dev_ptr dev'));
          [congruence|reflexivity].
      - now rewrite (IH i Hl). }
    split; [reflexivity|]. split; [|split; [|split; [exact Hone|split; [|split]]]].
    + intros dev'. simpl.
      rewrite (hooks_for_insert dev' _ i h (set_used true h) Hl eq_refl). lia.
    + intros dev' d [= <-] Hne. simpl. now apply Hoth.
    + intros d [= <-] _. simpl. rewrite (Hins (set_used true h) Hd). discriminate.
    + intros d [= <-] _ F. congruence.
    + discriminate.
  - destruct kz.
    + rewrite (check_device_created _ _ _ El) in E. injection E as <- <-.
      split; [reflexivity|]. split; [|split; [|split; [exact Hone|split; [|split]]]].
      * intros dev'. simpl. destruct (_ =? _); simpl; lia.
      * intros dev' d [= <-] Hne. simpl.
        destruct (Z.eqb_spec (dev_ptr dev) (dev_ptr dev')); [congruence|reflexivity].
      * intros d [= <-] _. simpl. rewrite Z.eqb_refl. discriminate.
      * discriminate.
      * discriminate.
    + assert (E' : xt_flowoffload_check_device false table (Some dev) t =
                   Some (tt, t, [Ev_spin_lock_bh; Ev_spin_unlock_bh])).
      { unfold xt_flowoffload_check_device, xt_flowoffload_create_hook.
        munfold. simpl. now rewrite El. }
      rewrite E' in E. injection E as <- <-.
      split; [reflexivity|]. repeat split; try easy.
Qed.

(** X1.  [flow_offload_lookup_hook] returns the first hook of the
    collection, from the head, that is bound to [dev]: the hook it returns
    sits in the collection at the position it returns and is bound to
    [dev], and no hook before it is.  It returns nothing exactly when no
    hook of the collection is bound to [dev]. *)
Theorem lookup_finds_first_hook (hooks : list xt_flowoffload_hook)
    (dev : net_device) :
  match flow_offload_lookup_hook hooks dev with
  | Some (i, hook) =>
      hooks !! i = Some hook /\
      dev_ptr (ops_dev (hook_ops hook)) = dev_ptr dev /\
      forall (j : nat) (hook' : xt_flowoffload_hook),
        (j < i)%nat -> hooks !! j = Some hook' ->
        dev_ptr (ops_dev (hook_ops hook')) <> dev_ptr dev
  | None =>
      forall (j : nat) (hook' : xt_flowoffload_hook),
        hooks !! j = Some hook' ->
        dev_ptr (ops_dev (hook_ops hook')) <> dev_ptr dev
  end.
Proof.
  induction hooks as [|h hs IH]; simpl.
  - intros j h' E. discriminate.
  - destruct (Z.eqb_spec (dev_ptr (ops_dev (hook_ops h))) (dev_ptr dev)) as [Hp|Hp].
    + repeat split; [assumption|]. intros j h' Hj. lia.
    + destruct (flow_offload_lookup_hook hs dev) as [[i h1]|]; simpl.
      * destruct IH as (Hl & Hd & Hfirst). repeat split; [assumption..|].
        intros [|j] h' Hj E; simpl in E.
        -- now injection E as <-.
        -- apply (Hfirst j h'); [lia|assumption].
      * intros [|j] h' E; simpl in E.
        -- now injection E as <-.
        -- now apply (IH j h').
Qed.

(** X2.  When its allocation fails, [xt_flowoffload_create_hook] returns
    [-ENOMEM] and leaves the table as it is.  When it succeeds, the new hook
    is put at the head of the collection without a look at what is there: a
    lookup of the device finds the new hook, whether or not the device had a
    hook before, and the lookup of any other device finds what it found
    before, one position further.  The sweep is queued without delay and the
    flow table is untouched. *)
Theorem create_hook_then_lookup (table : bool) (dev : net_device)
    (t : xt_flowoffload_table) :
  xt_flowoffload_create_hook false table dev t = Some (- ENOMEM, t, []) /\
  exists t',
    xt_flowoffload_create_hook true table dev t =
      Some (0, t', [Ev_hlist_add_head (new_hook table dev)]) /\
    flow_offload_lookup_hook (tbl_hooks t') dev = Some (0%nat, new_hook table dev) /\
    (forall dev' : net_device,
       dev_ptr dev' <> dev_ptr dev ->
       flow_offload_lookup_hook (tbl_hooks t') dev' =
         prod_map S id <$> flow_offload_lookup_hook (tbl_hooks t) dev') /\
    tbl_work t' = Some 0 /\
    tbl_ft t' = tbl_ft t.
Proof.
  split; [reflexivity|].
  eexists. split; [reflexivity|]. simpl. rewrite Z.eqb_refl.
  repeat split. intros dev' Hne.
  destruct (Z.eqb_spec (dev_ptr dev) (dev_ptr dev')); [congruence|reflexivity].
Qed.

(** X3.  [xt_flowoffload_check_device] for a device returns, leaves the
    flow table alone, removes no hook of any device, leaves the hooks of
    every other device as they are, keeps a collection at one hook per
    device at most, and takes and drops the hook lock around its work.  When
    the allocation succeeds the device has a hook afterwards; when the
    allocation fails for a device without hook the table is exactly as
    before. *)
Theorem check_device_keeps_other_hooks (kz table : bool) (dev : net_device)
    (t : xt_flowoffload_table) :
  exists t' evs,
    xt_flowoffload_check_device kz table (Some dev) t = Some (tt, t', evs) /\
    tbl_ft t' = tbl_ft t /\
    (forall dev' : net_device,
       (length (hooks_for dev' (tbl_hooks t)) <=
        length (hooks_for dev' (tbl_hooks t')))%nat) /\
    (forall dev' : net_device,
       dev_ptr dev' <> dev_ptr dev ->
       hooks_for dev' (tbl_hooks t') = hooks_for dev' (tbl_hooks t)) /\
    (one_hook_per_device (tbl_hooks t) -> one_hook_per_device (tbl_hooks t')) /\
    (kz = true -> hooks_for dev (tbl_hooks t') <> []) /\
    (kz = false -> flow_offload_lookup_hook (tbl_hooks t) dev = None -> t' = t) /\
    lock_ok false evs = Some false.
Proof.
  destruct (check_device_hooks kz table (Some dev) t)
    as (t' & evs & E & Hft & _ & Hlock & Hle & Hoth & Hone & Hkz & Hfail & _).
  exists t', evs. split; [exact E|]. split; [exact Hft|]. split; [exact Hle|].
  split; [intros dev' Hne; now apply (Hoth dev' dev)|].
  split; [exact Hone|]. split; [now apply Hkz|].
  split; [now apply Hfail|exact Hlock].
Qed.

(** ** Periodic sweeper: the phases and the cycle *)

Lemma lock_ok_register_events (hw : bool) (hook : xt_flowoffload_hook) :
  lock_ok true (register_events hw hook) = Some true.
Proof. unfold register_events. now destruct (hook_registered hook), hw. Qed.

Lemma lock_ok_reap_events (hw : bool) (hook : xt_flowoffload_hook) :
  lock_ok false (reap_events hw hook) = Some false.
Proof. unfold reap_events. now destruct (hook_active hook), hw. Qed.

Lemma calls_app (kind : event -> bool) (l1 l2 : list event) :
  calls kind (l1 ++ l2) = (calls kind l1 + calls kind l2)%nat.
Proof. unfold calls. now rewrite List.filter_app, length_app. Qed.

Lemma calls_flat_map {A} (kind : event -> bool) (f : A -> list event)
    (p : A -> bool) (l : list A) :
  (forall x, calls kind (f x) = if p x then 1%nat else 0%nat) ->
  calls kind (flat_map f l) = length (List.filter p l).
Proof.
  intros Hf. induction l as [|x l IH]; simpl; [reflexivity|].
  rewrite calls_app, Hf, IH. now destruct (p x).
Qed.

Lemma install_registered (hooks : list xt_flowoffload_hook) :
  Forall (fun h => hook_registered h = true) (map install hooks).
Proof.
  induction hooks as [|h hooks IH]; simpl; constructor; [|assumption].
  unfold install. now destruct (hook_registered h) eqn:E.
Qed.

Lemma install_fixed (hooks : list xt_flowoffload_hook) :
  Forall (fun h => hook_registered h = true) hooks ->
  map install hooks = hooks.
Proof.
  induction 1 as [|h hooks Hh _ IH]; simpl; [reflexivity|].
  unfold install at 1. now rewrite Hh, IH.
Qed.

Lemma register_events_none (hw : bool) (hooks : list xt_flowoffload_hook) :
  Forall (fun h => hook_registered h = true) hooks ->
  flat_map (register_events hw) hooks = [].
Proof.
  induction 1 as [|h hooks Hh _ IH]; simpl; [reflexivity|].
  unfold register_events at 1. now rewrite Hh, IH.
Qed.

(** X4.  [xt_flowoffload_register_hooks] returns with every hook marked
    registered; the result of [nf_register_net_hook] is not looked at.  The
    hooks keep their order, their [ops] and their [used] flags, and a hook
    that was not marked registered now records the namespace of its device.
    For each such hook, in the order of the collection, the function drops
    the hook lock, passes the hook's [ops] to [nf_register_net_hook] with the
    namespace of its device, calls the driver's [setup] for the device with
    [FLOW_BLOCK_BIND] when the table does hardware offload and not
    otherwise, and takes the lock again; it makes no other call.  The flow
    table and the work item are untouched, and a second run finds nothing to
    do. *)
Theorem register_hooks_registers_all (t : xt_flowoffload_table) :
  exists t' evs,
    xt_flowoffload_register_hooks t = Some (tt, t', evs) /\
    tbl_hooks t' =
      map (fun h =>
             if hook_registered h then h
             else {| hook_ops := hook_ops h;
                     hook_net := Some (dev_net (ops_dev (hook_ops h)));
                     hook_registered := true;
                     hook_used := hook_used h |})
        (tbl_hooks t) /\
    tbl_ft t' = tbl_ft t /\ tbl_work t' = tbl_work t /\
    evs =
      flat_map
        (fun h =>
           if hook_registered h then []
           else
             [Ev_spin_unlock_bh;
              Ev_nf_register_net_hook (dev_net (ops_dev (hook_ops h))) (hook_ops h)] ++
             (if Z.land (ft_flags (tbl_ft t)) NF_FLOWTABLE_HW_OFFLOAD =? 0 then []
              else [Ev_setup (ops_dev (hook_ops h)) FLOW_BLOCK_BIND]) ++
             [Ev_spin_lock_bh])
        (tbl_hooks t) /\
    Forall (fun h => hook_registered h = true) (tbl_hooks t') /\
    map hook_ops (tbl_hooks t') = map hook_ops (tbl_hooks t) /\
    map hook_used (tbl_hooks t') = map hook_used (tbl_hooks t) /\
    lock_ok true evs = Some true /\
    xt_flowoffload_register_hooks t' = Some (tt, t', []).
Proof.
  rewrite register_hooks_spec. eexists _, _. split; [reflexivity|].
  cbn [tbl_hooks tbl_ft tbl_work set_hooks].
  split; [reflexivity|]. split; [reflexivity|]. split; [reflexivity|].
  split.
  { apply flat_map_ext. intros h. unfold register_events, hw_offload.
    destruct (hook_registered h); [reflexivity|].
    now destruct (Z.land (ft_flags (tbl_ft t)) NF_FLOWTABLE_HW_OFFLOAD =? 0). }
  split; [apply install_registered|].
  split; [|split; [|split]].
  - rewrite map_map. apply map_ext. intros h. unfold install.
    now destruct (hook_registered h).
  - rewrite map_map. apply map_ext. intros h. unfold install.
    now destruct (hook_registered h).
  - apply lock_ok_flat_map. intros h. apply lock_ok_register_events.
  - rewrite register_hooks_spec. simpl.
    rewrite (install_fixed _ (install_registered _)).
    rewrite (register_events_none _ _ (install_registered _)).
    destruct t; reflexivity.
Qed.

Lemma filter_active_fixed (hooks : list xt_flowoffload_hook) :
  List.filter hook_active (List.filter hook_active hooks) = List.filter hook_active hooks.
Proof.
  induction hooks as [|h hooks IH]; simpl; [reflexivity|].
  destruct (hook_active h) eqn:E; simpl; now rewrite ?E, ?IH.
Qed.

Lemma reap_events_none (hw : bool) (hooks : list xt_flowoffload_hook) :
  flat_map (reap_events hw) (List.filter hook_active hooks) = [].
Proof.
  induction hooks as [|h hooks IH]; simpl; [reflexivity|].
  destruct (hook_active h) eqn:E; simpl; [|assumption].
  unfold reap_events at 1. now rewrite E.
Qed.

Lemma filter_split_length {A} (p : A -> bool) (l : list A) :
  (length (List.filter (fun x => negb (p x)) l) + length (List.filter p l))%nat = length l.
Proof.
  induction l as [|x l IH]; simpl; [reflexivity|].
  destruct (p x); simpl; lia.
Qed.

(** X5.  [xt_flowoffload_cleanup_hooks] returns with exactly the hooks
    that are in use or not yet registered, in their order, and leaves the
    flow table and the work item alone; its result is false exactly when no
    hook is left.  For each hook that is registered and not in use, in the
    order of the collection, it takes the hook lock, unlinks the hook and
    drops the lock; it then calls the driver's [setup] for the hook's device
    with [FLOW_BLOCK_UNBIND] when the table does hardware offload and not
    otherwise, passes the hook's [net] and [ops] to
    [nf_unregister_net_hook], and frees that hook.  A last pass takes and
    drops the lock, and the function makes no other call.  A second run
    removes nothing and returns the same result. *)
Theorem cleanup_hooks_keeps_active (t : xt_flowoffload_table) :
  exists active t' evs,
    xt_flowoffload_cleanup_hooks t = Some (active, t', evs) /\
    tbl_hooks t' =
      List.filter (fun h => hook_used h || negb (hook_registered h)) (tbl_hooks t) /\
    tbl_ft t' = tbl_ft t /\ tbl_work t' = tbl_work t /\
    (active = false <-> tbl_hooks t' = []) /\
    evs =
      flat_map
        (fun h =>
           if hook_used h || negb (hook_registered h) then []
           else
             removal_calls
               (negb (Z.land (ft_flags (tbl_ft t)) NF_FLOWTABLE_HW_OFFLOAD =? 0)) h)
        (tbl_hooks t) ++
      [Ev_spin_lock_bh; Ev_spin_unlock_bh] /\
    lock_ok false evs = Some false /\
    xt_flowoffload_cleanup_hooks t' =
      Some (active, t', [Ev_spin_lock_bh; Ev_spin_unlock_bh]).
Proof.
  rewrite cleanup_hooks_spec. eexists _, _, _. split; [reflexivity|].
  cbn [tbl_hooks tbl_ft tbl_work set_hooks].
  split; [reflexivity|]. split; [reflexivity|]. split; [reflexivity|].
  split; [|split; [reflexivity|split]].
  - induction (tbl_hooks t) as [|h hs IH]; simpl; [tauto|].
    destruct (hook_active h); simpl; [split; discriminate|apply IH].
  - rewrite lock_ok_app, lock_ok_flat_map; [reflexivity|].
    intros h. apply lock_ok_reap_events.
  - rewrite cleanup_hooks_spec. simpl.
    rewrite existsb_active_filter, filter_active_fixed, reap_events_none.
    destruct t; reflexivity.
Qed.

Lemma mark_live_carries (flows : list flow_offload) :
  forall hooks : list xt_flowoffload_hook,
    mark_live flows hooks =
      map (fun h => if carries_flow flows h then set_used true h else h) hooks.
Proof.
  induction flows as [|f flows IH]; intros hooks.
  - simpl. now rewrite map_id.
  - change (mark_live (f :: flows) hooks)
      with (mark_live flows (map (check_hook_mark f) hooks)).
    rewrite IH, map_map. apply map_ext. intros h.
    unfold check_hook_mark, carries_flow. simpl.
    destruct (dev_ifindex (ops_dev (hook_ops h)) =? iifidx (flow_tuple0 f));
      destruct (dev_ifindex (ops_dev (hook_ops h)) =? iifidx (flow_tuple1 f));
      simpl; now destruct (existsb _ flows).
Qed.

Lemma carries_flow_ops (flows : list flow_offload) (h h' : xt_flowoffload_hook) :
  hook_ops h' = hook_ops h -> carries_flow flows h' = carries_flow flows h.
Proof. intros E. unfold carries_flow. now rewrite E. Qed.

Lemma install_ops (h : xt_flowoffload_hook) : hook_ops (install h) = hook_ops h.
Proof. unfold install. now destruct (hook_registered h). Qed.

Lemma install_is_registered (h : xt_flowoffload_hook) :
  hook_registered (install h) = true.
Proof. unfold install. now destruct (hook_registered h) eqn:E. Qed.

(** The hooks of a table after the first three phases of a sweep cycle:
    every hook is registered, and marked used exactly when its device
    carries a visited flow. *)
Lemma swept_hooks_carries (stop : option (nat * Z)) (t : xt_flowoffload_table) :
  swept_hooks stop t =
    map (fun h => set_used (carries_flow (visited stop (ft_flows (tbl_ft t))) h)
                    (install h))
      (tbl_hooks t).
Proof.
  unfold swept_hooks. rewrite mark_live_carries, !map_map.
  apply map_ext. intros h.
  rewrite (carries_flow_ops _ h (set_used false (install h)))
    by (simpl; apply install_ops).
  now destruct (carries_flow _ h).
Qed.

Lemma swept_hooks_active (stop : option (nat * Z)) (t : xt_flowoffload_table) :
  List.filter hook_active (swept_hooks stop t) =
    map (fun h => set_used true (install h))
      (List.filter (carries_flow (visited stop (ft_flows (tbl_ft t)))) (tbl_hooks t)).
Proof.
  rewrite swept_hooks_carries.
  induction (tbl_hooks t) as [|h hs IH]; simpl; [reflexivity|].
  unfold hook_active at 1. simpl. rewrite install_is_registered, IH.
  now destruct (carries_flow _ h).
Qed.

Lemma filter_none {A} (l : list A) : length (List.filter (fun _ => false) l) = 0%nat.
Proof. now induction l. Qed.

(** The calls of one kind a sweep cycle makes, phase by phase. *)
Lemma calls_sweep (kind : event -> bool) (hw : bool)
    (hooks : list xt_flowoffload_hook) (flows : list flow_offload)
    (tail : list event) :
  kind Ev_spin_lock_bh = false -> kind Ev_spin_unlock_bh = false ->
  calls kind
    ([Ev_spin_lock_bh] ++ flat_map (register_events hw) hooks ++
     [Ev_spin_unlock_bh] ++
     flat_map (fun _ => [Ev_spin_lock_bh; Ev_spin_unlock_bh]) flows ++ tail) =
  (calls kind (flat_map (register_events hw) hooks) + calls kind tail)%nat.
Proof.
  intros E1 E2. rewrite !calls_app.
  rewrite (calls_flat_map kind _ (fun _ => false) flows).
  2:{ intros _. unfold calls. simpl. now rewrite E1, E2. }
  rewrite filter_none. unfold calls at 1 3. simpl. rewrite E1, E2. simpl. lia.
Qed.

(** The hooks the first three phases of a sweep cycle leave, and the calls
    its reap phase makes for them, told from the hooks the cycle found. *)
Lemma swept_hook_eq (used : bool) (h : xt_flowoffload_hook) :
  set_used used (install h) = swept_hook used h.
Proof.
  unfold install, swept_hook, set_used, set_registered.
  now destruct (hook_registered h) eqn:E; simpl; rewrite ?E.
Qed.

Lemma reap_events_swept (hw : bool) (stop : option (nat * Z))
    (t : xt_flowoffload_table) :
  flat_map (reap_events hw) (swept_hooks stop t) =
    flat_map
      (fun h =>
         if carries_flow (visited stop (ft_flows (tbl_ft t))) h then []
         else removal_calls hw (swept_hook false h))
      (tbl_hooks t).
Proof.
  rewrite swept_hooks_carries.
  induction (tbl_hooks t) as [|h hs IH]; simpl; [reflexivity|].
  rewrite IH. f_equal.
  rewrite swept_hook_eq. unfold reap_events, hook_active.
  now destruct (carries_flow _ h).
Qed.

(** X6.  A sweep cycle whose flow iteration ends without an error other
    than a retry request keeps exactly the hooks whose device is the input
    interface, in either direction, of a flow the iteration visited: they
    stay in their order, marked registered and used.  Every other hook is
    taken away by the reap phase, once and in the order of the collection:
    unlinked under the lock, then unbound from the hardware when the table
    does hardware offload, unregistered and freed.  Beside these calls the
    cycle registers the pending hooks and takes the lock once per visited
    flow and once at the end; the flow table is untouched. *)
Theorem sweep_keeps_hooks_of_flows (HZ : Z) (stop : option (nat * Z))
    (t : xt_flowoffload_table) :
  hard_error stop = false ->
  exists t' evs,
    process_one_work HZ stop t = Some (tt, t', evs) /\
    let flows := visited stop (ft_flows (tbl_ft t)) in
    let hw := negb (Z.land (ft_flags (tbl_ft t)) NF_FLOWTABLE_HW_OFFLOAD =? 0) in
    tbl_hooks t' =
      map (swept_hook true) (List.filter (carries_flow flows) (tbl_hooks t)) /\
    tbl_ft t' = tbl_ft t /\
    evs =
      [Ev_spin_lock_bh] ++
      flat_map (register_events hw) (tbl_hooks t) ++
      [Ev_spin_unlock_bh] ++
      flat_map (fun _ => [Ev_spin_lock_bh; Ev_spin_unlock_bh]) flows ++
      flat_map
        (fun h => if carries_flow flows h then []
                  else removal_calls hw (swept_hook false h))
        (tbl_hooks t) ++
      [Ev_spin_lock_bh; Ev_spin_unlock_bh] /\
    (calls is_kfree evs + length (tbl_hooks t') = length (tbl_hooks t))%nat.
Proof.
  intros Hstop. rewrite process_one_work_spec, Hstop.
  eexists _, _. split; [reflexivity|].
  cbv zeta. cbn [tbl_hooks tbl_ft set_work set_hooks].
  split.
  { rewrite swept_hooks_active. apply map_ext. intros h. apply swept_hook_eq. }
  split; [reflexivity|]. split.
  { rewrite reap_events_swept. reflexivity. }
  rewrite swept_hooks_active, length_map.
  rewrite calls_sweep by reflexivity.
  rewrite (calls_flat_map _ _ (fun _ => false)).
  2:{ intros h. unfold register_events.
      now destruct (hook_registered h), (hw_offload t). }
  rewrite filter_none, calls_app.
  rewrite (calls_flat_map _ _ (fun h => negb (hook_active h))).
  2:{ intros h. unfold reap_events. now destruct (hook_active h), (hw_offload t). }
  rewrite swept_hooks_carries. unfold calls. simpl.
  induction (tbl_hooks t) as [|h hs IH]; simpl; [reflexivity|].
  unfold hook_active at 1. simpl. rewrite install_is_registered.
  destruct (carries_flow _ h); simpl; lia.
Qed.

(** The flow between [eth0] and [eth1] keeps their hooks; the hook of [eth2]
    goes. *)
Lemma sweep_keeps_hooks_of_flows_witness :
  exists t' evs,
    process_one_work sample_HZ None busy_table = Some (tt, t', evs) /\
    let flows := visited None (ft_flows (tbl_ft busy_table)) in
    let hw :=
      negb (Z.land (ft_flags (tbl_ft busy_table)) NF_FLOWTABLE_HW_OFFLOAD =? 0) in
    tbl_hooks t' =
      map (swept_hook true) (List.filter (carries_flow flows) (tbl_hooks busy_table)) /\
    tbl_ft t' = tbl_ft busy_table /\
    evs =
      [Ev_spin_lock_bh] ++
      flat_map (register_events hw) (tbl_hooks busy_table) ++
      [Ev_spin_unlock_bh] ++
      flat_map (fun _ => [Ev_spin_lock_bh; Ev_spin_unlock_bh]) flows ++
      flat_map
        (fun h => if carries_flow flows h then []
                  else removal_calls hw (swept_hook false h))
        (tbl_hooks busy_table) ++
      [Ev_spin_lock_bh; Ev_spin_unlock_bh] /\
    (calls is_kfree evs + length (tbl_hooks t') = length (tbl_hooks busy_table))%nat.
Proof. apply (sweep_keeps_hooks_of_flows sample_HZ None busy_table). reflexivity. Defined.

(** X7.  A sweep cycle whose flow iteration ends with an error other than
    a retry request skips the reap phase: every hook stays in the
    collection, marked registered, no hook is unlinked, unregistered or
    freed, and the work item is queued for the next interval. *)
Theorem sweep_hard_error_keeps_hooks (HZ : Z) (stop : option (nat * Z))
    (t : xt_flowoffload_table) :
  hard_error stop = true ->
  exists t' evs,
    process_one_work HZ stop t = Some (tt, t', evs) /\
    map hook_ops (tbl_hooks t') = map hook_ops (tbl_hooks t) /\
    Forall (fun h => hook_registered h = true) (tbl_hooks t') /\
    tbl_work t' = Some HZ /\
    calls is_unlink evs = 0%nat /\
    calls is_unregister_call evs = 0%nat /\
    calls is_kfree evs = 0%nat.
Proof.
  intros Hstop. rewrite process_one_work_spec, Hstop.
  eexists _, _. split; [reflexivity|].
  cbn [tbl_hooks tbl_ft tbl_work set_work set_hooks].
  assert (Hc : forall kind,
            kind Ev_spin_lock_bh = false -> kind Ev_spin_unlock_bh = false ->
            (forall h, calls kind (register_events (hw_offload t) h) = 0%nat) ->
            calls kind
              ([Ev_spin_lock_bh] ++
               flat_map (register_events (hw_offload t)) (tbl_hooks t) ++
               [Ev_spin_unlock_bh] ++
               flat_map (fun _ => [Ev_spin_lock_bh; Ev_spin_unlock_bh])
                 (visited stop (ft_flows (tbl_ft t))) ++ []) = 0%nat).
  { intros kind E1 E2 Hk. rewrite calls_sweep by assumption.
    rewrite (calls_flat_map _ _ (fun _ => false)) by (intros h; apply Hk).
    now rewrite filter_none. }
  split; [|split; [|split; [reflexivity|split; [|split]]]].
  - rewrite swept_hooks_carries, map_map. apply map_ext. intros h.
    simpl. apply install_ops.
  - rewrite swept_hooks_carries. apply Forall_map, Forall_forall. intros h _.
    simpl. apply install_is_registered.
  - apply Hc; [reflexivity..|]. intros h. unfold register_events.
    now destruct (hook_registered h), (hw_offload t).
  - apply Hc; [reflexivity..|]. intros h. unfold register_events.
    now destruct (hook_registered h), (hw_offload t).
  - apply Hc; [reflexivity..|]. intros h. unfold register_events.
    now destruct (hook_registered h), (hw_offload t).
Qed.

(** The flow iteration fails with [-ENOMEM] before it has visited a flow. *)
Lemma sweep_hard_error_keeps_hooks_witness :
  exists t' evs,
    process_one_work sample_HZ (Some (0%nat, - ENOMEM)) busy_table = Some (tt, t', evs) /\
    map hook_ops (tbl_hooks t') = map hook_ops (tbl_hooks busy_table) /\
    Forall (fun h => hook_registered h = true) (tbl_hooks t') /\
    tbl_work t' = Some sample_HZ /\
    calls is_unlink evs = 0%nat /\
    calls is_unregister_call evs = 0%nat /\
    calls is_kfree evs = 0%nat.
Proof.
  apply (sweep_hard_error_keeps_hooks sample_HZ (Some (0%nat, - ENOMEM)) busy_table).
  reflexivity.
Defined.

(** X8.  Whatever the table holds and the flow iteration answers, a sweep
    cycle returns, and it handles the hook lock in order: the lock is free
    before and after the cycle, it is never taken while held nor dropped
    while free, a hook is unlinked only with the lock held, and
    [nf_register_net_hook], [nf_unregister_net_hook] and the driver's [setup]
    are called only with the lock dropped. *)
Theorem sweep_lock_discipline (HZ : Z) (stop : option (nat * Z))
    (t : xt_flowoffload_table) :
  exists t' evs,
    process_one_work HZ stop t = Some (tt, t', evs) /\
    lock_ok false evs = Some false.
Proof.
  rewrite process_one_work_spec. eexists _, _. split; [reflexivity|].
  rewrite lock_ok_app. simpl.
  rewrite lock_ok_app, (lock_ok_flat_map _ true)
    by (intros h; apply lock_ok_register_events).
  simpl. rewrite lock_ok_app, (lock_ok_flat_map _ false) by reflexivity.
  destruct (hard_error stop); [reflexivity|].
  rewrite lock_ok_app, (lock_ok_flat_map _ false)
    by (intros h; apply lock_ok_reap_events).
  reflexivity.
Qed.

Lemma hooks_for_map (dev : net_device)
    (f : xt_flowoffload_hook -> xt_flowoffload_hook)
    (hooks : list xt_flowoffload_hook) :
  (forall h, hook_ops (f h) = hook_ops h) ->
  hooks_for dev (map f hooks) = map f (hooks_for dev hooks).
Proof.
  intros Hf. induction hooks as [|h hs IH]; simpl; [reflexivity|].
  rewrite Hf. destruct (_ =? _); simpl; now rewrite IH.
Qed.

Lemma hooks_for_filter_le (dev : net_device) (p : xt_flowoffload_hook -> bool)
    (hooks : list xt_flowoffload_hook) :
  (length (hooks_for dev (List.filter p hooks)) <= length (hooks_for dev hooks))%nat.
Proof.
  induction hooks as [|h hs IH]; simpl; [lia|].
  destruct (p h); simpl; destruct (_ =? _); simpl; lia.
Qed.


(** X9.  A sweep cycle adds no hook: whatever the flow iteration answers,
    every device has at most as many hooks after the cycle as before, so
    that a collection with one hook per device at most stays one; the flow
    table is untouched. *)
Theorem sweep_never_adds_hooks (HZ : Z) (stop : option (nat * Z))
    (t : xt_flowoffload_table) :
  exists t' evs,
    process_one_work HZ stop t = Some (tt, t', evs) /\
    (forall dev : net_device,
       (length (hooks_for dev (tbl_hooks t')) <=
        length (hooks_for dev (tbl_hooks t)))%nat) /\
    (one_hook_per_device (tbl_hooks t) -> one_hook_per_device (tbl_hooks t')) /\
    tbl_ft t' = tbl_ft t.
Proof.
  rewrite process_one_work_spec. eexists _, _. split; [reflexivity|].
  assert (Hs : forall dev,
            length (hooks_for dev (swept_hooks stop t)) =
            length (hooks_for dev (tbl_hooks t))).
  { intros dev. rewrite swept_hooks_carries, hooks_for_map, length_map;
      [reflexivity|]. intros h. simpl. apply install_ops. }
  assert (Hle : forall dev,
            (length (hooks_for dev
               (tbl_hooks
                  (if hard_error stop
                   then set_work (Some HZ) (set_hooks (swept_hooks stop t) t)
                   else set_work (if existsb hook_active (swept_hooks stop t)
                                  then Some HZ else None)
                          (set_hooks (List.filter hook_active (swept_hooks stop t)) t))))
             <= length (hooks_for dev (tbl_hooks t)))%nat).
  { intros dev. rewrite <- (Hs dev).
    destruct (hard_error stop); cbn [tbl_hooks set_work set_hooks];
      [lia|apply hooks_for_filter_le]. }
  split; [exact Hle|]. split.
  - intros Hone dev. specialize (Hle dev). specialize (Hone dev). lia.
  - now destruct (hard_error stop).
Qed.

Lemma install_net_recorded (h : xt_flowoffload_hook) :
  hook_net_recorded h -> hook_net_recorded (install h).
Proof.
  unfold hook_net_recorded, install. intros H.
  destruct (hook_registered h) eqn:E; [intros _; now apply H|reflexivity].
Qed.

Lemma swept_net_recorded (stop : option (nat * Z)) (t : xt_flowoffload_table) :
  Forall hook_net_recorded (tbl_hooks t) ->
  Forall hook_net_recorded (swept_hooks stop t).
Proof.
  intros H. rewrite swept_hooks_carries. apply Forall_map.
  eapply Forall_impl; [exact H|]. intros h Hh.
  apply install_net_recorded in Hh. exact Hh.
Qed.

Lemma reap_events_with_net (hw : bool) (hooks : list xt_flowoffload_hook) :
  Forall hook_net_recorded hooks ->
  Forall (fun h => hook_registered h = true) hooks ->
  Forall unregisters_with_net (flat_map (reap_events hw) hooks).
Proof.
  intros Hn Hr. induction hooks as [|h hooks IH]; simpl; [constructor|].
  apply Forall_cons_1 in Hn as [Hh Hn]. apply Forall_cons_1 in Hr as [Hrh Hr].
  apply Forall_app. split; [|now apply IH].
  unfold reap_events. destruct (hook_active h); [constructor|].
  destruct hw; repeat constructor; simpl; now apply Hh.
Qed.

Lemma register_events_with_net (hw : bool) (hooks : list xt_flowoffload_hook) :
  Forall unregisters_with_net (flat_map (register_events hw) hooks).
Proof.
  induction hooks as [|h hooks IH]; simpl; [constructor|].
  apply Forall_app. split; [|exact IH].
  unfold register_events. destruct (hook_registered h); [constructor|].
  destruct hw; repeat constructor.
Qed.

Lemma sweep_with_net (HZ : Z) (stop : option (nat * Z))
    (t : xt_flowoffload_table) :
  Forall hook_net_recorded (tbl_hooks t) ->
  exists t' evs,
    process_one_work HZ stop t = Some (tt, t', evs) /\
    Forall hook_net_recorded (tbl_hooks t') /\
    Forall unregisters_with_net evs.
Proof.
  intros Hwf. rewrite process_one_work_spec. eexists _, _. split; [reflexivity|].
  assert (Hs := swept_net_recorded stop t Hwf).
  assert (Hr : Forall (fun h => hook_registered h = true) (swept_hooks stop t)).
  { rewrite swept_hooks_carries. apply Forall_map, Forall_forall. intros h _.
    simpl. apply install_is_registered. }
  split.
  - destruct (hard_error stop); cbn [tbl_hooks set_work set_hooks];
      [exact Hs|].
    apply Forall_forall. intros h Hin.
    apply list_elem_of_In, filter_In in Hin as [Hin _].
    rewrite Forall_forall in Hs. apply Hs. now apply list_elem_of_In.
  - apply Forall_app. split; [repeat constructor|].
    apply Forall_app. split; [apply register_events_with_net|].
    apply Forall_app. split; [repeat constructor|].
    apply Forall_app. split.
    + induction (visited stop (ft_flows (tbl_ft t))); simpl; repeat constructor.
      assumption.
    + destruct (hard_error stop); [constructor|].
      apply Forall_app. split; [now apply reap_events_with_net|repeat constructor].
Qed.

Lemma check_device_net_recorded (kz table : bool) (dev : option net_device)
    (t : xt_flowoffload_table) :
  Forall hook_net_recorded (tbl_hooks t) ->
  exists t' evs,
    xt_flowoffload_check_device kz table dev t = Some (tt, t', evs) /\
    Forall hook_net_recorded (tbl_hooks t').
Proof.
  intros Hwf. destruct dev as [dev|]; [|now exists t, []].
  destruct (flow_offload_lookup_hook (tbl_hooks t) dev) as [[i h]|] eqn:El.
  - rewrite (check_device_found _ _ _ _ _ _ El). eexists _, _.
    split; [reflexivity|]. simpl.
    destruct (lookup_hook_Some _ _ _ _ El) as (Hl & _).
    apply Forall_insert; [exact Hwf|].
    rewrite Forall_forall in Hwf. apply (Hwf h).
    now apply list_elem_of_lookup_2 with i.
  - destruct kz.
    + rewrite (check_device_created _ _ _ El). eexists _, _.
      split; [reflexivity|]. simpl. constructor; [discriminate|exact Hwf].
    + exists t. eexists. split; [|exact Hwf].
      unfold xt_flowoffload_check_device, xt_flowoffload_create_hook.
      munfold. simpl. rewrite El. reflexivity.
Qed.

(** X10.  A hook that is marked registered records the network namespace
    of its device in [net]: this holds for a new hook, and
    [xt_flowoffload_check_device] and the sweep cycle keep it for every hook
    of the collection.  So a sweep cycle passes every hook it reaps to
    [nf_unregister_net_hook] with the namespace the hook was passed to
    [nf_register_net_hook] with, never with a null one. *)
Theorem hooks_record_their_net :
  (forall (table : bool) (dev : net_device),
     hook_net_recorded (new_hook table dev)) /\
  (forall (kz table : bool) (dev : option net_device) (t : xt_flowoffload_table),
     Forall hook_net_recorded (tbl_hooks t) ->
     exists t' evs,
       xt_flowoffload_check_device kz table dev t = Some (tt, t', evs) /\
       Forall hook_net_recorded (tbl_hooks t')) /\
  (forall (HZ : Z) (stop : option (nat * Z)) (t : xt_flowoffload_table),
     Forall hook_net_recorded (tbl_hooks t) ->
     exists t' evs,
       process_one_work HZ stop t = Some (tt, t', evs) /\
       Forall hook_net_recorded (tbl_hooks t') /\
       Forall unregisters_with_net evs).
Proof.
  split; [discriminate|]. split.
  - apply check_device_net_recorded.
  - apply sweep_with_net.
Qed.

(** ** Device lifecycle observer: any device, any table *)

Lemma lookup_and_del_run (dev : net_device) (t : xt_flowoffload_table) :
  lookup_and_del dev t =
    match flow_offload_lookup_hook (tbl_hooks t) dev with
    | Some (i, hook) =>
        Some (Some hook, set_hooks (delete i (tbl_hooks t)) t, [Ev_hlist_del hook])
    | None => Some (None, t, [])
    end.
Proof.
  unfold lookup_and_del. munfold.
  now destruct (flow_offload_lookup_hook (tbl_hooks t) dev) as [[i h]|].
Qed.


Lemma netdev_event_run (dev : net_device) (t0 t1 t0' t1' : xt_flowoffload_table)
    (h0 h1 : option xt_flowoffload_hook) (ev0 ev1 : list event) :
  lookup_and_del dev t0 = Some (h0, t0', ev0) ->
  lookup_and_del dev t1 = Some (h1, t1', ev1) ->
  flow_offload_netdev_event NETDEV_UNREGISTER dev (t0, t1) =
    Some (NOTIFY_DONE, (t0', t1'),
          [Ev_spin_lock_bh] ++ ev0 ++ ev1 ++ [Ev_spin_unlock_bh] ++
          match h0 with
          | Some h => [Ev_nf_unregister_net_hook (hook_net h) (hook_ops h); Ev_kfree h]
          | None => []
          end ++
          match h1 with
          | Some h => [Ev_nf_unregister_net_hook (hook_net h) (hook_ops h); Ev_kfree h]
          | None => []
          end ++
          [Ev_nf_flow_table_cleanup dev]).
Proof.
  intros E0 E1.
  unfold flow_offload_netdev_event, on_table, zoom, unregister_and_free.
  change (negb (NETDEV_UNREGISTER =? NETDEV_UNREGISTER)) with false. cbv iota.
  unfold bind, emit, ret.
  change (get_table false (t0, t1)) with t0. rewrite E0.
  change (get_table true (set_table false t0' (t0, t1))) with t1. rewrite E1.
  destruct h0, h1; cbn [set_table fst snd]; rewrite ?app_nil_r; reflexivity.
Qed.


(** X12.  The observer does not look at the [registered] flag.  When the
    hook it finds for the device, in either table, was never registered and
    its [net] is still null, [flow_offload_netdev_event] passes it to
    [nf_unregister_net_hook] with a null namespace and frees it. *)
Theorem netdev_unregister_pending_hook (dev : net_device) (ts : flowtables)
    (b : bool) (i : nat) (hook : xt_flowoffload_hook) :
  flow_offload_lookup_hook (tbl_hooks (get_table b ts)) dev = Some (i, hook) ->
  hook_net hook = None ->
  exists ts' evs,
    flow_offload_netdev_event NETDEV_UNREGISTER dev ts = Some (NOTIFY_DONE, ts', evs) /\
    In (Ev_nf_unregister_net_hook None (hook_ops hook)) evs /\
    In (Ev_kfree hook) evs /\
    ~ Forall unregisters_with_net evs.
Proof.
  intros El Hnet. destruct ts as [t0 t1].
  assert (E0 := lookup_and_del_run dev t0).
  assert (E1 := lookup_and_del_run dev t1).
  destruct b; simpl in El.
  - rewrite El in E1.
    destruct (flow_offload_lookup_hook (tbl_hooks t0) dev) as [[i0 h0]|];
      rewrite (netdev_event_run _ _ _ _ _ _ _ _ _ E0 E1);
      eexists _, _; (split; [reflexivity|]); rewrite <- Hnet;
      (split; [rewrite !in_app_iff; simpl; tauto|]);
      (split; [rewrite !in_app_iff; simpl; tauto|]);
      rewrite !Forall_app; intros F;
      repeat match goal with H : _ /\ _ |- _ => destruct H end;
      match goal with
      | H : Forall unregisters_with_net
              [Ev_nf_unregister_net_hook (hook_net hook) _; _] |- _ =>
          apply Forall_cons_1 in H as [H _]; simpl in H; congruence
      end.
  - rewrite El in E0.
    destruct (flow_offload_lookup_hook (tbl_hooks t1) dev) as [[i1 h1]|];
      rewrite (netdev_event_run _ _ _ _ _ _ _ _ _ E0 E1);
      eexists _, _; (split; [reflexivity|]); rewrite <- Hnet;
      (split; [rewrite !in_app_iff; simpl; tauto|]);
      (split; [rewrite !in_app_iff; simpl; tauto|]);
      rewrite !Forall_app; intros F;
      repeat match goal with H : _ /\ _ |- _ => destruct H end;
      match goal with
      | H : Forall unregisters_with_net
              [Ev_nf_unregister_net_hook (hook_net hook) _; _] |- _ =>
          apply Forall_cons_1 in H as [H _]; simpl in H; congruence
      end.
Qed.

(** The pending hook of [eth0] in the second table. *)
Lemma netdev_unregister_pending_hook_witness :
  exists ts' evs,
    flow_offload_netdev_event NETDEV_UNREGISTER eth0 both_hooked =
      Some (NOTIFY_DONE, ts', evs) /\
    In (Ev_nf_unregister_net_hook None (hook_ops (new_hook true eth0))) evs /\
    In (Ev_kfree (new_hook true eth0)) evs /\
    ~ Forall unregisters_with_net evs.
Proof.
  apply (netdev_unregister_pending_hook eth0 both_hooked true 1
           (new_hook true eth0)); reflexivity.
Defined.

(** ** Ingress: the two hook functions *)

(** The byte-swapped protocol numbers of IPv4 and IPv6 differ on either
    byte order. *)
Lemma htons_ip_ipv6 (cpu_big_endian : bool) :
  htons cpu_big_endian ETH_P_IPV6 <> htons cpu_big_endian ETH_P_IP.
Proof. now destruct cpu_big_endian. Qed.

(** X13.  [nf_flow_offload_inet_hook] leaves the flow table alone: a
    packet whose protocol is IPv4 is handed to [nf_flow_offload_ip_hook] and
    gets its verdict, a packet whose protocol is IPv6 is handed to
    [nf_flow_offload_ipv6_hook] and gets its verdict, and any other packet
    gets [NF_ACCEPT] without a call.  [xt_flowoffload_net_hook] is this
    function behind one guard: on a table without entries it returns
    [NF_ACCEPT] at once, without a call, on any other table it does what
    [nf_flow_offload_inet_hook] does. *)
Theorem net_hook_is_guarded_inet_hook (cpu_big_endian : bool)
    (ip_hook ipv6_hook : nf_flowtable -> sk_buff -> Z)
    (skb : sk_buff) (ft : nf_flowtable) :
  (skb_protocol skb = htons cpu_big_endian ETH_P_IP ->
   nf_flow_offload_inet_hook cpu_big_endian ip_hook ipv6_hook skb ft =
     Some (ip_hook ft skb, ft, [Ev_nf_flow_offload_ip_hook])) /\
  (skb_protocol skb = htons cpu_big_endian ETH_P_IPV6 ->
   nf_flow_offload_inet_hook cpu_big_endian ip_hook ipv6_hook skb ft =
     Some (ipv6_hook ft skb, ft, [Ev_nf_flow_offload_ipv6_hook])) /\
  (skb_protocol skb <> htons cpu_big_endian ETH_P_IP ->
   skb_protocol skb <> htons cpu_big_endian ETH_P_IPV6 ->
   nf_flow_offload_inet_hook cpu_big_endian ip_hook ipv6_hook skb ft =
     Some (NF_ACCEPT, ft, [])) /\
  (rhashtable_nelems ft = 0 ->
   xt_flowoffload_net_hook cpu_big_endian ip_hook ipv6_hook skb ft =
     Some (NF_ACCEPT, ft, [])) /\
  (rhashtable_nelems ft <> 0 ->
   xt_flowoffload_net_hook cpu_big_endian ip_hook ipv6_hook skb ft =
     nf_flow_offload_inet_hook cpu_big_endian ip_hook ipv6_hook skb ft).
Proof.
  unfold xt_flowoffload_net_hook, nf_flow_offload_inet_hook. munfold.
  pose proof (htons_ip_ipv6 cpu_big_endian) as Hne.
  repeat split.
  - intros ->. now rewrite Z.eqb_refl.
  - intros ->. rewrite Z.eqb_refl.
    now destruct (Z.eqb_spec (htons cpu_big_endian ETH_P_IPV6)
                    (htons cpu_big_endian ETH_P_IP)).
  - intros H4 H6.
    destruct (Z.eqb_spec (skb_protocol skb) (htons cpu_big_endian ETH_P_IP));
      [contradiction|].
    now destruct (Z.eqb_spec (skb_protocol skb) (htons cpu_big_endian ETH_P_IPV6)).
  - intros ->. reflexivity.
  - intros Hn. now destruct (Z.eqb_spec (rhashtable_nelems ft) 0).
Qed.

(** ** Path resolver: what the walk records *)

(** An iteration for a segment that is no hardware-untagging bridge port
    is defined. *)
Lemma path_step_is_Some (ENCAP_MAX FIELD_BITS : Z) (dir : ip_conntrack_dir)
    (np i : Z) (path : net_device_path) (s : walk_state) :
  seg_hw_untag path = false ->
  is_Some (path_step ENCAP_MAX FIELD_BITS dir np i path s).
Proof.
  intros Hhw.
  pose proof (path_step_control ENCAP_MAX FIELD_BITS dir np i path s) as Hc.
  cbv zeta in Hc.
  destruct (path_step ENCAP_MAX FIELD_BITS dir np i path s); [now eexists|].
  unfold seg_shift_ok in Hc. now rewrite Hhw in Hc.
Qed.

Lemma seg_push_no_shift (path : net_device_path) :
  seg_final path = true \/ seg_push path = true -> seg_hw_untag path = false.
Proof.
  unfold seg_final, seg_push, seg_hw_untag.
  destruct (path_type path), (path_bridge_vlan_mode path); intros [H|H];
    (reflexivity || discriminate).
Qed.

Section ResolverExtras.

Variable ENCAP_MAX : Z.
Variable FIELD_BITS : Z.
Variable neigh : dst_entry -> nf_inet_addr -> option neighbour.
Variable fill : net_device -> list Z -> Z * net_device_path_stack.

(** One iteration of the walk touches the encapsulation entries of the
    direction it resolves never, and those of the opposite direction only
    at an index below the depth limit. *)
Lemma path_step_encap (dir : ip_conntrack_dir) (np i : Z)
    (path : net_device_path) (s s' : walk_state) :
  path_step ENCAP_MAX FIELD_BITS dir np i path s = Some s' ->
  let n := opposite_num_encaps dir (ws_route s) in
  ws_dev s' = path_dev path /\
  in_encap (route_tuple dir (ws_route s')) = in_encap (route_tuple dir (ws_route s)) /\
  (route_tuple (dir_not dir) (ws_route s') = route_tuple (dir_not dir) (ws_route s) /\
   (seg_final path = true \/
    seg_push path = true /\ (ENCAP_MAX <= n \/ i = np) \/
    seg_push path = false /\ seg_pop path = false) /\
   (seg_final path = true \/ seg_push path = true -> ws_last s' = true)
   \/
   seg_push path = true /\ n < ENCAP_MAX /\ i <> np /\
   ws_last s' = ws_last s /\
   route_tuple (dir_not dir) (ws_route s') =
     push_encap FIELD_BITS n (encap_id (seg_encap path)) (encap_proto (seg_encap path))
       (route_tuple (dir_not dir) (ws_route s))
   \/
   seg_push path = false /\ seg_final path = false /\
   ws_last s' = ws_last s /\
   in_encap (route_tuple (dir_not dir) (ws_route s')) =
     in_encap (route_tuple (dir_not dir) (ws_route s))).
Proof.
  intros E n. subst n. revert E. unfold path_step, opposite_num_encaps.
  set (r1 := if flow_is_valid_ether_device (path_dev path) then _ else _).
  assert (Hopp : route_tuple (dir_not dir) r1 = route_tuple (dir_not dir) (ws_route s)).
  { subst r1. destruct (flow_is_valid_ether_device (path_dev path)); [|reflexivity].
    destruct (path_dev path); [|reflexivity].
    rewrite route_tuple_upd_other.
    destruct (negb _); [apply route_tuple_upd_other|reflexivity]. }
  assert (Hdir : in_encap (route_tuple dir r1) = in_encap (route_tuple dir (ws_route s))).
  { subst r1. destruct (flow_is_valid_ether_device (path_dev path)); [|reflexivity].
    destruct (path_dev path); [|reflexivity].
    rewrite route_tuple_upd_same. simpl.
    destruct (negb _); [now rewrite route_tuple_upd_same|reflexivity]. }
  clearbody r1.
  unfold seg_final, seg_push, seg_pop, seg_encap.
  destruct (path_type path) eqn:Ety; simpl.
  - (* DEV_PATH_ETHERNET *)
    intros [= <-]. simpl.
    split; [reflexivity|]. split; [exact Hdir|]. left.
    split; [exact Hopp|]. split; [now left|reflexivity].
  - (* DEV_PATH_VLAN *)
    destruct ((in_num_encaps (route_tuple (dir_not dir) (ws_route s)) >=? ENCAP_MAX)
              || (i =? np)) eqn:G; intros [= <-]; simpl.
    + split; [reflexivity|]. split; [exact Hdir|]. left.
      split; [exact Hopp|]. split; [|reflexivity]. right. left.
      split; [reflexivity|]. apply orb_true_iff in G as [G|G]; [left|right]; lia.
    + apply orb_false_iff in G as [G1 G2].
      split; [reflexivity|]. split; [now rewrite route_tuple_upd_not|].
      right. left. repeat split; try lia.
      now rewrite route_tuple_upd_same, Hopp.
  - (* DEV_PATH_BRIDGE *)
    destruct (path_bridge_vlan_mode path) eqn:Emode; simpl.
    + intros [= <-]. simpl.
      split; [reflexivity|]. split; [exact Hdir|]. left.
      split; [exact Hopp|]. split; [|intros [F|F]; discriminate].
      right. right. now split.
    + destruct ((in_num_encaps (route_tuple (dir_not dir) (ws_route s)) >=? ENCAP_MAX)
                || (i =? np)) eqn:G; intros [= <-]; simpl.
      * split; [reflexivity|]. split; [exact Hdir|]. left.
        split; [exact Hopp|]. split; [|reflexivity]. right. left.
        split; [reflexivity|]. apply orb_true_iff in G as [G|G]; [left|right]; lia.
      * apply orb_false_iff in G as [G1 G2].
        split; [reflexivity|]. split; [now rewrite route_tuple_upd_not|].
        right. left. repeat split; try lia.
        now rewrite route_tuple_upd_same, Hopp.
    + intros [= <-]. simpl.
      split; [reflexivity|]. split; [now rewrite route_tuple_upd_not|].
      right. right. repeat split.
      now rewrite route_tuple_upd_same, Hopp.
    + destruct (BIT _); [|discriminate]. intros [= <-]. simpl.
      split; [reflexivity|]. split; [now rewrite route_tuple_upd_not|].
      right. right. repeat split.
      now rewrite route_tuple_upd_same, Hopp.
  - (* DEV_PATH_PPPOE *)
    destruct ((in_num_encaps (route_tuple (dir_not dir) (ws_route s)) >=? ENCAP_MAX)
              || (i =? np)) eqn:G; intros [= <-]; simpl.
    + split; [reflexivity|]. split; [exact Hdir|]. left.
      split; [exact Hopp|]. split; [|reflexivity]. right. left.
      split; [reflexivity|]. apply orb_true_iff in G as [G|G]; [left|right]; lia.
    + apply orb_false_iff in G as [G1 G2].
      split; [reflexivity|].
      split; [now rewrite route_tuple_upd_same, route_tuple_upd_not|].
      right. left. repeat split; try lia.
      now rewrite route_tuple_upd_other, route_tuple_upd_same, Hopp.
  - (* DEV_PATH_DSA *)
    intros [= <-]. simpl.
    split; [reflexivity|]. split; [exact Hdir|]. left.
    split; [exact Hopp|]. split; [now left|reflexivity].
Qed.

(** X15.  An iteration of the walk never changes the encapsulation entries
    of the direction it resolves, and it changes those of the opposite
    direction only by storing the entry of the segment at the index
    [num_encaps] had on entry, which is then below
    [NF_FLOW_TABLE_ENCAP_MAX]: no iteration writes past the end of the
    [encap] array, whatever the count, the segment and the index are.  The
    one iteration that leaves defined behaviour is that for a bridge port
    whose tag the hardware takes away, when the shift count
    [n_encaps - 1] is outside the word. *)
Theorem encap_write_in_bounds (dir : ip_conntrack_dir) (np i : Z)
    (path : net_device_path) (s : walk_state) :
  let n := opposite_num_encaps dir (ws_route s) in
  0 <= n ->
  match path_step ENCAP_MAX FIELD_BITS dir np i path s with
  | Some s' =>
      in_encap (route_tuple dir (ws_route s')) =
        in_encap (route_tuple dir (ws_route s)) /\
      (in_encap (route_tuple (dir_not dir) (ws_route s')) =
         in_encap (route_tuple (dir_not dir) (ws_route s))
       \/
       (Z.to_nat n < Z.to_nat ENCAP_MAX)%nat /\
       in_encap (route_tuple (dir_not dir) (ws_route s')) =
         <[Z.to_nat n := seg_encap path]>
           (in_encap (route_tuple (dir_not dir) (ws_route s))))
  | None =>
      path_type path = DEV_PATH_BRIDGE /\
      path_bridge_vlan_mode path = DEV_PATH_BR_VLAN_UNTAG_HW /\
      (n - 1 < 0 \/ BITS_PER_LONG <= n - 1)
  end.
Proof.
  intros n Hn.
  pose proof (path_step_control ENCAP_MAX FIELD_BITS dir np i path s) as Hc.
  cbv zeta in Hc. fold n in Hc.
  destruct (path_step ENCAP_MAX FIELD_BITS dir np i path s) as [s'|] eqn:E.
  - destruct (path_step_encap dir np i path s s' E)
      as (_ & Hdir & [(Hopp & _)|[(_ & Hlt & _ & _ & Hopp)|(_ & _ & _ & Hopp)]]).
    + split; [exact Hdir|]. left. now rewrite Hopp.
    + split; [exact Hdir|]. right. fold n in Hlt, Hopp. split; [lia|].
      rewrite Hopp. simpl. now destruct (seg_encap path).
    + split; [exact Hdir|]. now left.
  - unfold seg_shift_ok, seg_hw_untag in Hc.
    destruct (path_type path); try discriminate.
    destruct (path_bridge_vlan_mode path); try discriminate.
    simpl in Hc. split; [reflexivity|]. split; [reflexivity|].
    apply andb_false_iff in Hc as [Hc|Hc]; [left|right]; lia.
Qed.

(** The walk over the push segments [pushes] that follow the segments
    [pre], up to the segment [q] that ends it. *)
Lemma walk_pushes (dir : ip_conntrack_dir) (stack : net_device_path_stack)
    (q : net_device_path) (rest : list net_device_path) :
  0 <= ENCAP_MAX < 2 ^ FIELD_BITS ->
  forall (pushes pre : list net_device_path) (s : walk_state) (fuel : nat),
    stack_path stack = pre ++ pushes ++ q :: rest ->
    forallb seg_push pushes = true ->
    ws_last s = false ->
    opposite_num_encaps dir (ws_route s) = Z.of_nat (length pre) ->
    take (length pre) (in_encap (route_tuple (dir_not dir) (ws_route s))) =
      map seg_encap pre ->
    length (in_encap (route_tuple (dir_not dir) (ws_route s))) = Z.to_nat ENCAP_MAX ->
    Z.of_nat (length pre + length pushes) <= ENCAP_MAX ->
    Z.of_nat (length pre + length pushes) <= num_paths stack ->
    (seg_final q = true \/
     seg_push q = true /\
     (Z.of_nat (length pre + length pushes) = ENCAP_MAX \/
      Z.of_nat (length pre + length pushes) = num_paths stack)) ->
    (length pushes < fuel)%nat ->
    exists s',
      path_walk ENCAP_MAX FIELD_BITS fuel dir stack (Z.of_nat (length pre)) s = Some s' /\
      ws_last s' = true /\
      ws_dev s' = path_dev q /\
      opposite_num_encaps dir (ws_route s') = Z.of_nat (length pre + length pushes) /\
      take (length pre + length pushes)
        (in_encap (route_tuple (dir_not dir) (ws_route s'))) =
        map seg_encap (pre ++ pushes).
Proof.
  intros Hfits.
  induction pushes as [|p pushes IH];
    intros pre s fuel Hstack Hpush Hlast Hn Henc Hcap Hmax Hnp Hstop Hfuel.
  - destruct fuel as [|fuel]; [simpl in Hfuel; lia|].
    simpl in *. rewrite Nat.add_0_r in *.
    destruct (Z.leb_spec (Z.of_nat (length pre)) (num_paths stack)); [|lia].
    rewrite Nat2Z.id, Hstack.
    rewrite lookup_app_r, Nat.sub_diag by lia. simpl.
    destruct (path_step_is_Some ENCAP_MAX FIELD_BITS dir (num_paths stack)
                (Z.of_nat (length pre)) q s) as [s1 E1].
    { apply seg_push_no_shift. destruct Hstop as [F|[F _]]; [now left|now right]. }
    rewrite E1.
    destruct (path_step_encap dir (num_paths stack) (Z.of_nat (length pre)) q s s1 E1)
      as (Hdev & _ & [(Hopp & _ & Hl)|[(Hq & Hlt & Hne & _)|(Hq & Hf & _)]]).
    + rewrite Hl by (destruct Hstop as [F|[F _]]; [now left|now right]).
      eexists. split; [reflexivity|]. split; [apply Hl;
        destruct Hstop as [F|[F _]]; [now left|now right]|].
      split; [exact Hdev|]. unfold opposite_num_encaps in *. rewrite Hopp.
      split; [exact Hn|]. now rewrite app_nil_r.
    + exfalso. rewrite Hn in Hlt.
      destruct Hstop as [F|[_ [F|F]]]; [|lia|lia].
      revert F Hq. unfold seg_final, seg_push. now destruct (path_type q).
    + exfalso. destruct Hstop as [F|[F _]]; congruence.
  - destruct fuel as [|fuel]; [simpl in Hfuel; lia|].
    simpl in Hpush. apply andb_true_iff in Hpush as [Hp Hpush].
    simpl length in *. simpl path_walk.
    destruct (Z.leb_spec (Z.of_nat (length pre)) (num_paths stack)); [|lia].
    rewrite Nat2Z.id, Hstack.
    rewrite lookup_app_r, Nat.sub_diag by lia. simpl.
    destruct (path_step_is_Some ENCAP_MAX FIELD_BITS dir (num_paths stack)
                (Z.of_nat (length pre)) p s) as [s1 E1].
    { apply seg_push_no_shift. now right. }
    rewrite E1.
    destruct (path_step_encap dir (num_paths stack) (Z.of_nat (length pre)) p s s1 E1)
      as (Hdev & _ & [(_ & Hc & _)|[(_ & Hlt & Hne & Hl & Hopp)|(Hq & _)]]).
    + exfalso. rewrite Hn in Hc.
      destruct Hc as [F|[[_ [F|F]]|[F _]]]; [|lia|lia|congruence].
      revert F Hp. unfold seg_final, seg_push. now destruct (path_type p).
    + rewrite Hl, Hlast.
      assert (Hlen : (length pre < length (in_encap (route_tuple (dir_not dir) (ws_route s))))%nat)
        by lia.
      destruct (IH (pre ++ [p]) s1 fuel) as (s' & E & Hl' & Hd' & Hn' & He').
      * now rewrite <- app_assoc.
      * exact Hpush.
      * now rewrite Hl.
      * unfold opposite_num_encaps in *. rewrite Hopp. simpl.
        rewrite Hn, length_app. simpl.
        unfold bitfield. rewrite Z.mod_small by lia. lia.
      * rewrite Hopp. simpl.
        rewrite Hn, Nat2Z.id, length_app. simpl.
        rewrite Nat.add_1_r.
        rewrite (take_S_r _ _ (seg_encap p)).
        -- rewrite take_insert_ge by lia. rewrite Henc, map_app. reflexivity.
        -- rewrite list_lookup_insert_eq by assumption. now destruct (seg_encap p).
      * rewrite Hopp. simpl. now rewrite length_insert.
      * rewrite length_app. simpl. lia.
      * rewrite length_app. simpl. lia.
      * rewrite length_app. simpl.
        replace (length pre + 1 + length pushes)%nat
          with (length pre + S (length pushes))%nat by lia.
        exact Hstop.
      * lia.
      * rewrite length_app in E. simpl in E.
        replace (Z.of_nat (length pre) + 1) with (Z.of_nat (length pre + 1)) by lia.
        exists s'. split; [exact E|]. split; [exact Hl'|]. split; [exact Hd'|].
        rewrite length_app in Hn', He'. simpl in Hn', He'.
        replace (length pre + S (length pushes))%nat
          with (length pre + 1 + length pushes)%nat by lia.
        split; [exact Hn'|]. now rewrite He', <- app_assoc.
    + congruence.
Qed.

(** X16.  On a stack that starts with at most [NF_FLOW_TABLE_ENCAP_MAX]
    segments that push a layer (VLAN or PPPoE devices, bridge ports that tag)
    and goes on with a segment that ends the walk (a segment of another
    kind; or one more push segment, when the pushes before it have used up
    the depth limit or it sits at index [num_paths]), the walk of an empty
    encapsulation stack ends at that segment, with its device in hand; the
    count of the opposite direction is the number of push segments, and the
    entries recorded are those of the push segments, in the order of the
    stack. *)
Theorem walk_records_pushes (dir : ip_conntrack_dir)
    (stack : net_device_path_stack) (pushes : list net_device_path)
    (q : net_device_path) (rest : list net_device_path) (s : walk_state) :
  0 <= ENCAP_MAX < 2 ^ FIELD_BITS ->
  stack_path stack = pushes ++ q :: rest ->
  forallb seg_push pushes = true ->
  ws_last s = false ->
  opposite_num_encaps dir (ws_route s) = 0 ->
  length (in_encap (route_tuple (dir_not dir) (ws_route s))) = Z.to_nat ENCAP_MAX ->
  Z.of_nat (length pushes) <= ENCAP_MAX ->
  Z.of_nat (length pushes) <= num_paths stack ->
  (seg_final q = true \/
   seg_push q = true /\
   (Z.of_nat (length pushes) = ENCAP_MAX \/
    Z.of_nat (length pushes) = num_paths stack)) ->
  exists s',
    path_walk_all ENCAP_MAX FIELD_BITS dir stack s = Some s' /\
    ws_last s' = true /\
    ws_dev s' = path_dev q /\
    opposite_num_encaps dir (ws_route s') = Z.of_nat (length pushes) /\
    take (length pushes) (in_encap (route_tuple (dir_not dir) (ws_route s'))) =
      map seg_encap pushes.
Proof.
  intros Hfits Hstack Hpush Hlast Hn Hcap Hmax Hnp Hstop.
  unfold path_walk_all.
  apply (walk_pushes dir stack q rest Hfits pushes [] s
           (Z.to_nat (num_paths stack + 1)));
    try assumption; try reflexivity.
  lia.
Qed.


(** Once the transmit type of the direction is [FLOW_OFFLOAD_XMIT_DIRECT],
    an iteration leaves it, the source address and the output interface
    alone. *)
Lemma path_step_direct (dir : ip_conntrack_dir) (np i : Z)
    (path : net_device_path) (s s' : walk_state) :
  xmit_type (route_tuple dir (ws_route s)) = FLOW_OFFLOAD_XMIT_DIRECT ->
  path_step ENCAP_MAX FIELD_BITS dir np i path s = Some s' ->
  let t := route_tuple dir (ws_route s) in
  let t' := route_tuple dir (ws_route s') in
  xmit_type t' = FLOW_OFFLOAD_XMIT_DIRECT /\
  out_ifindex t' = out_ifindex t /\
  out_h_source t' = out_h_source t.
Proof.
  intros H E t t'. subst t t'. revert E. unfold path_step. rewrite H. simpl negb.
  destruct (path_type path), (path_bridge_vlan_mode path);
    destruct (flow_is_valid_ether_device (path_dev path)), (path_dev path);
    simpl;
    repeat match goal with
           | |- context [match BIT ?x with _ => _ end] => destruct (BIT x); simpl
           | |- context [if ?c then _ else _] => destruct c; simpl
           end;
    try discriminate; intros [= <-];
    destruct dir; simpl in *; now rewrite ?H.
Qed.

Lemma path_walk_direct (dir : ip_conntrack_dir) (stack : net_device_path_stack)
    (fuel : nat) :
  forall (i : Z) (s s' : walk_state),
    xmit_type (route_tuple dir (ws_route s)) = FLOW_OFFLOAD_XMIT_DIRECT ->
    path_walk ENCAP_MAX FIELD_BITS fuel dir stack i s = Some s' ->
    xmit_type (route_tuple dir (ws_route s')) = FLOW_OFFLOAD_XMIT_DIRECT /\
    out_ifindex (route_tuple dir (ws_route s')) =
      out_ifindex (route_tuple dir (ws_route s)) /\
    out_h_source (route_tuple dir (ws_route s')) =
      out_h_source (route_tuple dir (ws_route s)).
Proof.
  induction fuel as [|fuel IH]; intros i s s' H; simpl.
  - now intros [= <-].
  - destruct (i <=? num_paths stack); [|now intros [= <-]].
    destruct (stack_path stack !! Z.to_nat i) as [p|]; [|discriminate].
    destruct (path_step ENCAP_MAX FIELD_BITS dir (num_paths stack) i p s)
      as [s1|] eqn:E1; [|discriminate].
    destruct (path_step_direct dir (num_paths stack) i p s s1 H E1) as (Hx & Hi & Hs).
    destruct (ws_last s1).
    + now intros [= <-].
    + intros E. destruct (IH _ _ _ Hx E) as (Hx' & Hi' & Hs').
      now rewrite Hi', Hs'.
Qed.

(** An iteration that meets a valid Ethernet device while the transmit
    type is not yet direct records its address and interface. *)
Lemma path_step_first_device (dir : ip_conntrack_dir) (np i : Z)
    (path : net_device_path) (s s' : walk_state) (d : net_device) :
  path_dev path = Some d ->
  ether_device_ok d = true ->
  xmit_type (route_tuple dir (ws_route s)) <> FLOW_OFFLOAD_XMIT_DIRECT ->
  path_step ENCAP_MAX FIELD_BITS dir np i path s = Some s' ->
  let t' := route_tuple dir (ws_route s') in
  xmit_type t' = FLOW_OFFLOAD_XMIT_DIRECT /\
  out_ifindex t' = dev_ifindex d /\
  out_h_source t' = memcpy_eth (dev_addr d).
Proof.
  intros Hd Hok Hx E t'. subst t'. revert E. unfold path_step. rewrite Hd. simpl.
  rewrite Hok.
  assert (E : negb (xmit_type_eqb (xmit_type (route_tuple dir (ws_route s)))
                      FLOW_OFFLOAD_XMIT_DIRECT) = true).
  { now destruct (xmit_type (route_tuple dir (ws_route s))). }
  rewrite E.
  destruct (path_type path), (path_bridge_vlan_mode path); simpl;
    repeat match goal with
           | |- context [match BIT ?x with _ => _ end] => destruct (BIT x); simpl
           | |- context [if ?c then _ else _] => destruct c; simpl
           end;
    try discriminate; intros [= <-];
    now destruct dir.
Qed.

(** X17.  When an iteration of the walk meets a valid Ethernet device
    while the transmit type of the direction is not yet
    [FLOW_OFFLOAD_XMIT_DIRECT], the transmit type becomes direct and the
    source address and output interface of the direction are those of that
    device; whatever the rest of the walk meets, they are still so when the
    walk ends. *)
Theorem first_ether_device_wins (dir : ip_conntrack_dir)
    (stack : net_device_path_stack) (fuel : nat) (i : Z)
    (p : net_device_path) (d : net_device) (s s' : walk_state) :
  i <= num_paths stack ->
  stack_path stack !! Z.to_nat i = Some p ->
  path_dev p = Some d ->
  ether_device_ok d = true ->
  xmit_type (route_tuple dir (ws_route s)) <> FLOW_OFFLOAD_XMIT_DIRECT ->
  path_walk ENCAP_MAX FIELD_BITS (S fuel) dir stack i s = Some s' ->
  xmit_type (route_tuple dir (ws_route s')) = FLOW_OFFLOAD_XMIT_DIRECT /\
  out_ifindex (route_tuple dir (ws_route s')) = dev_ifindex d /\
  out_h_source (route_tuple dir (ws_route s')) = memcpy_eth (dev_addr d).
Proof.
  intros Hi Hl Hd Hok Hx. simpl.
  destruct (Z.leb_spec i (num_paths stack)); [|lia].
  rewrite Hl.
  destruct (path_step ENCAP_MAX FIELD_BITS dir (num_paths stack) i p s)
    as [s1|] eqn:E1; [|discriminate].
  destruct (path_step_first_device dir (num_paths stack) i p s s1 d Hd Hok Hx E1)
    as (Hx1 & Hi1 & Hs1).
  destruct (ws_last s1).
  - now intros [= <-].
  - intros E. destruct (path_walk_direct _ _ _ _ _ _ Hx1 E) as (Hx' & Hi' & Hs').
    now rewrite Hi', Hs'.
Qed.

(** X18.  Whenever [xt_flowoffload_route_check_path] returns, it has
    released the neighbour entry it looked up: [neigh_release] is called
    once when the route is not an IPsec route, its device is a valid
    Ethernet device and the neighbour lookup found an entry, and is not
    called otherwise.  The two destination handles of the route are as they
    were. *)
Theorem check_path_releases_neighbour {S : Type} (route : nf_flow_route)
    (ct : nf_conn) (dir : ip_conntrack_dir) (out_dev : option net_device) (st : S)
    (dst : dst_entry) (route' : nf_flow_route) (out_dev' : option net_device)
    (st' : S) (evs : list event) :
  rt_dst (route_tuple dir route) = Some dst ->
  xt_flowoffload_route_check_path ENCAP_MAX FIELD_BITS neigh fill route ct dir
    out_dev st = Some ((route', out_dev'), st', evs) ->
  st' = st /\
  evs =
    (if xmit_type_eqb (xmit_type (route_tuple dir route)) FLOW_OFFLOAD_XMIT_XFRM
        || negb (ether_device_ok (dst_dev dst))
     then []
     else match neigh dst (tuple_src_u3 (ct_tuple (dir_not dir) ct)) with
          | Some _ => [Ev_neigh_release]
          | None => []
          end) /\
  (forall d, rt_dst (route_tuple d route') = rt_dst (route_tuple d route)).
Proof.
  intros Hdst E.
  destruct (check_path_run ENCAP_MAX FIELD_BITS neigh fill route ct dir out_dev st
              route' out_dev' st' evs E) as (Hst & Hkeep & _).
  split; [exact Hst|]. split; [|exact Hkeep].
  destruct (check_path_cases ENCAP_MAX FIELD_BITS neigh fill route ct dir out_dev st
              dst route' out_dev' st' evs Hdst E)
    as (_ & [(Hc & _ & _ & ->)|(n & Hx & Hok & Hn & -> & _)]).
  - destruct Hc as [Hc|[Hc|Hc]].
    + now rewrite Hc.
    + rewrite Hc. simpl. now rewrite orb_true_r.
    + rewrite Hc. now destruct (_ || _).
  - rewrite Hok, Hn.
    now destruct (xmit_type (route_tuple dir route)).
Qed.

(** X19.  Whenever [xt_flowoffload_route_check_path] returns, either it
    leaves [*out_dev] and [out.hw_ifindex] as they were, and the input
    interface of the opposite direction and the output interface of the
    direction are the device of the destination handle; or it has walked the
    stack the forwarding-path query answered with for that device and the
    address of the neighbour (the route is then no IPsec route, that device
    a valid Ethernet device, the neighbour valid and the stack not empty),
    [*out_dev] is the device in hand when that walk ended, and the input
    interface of the opposite direction and [out.hw_ifindex] of the
    direction are that device's. *)
Theorem check_path_reports_device {S : Type} (route : nf_flow_route)
    (ct : nf_conn) (dir : ip_conntrack_dir) (out_dev : option net_device) (st : S)
    (dst : dst_entry) (route' : nf_flow_route) (out_dev' : option net_device)
    (st' : S) (evs : list event) :
  rt_dst (route_tuple dir route) = Some dst ->
  xt_flowoffload_route_check_path ENCAP_MAX FIELD_BITS neigh fill route ct dir
    out_dev st = Some ((route', out_dev'), st', evs) ->
  out_dev' = out_dev /\
  in_ifindex (route_tuple (dir_not dir) route') = dev_ifindex (dst_dev dst) /\
  out_ifindex (route_tuple dir route') = dev_ifindex (dst_dev dst) /\
  out_hw_ifindex (route_tuple dir route') = out_hw_ifindex (route_tuple dir route)
  \/
  exists n s dev,
    xmit_type (route_tuple dir route) <> FLOW_OFFLOAD_XMIT_XFRM /\
    ether_device_ok (dst_dev dst) = true /\
    neigh dst (tuple_src_u3 (ct_tuple (dir_not dir) ct)) = Some n /\
    Z.land (nud_state n) NUD_VALID <> 0 /\
    (fill (dst_dev dst) (memcpy_eth (neigh_ha n))).1 = 0 /\
    num_paths (fill (dst_dev dst) (memcpy_eth (neigh_ha n))).2 <> 0 /\
    path_walk_all ENCAP_MAX FIELD_BITS dir
      (fill (dst_dev dst) (memcpy_eth (neigh_ha n))).2
      {| ws_route :=
           upd_tuple dir (set_out_h_dest (memcpy_eth (neigh_ha n)))
             (upd_tuple dir (set_out_ifindex (dev_ifindex (dst_dev dst)))
                (upd_tuple (dir_not dir)
                   (set_in_ifindex (dev_ifindex (dst_dev dst))) route));
         ws_dev := Some (dst_dev dst);
         ws_last := false |} = Some s /\
    ws_dev s = Some dev /\
    out_dev' = Some dev /\
    in_ifindex (route_tuple (dir_not dir) route') = dev_ifindex dev /\
    out_hw_ifindex (route_tuple dir route') = dev_ifindex dev.
Proof.
  intros Hdst E.
  destruct (check_path_cases ENCAP_MAX FIELD_BITS neigh fill route ct dir out_dev st
              dst route' out_dev' st' evs Hdst E)
    as (_ & [(_ & -> & -> & _)|(n & Hx & Hok & Hn & _ & Hr)]).
  - left. now destruct dir.
  - cbv zeta in Hr.
    assert (Hmac : forall r,
              out_h_dest (route_tuple dir
                            (upd_tuple dir (set_out_h_dest (memcpy_eth (neigh_ha n))) r))
              = memcpy_eth (neigh_ha n)).
    { intros r. now rewrite route_tuple_upd_same. }
    rewrite !Hmac in Hr.
    destruct Hr as [(-> & -> & _)|(s & dev & Hnud & Hrc & Hnp & Ew & Hd & -> & ->)].
    + left. now destruct dir.
    + right. exists n, s, dev. repeat split; try assumption; now destruct dir.
Qed.

End ResolverExtras.

(** A route through [eth1] whose neighbour is known and whose forwarding
    path is three VLAN devices. *)
Lemma check_path_releases_neighbour_witness :
  tt = tt /\
  [Ev_neigh_release] =
    (if xmit_type_eqb (xmit_type (route_tuple IP_CT_DIR_ORIGINAL sample_route))
          FLOW_OFFLOAD_XMIT_XFRM
        || negb (ether_device_ok (dst_dev dst_a))
     then []
     else match sample_neigh_lookup dst_a
                  (tuple_src_u3 (ct_tuple (dir_not IP_CT_DIR_ORIGINAL) sample_ct)) with
          | Some _ => [Ev_neigh_release]
          | None => []
          end) /\
  (forall d, rt_dst (route_tuple d resolved_route) = rt_dst (route_tuple d sample_route)).
Proof.
  apply (check_path_releases_neighbour sample_ENCAP_MAX sample_FIELD_BITS
           sample_neigh_lookup sample_fill sample_route sample_ct
           IP_CT_DIR_ORIGINAL None tt dst_a resolved_route (Some eth0) tt
           [Ev_neigh_release]); reflexivity.
Defined.

Lemma check_path_reports_device_witness :
  Some eth0 = None /\
  in_ifindex (route_tuple (dir_not IP_CT_DIR_ORIGINAL) resolved_route) =
    dev_ifindex (dst_dev dst_a) /\
  out_ifindex (route_tuple IP_CT_DIR_ORIGINAL resolved_route) =
    dev_ifindex (dst_dev dst_a) /\
  out_hw_ifindex (route_tuple IP_CT_DIR_ORIGINAL resolved_route) =
    out_hw_ifindex (route_tuple IP_CT_DIR_ORIGINAL sample_route)
  \/
  exists n s dev,
    xmit_type (route_tuple IP_CT_DIR_ORIGINAL sample_route) <> FLOW_OFFLOAD_XMIT_XFRM /\
    ether_device_ok (dst_dev dst_a) = true /\
    sample_neigh_lookup dst_a
      (tuple_src_u3 (ct_tuple (dir_not IP_CT_DIR_ORIGINAL) sample_ct)) = Some n /\
    Z.land (nud_state n) NUD_VALID <> 0 /\
    (sample_fill (dst_dev dst_a) (memcpy_eth (neigh_ha n))).1 = 0 /\
    num_paths (sample_fill (dst_dev dst_a) (memcpy_eth (neigh_ha n))).2 <> 0 /\
    path_walk_all sample_ENCAP_MAX sample_FIELD_BITS IP_CT_DIR_ORIGINAL
      (sample_fill (dst_dev dst_a) (memcpy_eth (neigh_ha n))).2
      {| ws_route :=
           upd_tuple IP_CT_DIR_ORIGINAL (set_out_h_dest (memcpy_eth (neigh_ha n)))
             (upd_tuple IP_CT_DIR_ORIGINAL
                (set_out_ifindex (dev_ifindex (dst_dev dst_a)))
                (upd_tuple (dir_not IP_CT_DIR_ORIGINAL)
                   (set_in_ifindex (dev_ifindex (dst_dev dst_a))) sample_route));
         ws_dev := Some (dst_dev dst_a);
         ws_last := false |} = Some s /\
    ws_dev s = Some dev /\
    Some eth0 = Some dev /\
    in_ifindex (route_tuple (dir_not IP_CT_DIR_ORIGINAL) resolved_route) =
      dev_ifindex dev /\
    out_hw_ifindex (route_tuple IP_CT_DIR_ORIGINAL resolved_route) = dev_ifindex dev.
Proof.
  apply (check_path_reports_device sample_ENCAP_MAX sample_FIELD_BITS
           sample_neigh_lookup sample_fill sample_route sample_ct
           IP_CT_DIR_ORIGINAL None tt dst_a resolved_route (Some eth0) tt
           [Ev_neigh_release]); reflexivity.
Defined.

(** The first VLAN device of a stack, met with an empty encapsulation
    stack. *)
Lemma encap_write_in_bounds_witness :
  in_encap (route_tuple IP_CT_DIR_ORIGINAL (ws_route stepped_state)) =
    in_encap (route_tuple IP_CT_DIR_ORIGINAL (ws_route sample_walk_start)) /\
  (in_encap (route_tuple (dir_not IP_CT_DIR_ORIGINAL) (ws_route stepped_state)) =
     in_encap (route_tuple (dir_not IP_CT_DIR_ORIGINAL) (ws_route sample_walk_start))
   \/
   (Z.to_nat (opposite_num_encaps IP_CT_DIR_ORIGINAL (ws_route sample_walk_start))
    < Z.to_nat sample_ENCAP_MAX)%nat /\
   in_encap (route_tuple (dir_not IP_CT_DIR_ORIGINAL) (ws_route stepped_state)) =
     <[Z.to_nat (opposite_num_encaps IP_CT_DIR_ORIGINAL (ws_route sample_walk_start))
       := seg_encap vlan_seg]>
       (in_encap (route_tuple (dir_not IP_CT_DIR_ORIGINAL)
                    (ws_route sample_walk_start)))).
Proof.
  assert (H : 0 <= opposite_num_encaps IP_CT_DIR_ORIGINAL (ws_route sample_walk_start))
    by (vm_compute; discriminate).
  exact (encap_write_in_bounds sample_ENCAP_MAX sample_FIELD_BITS
           IP_CT_DIR_ORIGINAL 4 0 vlan_seg sample_walk_start H).
Defined.

(** Two VLAN devices with the tags 100 and 200 on an Ethernet device. *)
Lemma walk_records_pushes_witness :
  exists s',
    path_walk_all sample_ENCAP_MAX sample_FIELD_BITS IP_CT_DIR_ORIGINAL
      double_vlan_stack sample_walk_start = Some s' /\
    ws_last s' = true /\
    ws_dev s' = path_dev ethernet_seg /\
    opposite_num_encaps IP_CT_DIR_ORIGINAL (ws_route s') =
      Z.of_nat (length [vlan_seg; vlan_seg_200]) /\
    take (length [vlan_seg; vlan_seg_200])
      (in_encap (route_tuple (dir_not IP_CT_DIR_ORIGINAL) (ws_route s'))) =
      map seg_encap [vlan_seg; vlan_seg_200].
Proof.
  apply (walk_records_pushes sample_ENCAP_MAX sample_FIELD_BITS IP_CT_DIR_ORIGINAL
           double_vlan_stack [vlan_seg; vlan_seg_200] ethernet_seg
           [ethernet_seg; ethernet_seg] sample_walk_start).
  - unfold sample_ENCAP_MAX, sample_FIELD_BITS. simpl. lia.
  - reflexivity.
  - reflexivity.
  - reflexivity.
  - reflexivity.
  - reflexivity.
  - unfold sample_ENCAP_MAX. simpl. lia.
  - simpl. lia.
  - left. reflexivity.
Defined.

(** The walk over three VLAN devices of [eth0]. *)
Lemma first_ether_device_wins_witness :
  xmit_type (route_tuple IP_CT_DIR_ORIGINAL (ws_route walked_state)) =
    FLOW_OFFLOAD_XMIT_DIRECT /\
  out_ifindex (route_tuple IP_CT_DIR_ORIGINAL (ws_route walked_state)) =
    dev_ifindex eth0 /\
  out_h_source (route_tuple IP_CT_DIR_ORIGINAL (ws_route walked_state)) =
    memcpy_eth (dev_addr eth0).
Proof.
  apply (first_ether_device_wins sample_ENCAP_MAX sample_FIELD_BITS
           IP_CT_DIR_ORIGINAL triple_vlan_stack 4 0 vlan_seg eth0
           sample_walk_start walked_state).
  - simpl. lia.
  - reflexivity.
  - reflexivity.
  - reflexivity.
  - simpl. discriminate.
  - reflexivity.
Defined.

(** ** Offload admission decision: success, repetition, and the hooks *)

(** X20.  For a connection whose offload bit is set, [flowoffload_tg]
    returns [XT_CONTINUE] and changes nothing, whatever the packet and the
    other subsystems are: no routing lookup is made, no flow entry
    allocated, no hook touched. *)
Theorem already_offloaded_passes (ENCAP_MAX FIELD_BITS : Z) (ext : externals)
    (par : xt_action_param) (w : world) :
  Z.testbit (ct_status (w_ct w)) IPS_OFFLOAD_BIT = true ->
  flowoffload_tg ENCAP_MAX FIELD_BITS ext par w = Some (XT_CONTINUE, w, []).
Proof.
  intros Hbit. unfold flowoffload_tg. unfold bind at 1, get at 1. cbv beta iota zeta.
  destruct (xt_flowoffload_skip (w_skb w) (par_family par)); [reflexivity|].
  destruct (skb_nfct (w_skb w)) as [ctinfo|]; [|reflexivity].
  destruct (protocol_gate (w_skb w) (w_ct w) par) as [tcph|]; [|reflexivity].
  destruct (ct_ext_helper (w_ct w) || _); [reflexivity|].
  destruct (negb (nf_ct_is_confirmed (w_ct w))); [reflexivity|].
  set (devs := devs_set (dir_not (CTINFO2DIR ctinfo)) (par_in par)
                 (devs_set (CTINFO2DIR ctinfo) (par_out par) (None, None))).
  destruct (devs_get (CTINFO2DIR ctinfo) devs); [|reflexivity].
  destruct (devs_get (dir_not (CTINFO2DIR ctinfo)) devs); [|reflexivity].
  unfold bind at 1.
  change (on_ct (test_and_set_bit IPS_OFFLOAD_BIT) w)
    with (Some (Z.testbit (ct_status (w_ct w)) IPS_OFFLOAD_BIT,
                set_w_ct (set_ct_status (Z.setbit (ct_status (w_ct w)) IPS_OFFLOAD_BIT)
                            (w_ct w)) w,
                @nil event)).
  cbv beta iota. rewrite Hbit. unfold ret. cbv beta iota.
  rewrite setbit_already by (assumption || discriminate).
  destruct w as [skb ct ts]. now destruct ct.
Qed.

(** A second run on the world a successful run has left. *)
Lemma already_offloaded_passes_witness :
  flowoffload_tg sample_ENCAP_MAX sample_FIELD_BITS no_forward_path sample_par
    offloaded_world = Some (XT_CONTINUE, offloaded_world, []).
Proof.
  apply (already_offloaded_passes sample_ENCAP_MAX sample_FIELD_BITS no_forward_path
           sample_par offloaded_world).
  reflexivity.
Defined.

Lemma get_set_table_same (i : bool) (t : xt_flowoffload_table) (ts : flowtables) :
  get_table i (set_table i t ts) = t.
Proof. now destruct i. Qed.

Lemma get_set_table_other (i : bool) (t : xt_flowoffload_table) (ts : flowtables) :
  get_table (negb i) (set_table i t ts) = get_table (negb i) ts.
Proof. now destruct i. Qed.

Lemma set_set_table (i : bool) (t t' : xt_flowoffload_table) (ts : flowtables) :
  set_table i t' (set_table i t ts) = set_table i t' ts.
Proof. now destruct i. Qed.

(** [flowoffload_tg] from the point where it has set the offload bit: what
    it does to the hook collections on every path, and what a run that
    inserts a flow entry leaves behind.  It returns exactly when
    [xt_flowoffload_route] does. *)
Lemma tg_offload_effects (ENCAP_MAX FIELD_BITS : Z) (ext : externals)
    (par : xt_action_param) (ctinfo : Z) (tcph : option tcphdr) (devs : devs_t)
    (w : world) :
  let table := negb (Z.land (par_targinfo_flags par) XT_FLOWOFFLOAD_HW =? 0) in
  flowoffload_tg_offload ENCAP_MAX FIELD_BITS ext par ctinfo tcph devs w = None \/
  exists w' evs,
    flowoffload_tg_offload ENCAP_MAX FIELD_BITS ext par ctinfo tcph devs w
      = Some (XT_CONTINUE, w', evs) /\
    (forall i,
       one_hook_per_device (tbl_hooks (get_table i (w_flowtable w))) ->
       one_hook_per_device (tbl_hooks (get_table i (w_flowtable w')))) /\
    (forall i dev,
       (length (hooks_for dev (tbl_hooks (get_table i (w_flowtable w)))) <=
        length (hooks_for dev (tbl_hooks (get_table i (w_flowtable w')))))%nat) /\
    (inserted evs = true ->
       ct_status (w_ct w') = ct_status (w_ct w) /\
       get_table (negb table) (w_flowtable w') =
         get_table (negb table) (w_flowtable w) /\
       (exists flow,
          ft_flows (tbl_ft (get_table table (w_flowtable w'))) =
            flow :: ft_flows (tbl_ft (get_table table (w_flowtable w))) /\
          In (Ev_flow_offload_add table flow) evs) /\
       ft_flags (tbl_ft (get_table table (w_flowtable w'))) =
         ft_flags (tbl_ft (get_table table (w_flowtable w))) /\
       ft_net (tbl_ft (get_table table (w_flowtable w'))) =
         Some (match ft_net (tbl_ft (get_table table (w_flowtable w))) with
               | Some n => n
               | None => par_net par
               end) /\
       match tcph with
       | Some _ =>
           ct_tcp_seen0_flags (w_ct w') =
             Z.lor (ct_tcp_seen0_flags (w_ct w)) IP_CT_TCP_FLAG_BE_LIBERAL /\
           ct_tcp_seen1_flags (w_ct w') =
             Z.lor (ct_tcp_seen1_flags (w_ct w)) IP_CT_TCP_FLAG_BE_LIBERAL
       | None =>
           ct_tcp_seen0_flags (w_ct w') = ct_tcp_seen0_flags (w_ct w) /\
           ct_tcp_seen1_flags (w_ct w') = ct_tcp_seen1_flags (w_ct w)
       end /\
       exists rc route devs' evs0,
         xt_flowoffload_route ENCAP_MAX FIELD_BITS ext (w_ct w) par
           (route_zero ENCAP_MAX) (CTINFO2DIR ctinfo) devs w
           = Some ((rc, route, devs'), w, evs0) /\
         (forall d, devs_get IP_CT_DIR_ORIGINAL devs' = Some d ->
                    kzalloc_hook0 ext = true ->
                    hooks_for d (tbl_hooks (get_table table (w_flowtable w'))) <> []) /\
         (forall d, devs_get IP_CT_DIR_REPLY devs' = Some d ->
                    kzalloc_hook1 ext = true ->
                    hooks_for d (tbl_hooks (get_table table (w_flowtable w'))) <> [])).
Proof.
  intros table.
  destruct (xt_flowoffload_route ENCAP_MAX FIELD_BITS ext (w_ct w) par
              (route_zero ENCAP_MAX) (CTINFO2DIR ctinfo) devs w)
    as [[[[[rc route] devs'] w0] evs0]|] eqn:E.
  2:{ left. unfold flowoffload_tg_offload. unfold bind at 1, get at 1.
      unfold bind at 1. now rewrite E. }
  right. unfold flowoffload_tg_offload. unfold bind at 1, get at 1.
  destruct (route_run _ _ _ _ _ _ _ _ _ _ _ _ _ _ _ E)
    as (-> & [(Hrc & (fl & Hfl) & Hev)|(Hrc & d1 & d2 & rest & Hd1 & Hd2 & Hevs0 & Hrest)]);
    unfold bind at 1; rewrite E; cbv beta iota; rewrite Hrc.
  - (* err_flow_route *)
    rewrite err_flow_route_run.
    eexists _, _. split; [reflexivity|]. split; [now intros i|].
    split; [intros i dev; simpl; lia|].
    intros Hins. exfalso. now destruct Hev as [->|[d1 ->]].
  - subst evs0. destruct (flow_offload_alloc ext (w_ct w)) as [flow|].
    2:{ (* err_flow_alloc *)
        rewrite (err_flow_alloc_run _ _ _ _ _ Hd1 Hd2).
        eexists _, _. split; [reflexivity|]. split; [now intros i|].
        split; [intros i dev; simpl; lia|].
        intros Hins. exfalso. revert Hins. count_events. discriminate. }
    unfold bind at 1, emit at 1.
    destruct (flow_offload_route_init ext flow route) as [rc1 flow1].
    destruct (rc1 <? 0).
    { (* err_flow_add after flow_offload_route_init *)
      rewrite (err_flow_add_run _ _ _ _ _ _ Hd1 Hd2).
      eexists _, _. split; [reflexivity|]. split; [now intros i|].
      split; [intros i dev; simpl; lia|].
      intros Hins. exfalso. revert Hins. count_events. discriminate. }
    fold table.
    set (liberal := match tcph with Some _ => _ | None => _ end).
    assert (Hlib : exists ct1,
              liberal w = Some (tt, set_w_ct ct1 w, []) /\
              ct_status ct1 = ct_status (w_ct w) /\
              match tcph with
              | Some _ =>
                  ct_tcp_seen0_flags ct1 =
                    Z.lor (ct_tcp_seen0_flags (w_ct w)) IP_CT_TCP_FLAG_BE_LIBERAL /\
                  ct_tcp_seen1_flags ct1 =
                    Z.lor (ct_tcp_seen1_flags (w_ct w)) IP_CT_TCP_FLAG_BE_LIBERAL
              | None =>
                  ct_tcp_seen0_flags ct1 = ct_tcp_seen0_flags (w_ct w) /\
                  ct_tcp_seen1_flags ct1 = ct_tcp_seen1_flags (w_ct w)
              end).
    { subst liberal. destruct tcph.
      - eexists. split; [reflexivity|]. now split.
      - exists (w_ct w). split; [now destruct w|]. now split. }
    destruct Hlib as (ct1 & Elib & Hct1 & Hseen).
    unfold bind at 1. rewrite Elib. cbv beta iota.
    unfold bind at 1. rewrite on_world_table_run.
    unfold do_flow_offload_add at 1. unfold bind at 1, get at 1. cbv beta iota zeta.
    set (w1 := set_w_ct ct1 w).
    set (t1 := get_table table (w_flowtable w1)).
    destruct (flow_offload_add ext (tbl_ft t1) flow1 <? 0) eqn:Eadd.
    { (* err_flow_add after flow_offload_add *)
      unfold ret at 1. cbv beta iota. rewrite Eadd.
      rewrite (err_flow_add_run _ _ _ _ _ _ Hd1 Hd2).
      eexists _, _. split; [reflexivity|].
      assert (Hts : set_table table t1 (w_flowtable w1) = w_flowtable w).
      { subst w1 t1. destruct w as [skb ct [ta tb]]. now destruct table. }
      cbn [w_flowtable set_w_ct set_w_flowtable]. rewrite Hts.
      split; [now intros i|]. split; [intros i dev; lia|].
      intros Hins. exfalso. revert Hins. count_events. discriminate. }
    (* the flow entry is in the table *)
    unfold bind at 1, emit at 1. unfold bind at 1, modify at 1. unfold ret at 1.
    cbv beta iota. rewrite Eadd.
    set (tA := set_ft (set_ft_flows (flow1 :: ft_flows (tbl_ft t1)) (tbl_ft t1)) t1).
    unfold bind at 1. rewrite on_world_table_run.
    cbn [w_flowtable set_w_flowtable]. rewrite get_set_table_same.
    destruct (check_device_hooks (kzalloc_hook0 ext) table
                (devs_get IP_CT_DIR_ORIGINAL devs') tA)
      as (t2 & ev2 & E2 & Hft2 & Hq2 & _ & Hle2 & _ & Hone2 & Hk2 & _).
    rewrite E2. cbv beta iota.
    unfold bind at 1. rewrite on_world_table_run.
    cbn [w_flowtable set_w_flowtable]. rewrite get_set_table_same, set_set_table.
    destruct (check_device_hooks (kzalloc_hook1 ext) table
                (devs_get IP_CT_DIR_REPLY devs') t2)
      as (t3 & ev3 & E3 & Hft3 & Hq3 & _ & Hle3 & _ & Hone3 & Hk3 & _).
    rewrite E3. cbv beta iota.
    unfold bind at 1. rewrite on_world_table_run.
    cbn [w_flowtable set_w_flowtable]. rewrite get_set_table_same, set_set_table.
    unfold modify at 1. cbv beta iota.
    unfold dst_release. rewrite Hd1, Hd2.
    unfold bind, emit, ret. cbv beta iota.
    cbn [w_flowtable set_w_flowtable]. rewrite set_set_table.
    set (t4 := match ft_net (tbl_ft t3) with
               | Some _ => t3
               | None => set_ft (set_ft_net (Some (par_net par)) (tbl_ft t3)) t3
               end).
    assert (Hh4 : tbl_hooks t4 = tbl_hooks t3).
    { subst t4. now destruct (ft_net (tbl_ft t3)). }
    assert (Hw1 : w_flowtable w1 = w_flowtable w) by reflexivity.
    assert (HhA : tbl_hooks tA = tbl_hooks (get_table table (w_flowtable w)))
      by reflexivity.
    eexists _, _. split; [reflexivity|].
    cbn [w_flowtable w_ct set_w_flowtable set_w_ct].
    split; [|split].
    + intros i Hone. destruct (Bool.eqb_spec i table) as [->|Hne].
      * rewrite get_set_table_same, Hh4. apply Hone3, Hone2.
        now rewrite HhA.
      * replace i with (negb table) in * by (now destruct i, table).
        now rewrite get_set_table_other.
    + intros i dev. destruct (Bool.eqb_spec i table) as [->|Hne].
      * rewrite get_set_table_same, Hh4.
        specialize (Hle2 dev). specialize (Hle3 dev). rewrite HhA in Hle2. lia.
      * replace i with (negb table) in * by (now destruct i, table).
        rewrite get_set_table_other. fold w1. rewrite Hw1. lia.
    + intros _. rewrite get_set_table_same, get_set_table_other.
      split; [exact Hct1|]. split; [reflexivity|].
      assert (Hft4 : ft_flows (tbl_ft t4) = flow1 :: ft_flows (tbl_ft t1) /\
                     ft_flags (tbl_ft t4) = ft_flags (tbl_ft t1) /\
                     ft_net (tbl_ft t4) =
                       Some (match ft_net (tbl_ft t1) with
                             | Some n => n
                             | None => par_net par
                             end)).
      { assert (HftA : tbl_ft t3 = tbl_ft tA) by congruence.
        subst t4. destruct (ft_net (tbl_ft t3)) as [n|] eqn:En;
          cbn [tbl_ft set_ft set_ft_net ft_flows ft_flags ft_net];
          rewrite HftA in *; subst tA; cbn in En |- *; now rewrite ?En. }
      destruct Hft4 as (Hfl4 & Hfg4 & Hnet4).
      split; [|split; [exact Hfg4|split; [exact Hnet4|split; [exact Hseen|]]]].
      * exists flow1. split; [exact Hfl4|].
        rewrite !in_app_iff. simpl. tauto.
      * exists rc, route, devs', (Ev_nf_route d1 :: Ev_nf_route d2 :: rest).
        split; [reflexivity|]. split.
        -- intros d Hdev Hkz. rewrite Hh4.
           specialize (Hk2 d Hdev Hkz). specialize (Hle3 d).
           destruct (hooks_for d (tbl_hooks t2)); [congruence|].
           destruct (hooks_for d (tbl_hooks t3)); [simpl in Hle3; lia|discriminate].
        -- intros d Hdev Hkz. rewrite Hh4. exact (Hk3 d Hdev Hkz).
Qed.

(** Where the forwarding-path query answers with an error, the resolver
    hands back the device it was given and leaves the destination handles
    alone. *)
Lemma check_path_no_stack (ENCAP_MAX FIELD_BITS : Z)
    (neigh : dst_entry -> nf_inet_addr -> option neighbour)
    (fill : net_device -> list Z -> Z * net_device_path_stack)
    {S : Type} (route : nf_flow_route)
    (ct : nf_conn) (dir : ip_conntrack_dir) (out_dev : option net_device) (st : S)
    (dst : dst_entry) (route' : nf_flow_route) (out_dev' : option net_device)
    (st' : S) (evs : list event) :
  (forall dev mac, (fill dev mac).1 <> 0) ->
  rt_dst (route_tuple dir route) = Some dst ->
  xt_flowoffload_route_check_path ENCAP_MAX FIELD_BITS neigh fill route ct dir
    out_dev st = Some ((route', out_dev'), st', evs) ->
  out_dev' = out_dev /\ st' = st /\
  (forall d, rt_dst (route_tuple d route') = rt_dst (route_tuple d route)).
Proof.
  intros Hfill Hdst E.
  destruct (check_path_cases ENCAP_MAX FIELD_BITS neigh fill route ct dir out_dev
              st dst route' out_dev' st' evs Hdst E)
    as (Hst & [(_ & -> & -> & _)|(n & _ & _ & _ & _ & Hr)]).
  - repeat split; [assumption|]. intros d. now rewrite !rt_dst_upd.
  - cbv zeta in Hr. destruct Hr as [(-> & -> & _)|(s & dev & _ & Hrc & _)].
    + repeat split; [assumption|]. intros d. now rewrite !rt_dst_upd.
    + now apply Hfill in Hrc.
Qed.

Lemma devs_set_get (dir : ip_conntrack_dir) (devs : devs_t) :
  devs_set dir (devs_get dir devs) devs = devs.
Proof. now destruct dir, devs. Qed.

Lemma route_no_stack (ENCAP_MAX FIELD_BITS : Z) (ext : externals) (ct : nf_conn)
    (par : xt_action_param) (route : nf_flow_route) (dir : ip_conntrack_dir)
    (devs : devs_t) (S : Type) (st st' : S)
    (rc : Z) (route' : nf_flow_route) (devs' : devs_t) (evs : list event) :
  (forall dev mac, (ext_dev_fill_forward_path ext dev mac).1 <> 0) ->
  xt_flowoffload_route ENCAP_MAX FIELD_BITS ext ct par route dir devs st
    = Some ((rc, route', devs'), st', evs) ->
  devs' = devs.
Proof.
  intros Hfill. unfold xt_flowoffload_route.
  destruct (devs_get dir devs) as [d|]; [|discriminate].
  destruct (route_dir_spec ext route ct dir par (dev_ifindex d) S st)
    as (rc1 & r1 & ev1 & E1 & [(-> & -> & -> & Hf)|(dst1 & -> & H1a & H1b & ->)]);
    unfold bind at 1; rewrite E1; simpl.
  { now intros [= _ _ <- _ _]. }
  destruct (devs_get (dir_not dir) devs) as [d'|] eqn:Ed'; [|discriminate].
  destruct (route_dir_spec ext r1 ct (dir_not dir) par (dev_ifindex d') S st)
    as (rc2 & r2 & ev2 & E2 & [(-> & -> & -> & Hf)|(dst2 & -> & H2a & H2b & ->)]);
    unfold bind at 1; rewrite E2; simpl.
  { now intros [= _ _ <- _ _]. }
  assert (H2c : rt_dst (route_tuple dir r2) = Some dst1).
  { destruct dir; simpl in *; congruence. }
  unfold bind at 1.
  destruct (xt_flowoffload_route_check_path _ _ _ _ r2 ct dir _ st)
    as [[[[r3 od3] st3] ev3]|] eqn:E3; [|discriminate].
  destruct (check_path_no_stack _ _ _ _ _ _ _ _ _ _ _ _ _ _ Hfill H2c E3)
    as (-> & -> & H3).
  unfold bind at 1.
  destruct (xt_flowoffload_route_check_path _ _ _ _ r3 ct (dir_not dir) _ st)
    as [[[[r4 od4] st4] ev4]|] eqn:E4; [|discriminate].
  assert (H3a : rt_dst (route_tuple (dir_not dir) r3) = Some dst2)
    by (now rewrite H3).
  destruct (check_path_no_stack _ _ _ _ _ _ _ _ _ _ _ _ _ _ Hfill H3a E4)
    as (-> & -> & H4).
  simpl. intros [= _ _ <- _ _].
  rewrite <- Ed'. now rewrite !devs_set_get.
Qed.

(** The devices [flowoffload_tg] starts from: [devs[dir] = xt_out(par)],
    [devs[!dir] = xt_in(par)]. *)
Lemma tg_devs (dir : ip_conntrack_dir) (par : xt_action_param) (din dout : net_device) :
  let devs := devs_set (dir_not dir) (par_in par) (devs_set dir (par_out par) (None, None)) in
  devs_get dir devs = Some dout ->
  devs_get (dir_not dir) devs = Some din ->
  par_out par = Some dout /\ par_in par = Some din /\
  (devs = (Some dout, Some din) \/ devs = (Some din, Some dout)).
Proof. destruct dir; simpl; intros -> ->; repeat split; auto. Qed.

(** [flowoffload_tg] as a whole: the hook collections on every path, and
    what a run that inserts a flow entry leaves behind. *)
Lemma tg_effects (ENCAP_MAX FIELD_BITS : Z) (ext : externals)
    (par : xt_action_param) (w : world) :
  let table := negb (Z.land (par_targinfo_flags par) XT_FLOWOFFLOAD_HW =? 0) in
  flowoffload_tg ENCAP_MAX FIELD_BITS ext par w = None \/
  exists w' evs,
    flowoffload_tg ENCAP_MAX FIELD_BITS ext par w = Some (XT_CONTINUE, w', evs) /\
    (forall i,
       one_hook_per_device (tbl_hooks (get_table i (w_flowtable w))) ->
       one_hook_per_device (tbl_hooks (get_table i (w_flowtable w')))) /\
    (forall i dev,
       (length (hooks_for dev (tbl_hooks (get_table i (w_flowtable w)))) <=
        length (hooks_for dev (tbl_hooks (get_table i (w_flowtable w')))))%nat) /\
    (inserted evs = true ->
       Z.testbit (ct_status (w_ct w)) IPS_OFFLOAD_BIT = false /\
       ct_status (w_ct w') = Z.setbit (ct_status (w_ct w)) IPS_OFFLOAD_BIT /\
       get_table (negb table) (w_flowtable w') =
         get_table (negb table) (w_flowtable w) /\
       (exists flow,
          ft_flows (tbl_ft (get_table table (w_flowtable w'))) =
            flow :: ft_flows (tbl_ft (get_table table (w_flowtable w))) /\
          In (Ev_flow_offload_add table flow) evs) /\
       ft_flags (tbl_ft (get_table table (w_flowtable w'))) =
         ft_flags (tbl_ft (get_table table (w_flowtable w))) /\
       ft_net (tbl_ft (get_table table (w_flowtable w'))) =
         Some (match ft_net (tbl_ft (get_table table (w_flowtable w))) with
               | Some n => n
               | None => par_net par
               end) /\
       (if tuple_dst_protonum (ct_tuple_original (w_ct w)) =? IPPROTO_TCP
        then
          ct_tcp_seen0_flags (w_ct w') =
            Z.lor (ct_tcp_seen0_flags (w_ct w)) IP_CT_TCP_FLAG_BE_LIBERAL /\
          ct_tcp_seen1_flags (w_ct w') =
            Z.lor (ct_tcp_seen1_flags (w_ct w)) IP_CT_TCP_FLAG_BE_LIBERAL
        else
          ct_tcp_seen0_flags (w_ct w') = ct_tcp_seen0_flags (w_ct w) /\
          ct_tcp_seen1_flags (w_ct w') = ct_tcp_seen1_flags (w_ct w)) /\
       ((forall dev mac, (ext_dev_fill_forward_path ext dev mac).1 <> 0) ->
        exists din dout,
          par_in par = Some din /\ par_out par = Some dout /\
          (kzalloc_hook0 ext = true -> kzalloc_hook1 ext = true ->
           hooks_for din (tbl_hooks (get_table table (w_flowtable w'))) <> [] /\
           hooks_for dout (tbl_hooks (get_table table (w_flowtable w'))) <> []))).
Proof.
  intros table.
  destruct (tg_unfold ENCAP_MAX FIELD_BITS ext par w)
    as [E|(ctinfo & tcph & din & dout & Egate & Ebit & Eout & Ein & E)].
  - right. exists w, []. split; [exact E|]. split; [now intros|].
    split; [intros; lia|discriminate].
  - cbv zeta in Eout, Ein. rewrite E. set (w1 := set_w_ct _ w).
    set (devs := devs_set (dir_not (CTINFO2DIR ctinfo)) (par_in par)
                   (devs_set (CTINFO2DIR ctinfo) (par_out par) (None, None))) in *.
    destruct (tg_offload_effects ENCAP_MAX FIELD_BITS ext par ctinfo tcph devs w1)
      as [F|(w' & evs & E' & Hone & Hle & Hins)]; [now left|].
    right. exists w', evs. split; [exact E'|].
    split; [exact Hone|]. split; [exact Hle|].
    intros Hi. destruct (Hins Hi) as (Hst & Hoth & Hflow & Hflags & Hnet & Hseen & Hhooks).
    split; [exact Ebit|]. split; [exact Hst|]. split; [exact Hoth|].
    split; [exact Hflow|]. split; [exact Hflags|]. split; [exact Hnet|].
    split.
    + unfold protocol_gate in Egate. simpl in Egate.
      destruct (tuple_dst_protonum (ct_tuple_original (w_ct w)) =? IPPROTO_TCP).
      * destruct (ct_tcp_state (w_ct w) =? TCP_CONNTRACK_ESTABLISHED);
          simpl in Egate; [|discriminate].
        destruct (skb_tcph (w_skb w) (par_thoff par)) as [h|]; [|discriminate].
        destruct (tcp_fin h || tcp_rst h); [discriminate|].
        injection Egate as <-. exact Hseen.
      * destruct (_ =? IPPROTO_UDP); [|discriminate].
        injection Egate as <-. exact Hseen.
    + intros Hfill.
      destruct Hhooks as (rc & route & devs' & evs0 & Er & Hh0 & Hh1).
      apply (route_no_stack _ _ _ _ _ _ _ _ _ _ _ _ _ _ _ Hfill) in Er. subst devs'.
      destruct (tg_devs (CTINFO2DIR ctinfo) par din dout Eout Ein)
        as (Hpo & Hpi & Hdevs).
      exists din, dout. split; [exact Hpi|]. split; [exact Hpo|].
      intros Hk0 Hk1. fold devs in Hdevs.
      destruct Hdevs as [Hdevs|Hdevs]; rewrite Hdevs in Hh0, Hh1; simpl in Hh0, Hh1.
      * split; [now apply Hh1|now apply Hh0].
      * split; [now apply Hh0|now apply Hh1].
Qed.

(** X21.  A run of [flowoffload_tg] that inserts a flow entry started
    with the offload bit clear and leaves it set, the other status bits as
    they were.  The entry is in the flow store of the table the
    [XT_FLOWOFFLOAD_HW] flag selects (the second table when it is set, the
    first otherwise) and the other table is as before; the flags of the
    table are unchanged and it is bound to a network namespace, the one it
    was bound to or else the one of the packet.  For a TCP connection both
    directions are marked [IP_CT_TCP_FLAG_BE_LIBERAL]; for any other the
    TCP flags are as before. *)
Theorem offload_success_effects (ENCAP_MAX FIELD_BITS : Z) (ext : externals)
    (par : xt_action_param) (w w' : world) (verdict : Z) (evs : list event) :
  flowoffload_tg ENCAP_MAX FIELD_BITS ext par w = Some (verdict, w', evs) ->
  inserted evs = true ->
  let table := negb (Z.land (par_targinfo_flags par) XT_FLOWOFFLOAD_HW =? 0) in
  Z.testbit (ct_status (w_ct w)) IPS_OFFLOAD_BIT = false /\
  ct_status (w_ct w') = Z.setbit (ct_status (w_ct w)) IPS_OFFLOAD_BIT /\
  get_table (negb table) (w_flowtable w') = get_table (negb table) (w_flowtable w) /\
  (exists flow,
     ft_flows (tbl_ft (get_table table (w_flowtable w'))) =
       flow :: ft_flows (tbl_ft (get_table table (w_flowtable w))) /\
     In (Ev_flow_offload_add table flow) evs) /\
  ft_flags (tbl_ft (get_table table (w_flowtable w'))) =
    ft_flags (tbl_ft (get_table table (w_flowtable w))) /\
  ft_net (tbl_ft (get_table table (w_flowtable w'))) =
    Some (match ft_net (tbl_ft (get_table table (w_flowtable w))) with
          | Some n => n
          | None => par_net par
          end) /\
  (if tuple_dst_protonum (ct_tuple_original (w_ct w)) =? IPPROTO_TCP
   then
     ct_tcp_seen0_flags (w_ct w') =
       Z.lor (ct_tcp_seen0_flags (w_ct w)) IP_CT_TCP_FLAG_BE_LIBERAL /\
     ct_tcp_seen1_flags (w_ct w') =
       Z.lor (ct_tcp_seen1_flags (w_ct w)) IP_CT_TCP_FLAG_BE_LIBERAL
   else
     ct_tcp_seen0_flags (w_ct w') = ct_tcp_seen0_flags (w_ct w) /\
     ct_tcp_seen1_flags (w_ct w') = ct_tcp_seen1_flags (w_ct w)).
Proof.
  intros E Hins table.
  destruct (tg_effects ENCAP_MAX FIELD_BITS ext par w)
    as [F|(w1 & evs1 & E1 & _ & _ & H)]; [congruence|].
  rewrite E in E1. injection E1 as -> -> ->.
  destruct (H Hins) as (H1 & H2 & H3 & H4 & H5 & H6 & H7 & _).
  now repeat split.
Qed.

(** An established TCP connection between [eth0] and [eth1], offloaded to
    the first table. *)
Lemma offload_success_effects_witness :
  Z.testbit (ct_status (w_ct sample_world)) IPS_OFFLOAD_BIT = false /\
  ct_status (w_ct offloaded_world) =
    Z.setbit (ct_status (w_ct sample_world)) IPS_OFFLOAD_BIT /\
  get_table (negb false) (w_flowtable offloaded_world) =
    get_table (negb false) (w_flowtable sample_world) /\
  (exists flow,
     ft_flows (tbl_ft (get_table false (w_flowtable offloaded_world))) =
       flow :: ft_flows (tbl_ft (get_table false (w_flowtable sample_world))) /\
     In (Ev_flow_offload_add false flow) offloaded_events) /\
  ft_flags (tbl_ft (get_table false (w_flowtable offloaded_world))) =
    ft_flags (tbl_ft (get_table false (w_flowtable sample_world))) /\
  ft_net (tbl_ft (get_table false (w_flowtable offloaded_world))) =
    Some (match ft_net (tbl_ft (get_table false (w_flowtable sample_world))) with
          | Some n => n
          | None => par_net sample_par
          end) /\
  (if tuple_dst_protonum (ct_tuple_original (w_ct sample_world)) =? IPPROTO_TCP
   then
     ct_tcp_seen0_flags (w_ct offloaded_world) =
       Z.lor (ct_tcp_seen0_flags (w_ct sample_world)) IP_CT_TCP_FLAG_BE_LIBERAL /\
     ct_tcp_seen1_flags (w_ct offloaded_world) =
       Z.lor (ct_tcp_seen1_flags (w_ct sample_world)) IP_CT_TCP_FLAG_BE_LIBERAL
   else
     ct_tcp_seen0_flags (w_ct offloaded_world) =
       ct_tcp_seen0_flags (w_ct sample_world) /\
     ct_tcp_seen1_flags (w_ct offloaded_world) =
       ct_tcp_seen1_flags (w_ct sample_world)).
Proof.
  apply (offload_success_effects sample_ENCAP_MAX sample_FIELD_BITS no_forward_path
           sample_par sample_world offloaded_world XT_CONTINUE offloaded_events).
  - reflexivity.
  - reflexivity.
Defined.

(** X22.  When the forwarding-path query answers every call with an error
    and the hook allocations succeed, a run of [flowoffload_tg] that inserts
    a flow entry leaves a hook for the input device and a hook for the output
    device of the packet in the table the flow entry went to; the hook
    collection of the other table is as before. *)
Theorem offload_hooks_packet_devices (ENCAP_MAX FIELD_BITS : Z) (ext : externals)
    (par : xt_action_param) (w w' : world) (verdict : Z) (evs : list event) :
  (forall dev mac, (ext_dev_fill_forward_path ext dev mac).1 <> 0) ->
  kzalloc_hook0 ext = true ->
  kzalloc_hook1 ext = true ->
  flowoffload_tg ENCAP_MAX FIELD_BITS ext par w = Some (verdict, w', evs) ->
  inserted evs = true ->
  let table := negb (Z.land (par_targinfo_flags par) XT_FLOWOFFLOAD_HW =? 0) in
  exists din dout,
    par_in par = Some din /\ par_out par = Some dout /\
    hooks_for din (tbl_hooks (get_table table (w_flowtable w'))) <> [] /\
    hooks_for dout (tbl_hooks (get_table table (w_flowtable w'))) <> [] /\
    tbl_hooks (get_table (negb table) (w_flowtable w')) =
      tbl_hooks (get_table (negb table) (w_flowtable w)).
Proof.
  intros Hfill Hk0 Hk1 E Hins table.
  destruct (tg_effects ENCAP_MAX FIELD_BITS ext par w)
    as [F|(w1 & evs1 & E1 & _ & _ & H)]; [congruence|].
  rewrite E in E1. injection E1 as -> -> ->.
  destruct (H Hins) as (_ & _ & Hoth & _ & _ & _ & _ & Hh).
  destruct (Hh Hfill) as (din & dout & Hi & Ho & Hhooks).
  destruct (Hhooks Hk0 Hk1) as [Hdin Hdout].
  exists din, dout. repeat split; try assumption.
  fold table in Hoth. now rewrite Hoth.
Qed.

Lemma offload_hooks_packet_devices_witness :
  exists din dout,
    par_in sample_par = Some din /\ par_out sample_par = Some dout /\
    hooks_for din (tbl_hooks (get_table false (w_flowtable offloaded_world))) <> [] /\
    hooks_for dout (tbl_hooks (get_table false (w_flowtable offloaded_world))) <> [] /\
    tbl_hooks (get_table (negb false) (w_flowtable offloaded_world)) =
      tbl_hooks (get_table (negb false) (w_flowtable sample_world)).
Proof.
  apply (offload_hooks_packet_devices sample_ENCAP_MAX sample_FIELD_BITS
           no_forward_path sample_par sample_world offloaded_world XT_CONTINUE
           offloaded_events).
  - intros dev mac. simpl. discriminate.
  - reflexivity.
  - reflexivity.
  - reflexivity.
  - reflexivity.
Defined.

(** X23.  On every path, [flowoffload_tg] removes no hook: whenever it
    returns, in either table every device has at least as many hooks as
    before the call, and a collection with one hook per device at most is
    still one.  It does return when every answer of the forwarding-path
    query is an error, an empty stack, or a stack the walk of the path
    resolver stays within defined behaviour on. *)
Theorem tg_never_removes_hooks (ENCAP_MAX FIELD_BITS : Z) (ext : externals)
    (par : xt_action_param) (w : world) :
  (forall verdict w' evs,
     flowoffload_tg ENCAP_MAX FIELD_BITS ext par w = Some (verdict, w', evs) ->
     (forall i,
        one_hook_per_device (tbl_hooks (get_table i (w_flowtable w))) ->
        one_hook_per_device (tbl_hooks (get_table i (w_flowtable w')))) /\
     (forall i dev,
        (length (hooks_for dev (tbl_hooks (get_table i (w_flowtable w)))) <=
         length (hooks_for dev (tbl_hooks (get_table i (w_flowtable w')))))%nat)) /\
  ((forall dev mac,
      answer_walkable ENCAP_MAX FIELD_BITS (ext_dev_fill_forward_path ext dev mac)
        = true) ->
   exists w' evs,
     flowoffload_tg ENCAP_MAX FIELD_BITS ext par w = Some (XT_CONTINUE, w', evs) /\
     (forall i,
        one_hook_per_device (tbl_hooks (get_table i (w_flowtable w))) ->
        one_hook_per_device (tbl_hooks (get_table i (w_flowtable w')))) /\
     (forall i dev,
        (length (hooks_for dev (tbl_hooks (get_table i (w_flowtable w)))) <=
         length (hooks_for dev (tbl_hooks (get_table i (w_flowtable w')))))%nat)).
Proof.
  assert (Hrun : forall verdict w' evs,
            flowoffload_tg ENCAP_MAX FIELD_BITS ext par w = Some (verdict, w', evs) ->
            verdict = XT_CONTINUE /\
            (forall i,
               one_hook_per_device (tbl_hooks (get_table i (w_flowtable w))) ->
               one_hook_per_device (tbl_hooks (get_table i (w_flowtable w')))) /\
            (forall i dev,
               (length (hooks_for dev (tbl_hooks (get_table i (w_flowtable w)))) <=
                length (hooks_for dev (tbl_hooks (get_table i (w_flowtable w')))))%nat)).
  { intros verdict w' evs E.
    destruct (tg_effects ENCAP_MAX FIELD_BITS ext par w)
      as [F|(w1 & evs1 & E1 & Hone & Hle & _)]; [congruence|].
    rewrite E in E1. injection E1 as -> -> ->. now split. }
  split.
  - intros verdict w' evs E. now destruct (Hrun verdict w' evs E) as (_ & H).
  - intros Hstack.
    destruct (tg_defined ENCAP_MAX FIELD_BITS ext par w Hstack) as [[[v w'] evs] E].
    destruct (Hrun v w' evs E) as (-> & H). now exists w', evs.
Qed.

(** An established TCP connection, every forwarding path being three VLAN
    devices on an Ethernet device. *)
Lemma tg_never_removes_hooks_witness :
  exists w' evs,
    flowoffload_tg sample_ENCAP_MAX sample_FIELD_BITS all_good sample_par sample_world
      = Some (XT_CONTINUE, w', evs) /\
    (forall i,
       one_hook_per_device (tbl_hooks (get_table i (w_flowtable sample_world))) ->
       one_hook_per_device (tbl_hooks (get_table i (w_flowtable w')))) /\
    (forall i dev,
       (length (hooks_for dev (tbl_hooks (get_table i (w_flowtable sample_world)))) <=
        length (hooks_for dev (tbl_hooks (get_table i (w_flowtable w')))))%nat).
Proof.
  apply (proj2 (tg_never_removes_hooks sample_ENCAP_MAX sample_FIELD_BITS all_good
                  sample_par sample_world)).
  intros dev mac. reflexivity.
Defined.

(** ** Target check and module lifecycle *)

Lemma land_lnot_mod (flags mask : Z) :
  0 <= flags < 2 ^ 32 ->
  Z.land flags (Z.lnot mask mod 2 ^ 32) = Z.ldiff flags mask.
Proof.
  intros Hf. apply Z.bits_inj'. intros n Hn.
  rewrite Z.land_spec, Z.ldiff_spec.
  destruct (Z.lt_ge_cases n 32) as [Hlt|Hge].
  - rewrite Z.mod_pow2_bits_low by lia. now rewrite Z.lnot_spec.
  - rewrite <- (Z.mod_small flags (2 ^ 32)) by lia.
    now rewrite Z.mod_pow2_bits_high by lia.
Qed.

Lemma ldiff_zero_iff (flags mask : Z) :
  Z.ldiff flags mask = 0 <-> Z.land flags mask = flags.
Proof.
  split; intros H.
  - apply Z.bits_inj'. intros n Hn.
    assert (Hb := f_equal (fun z => Z.testbit z n) H). simpl in Hb.
    rewrite Z.ldiff_spec, Z.bits_0 in Hb. rewrite Z.land_spec.
    destruct (Z.testbit flags n), (Z.testbit mask n); simpl in *; congruence.
  - apply Z.bits_inj'. intros n Hn.
    assert (Hb := f_equal (fun z => Z.testbit z n) H). simpl in Hb.
    rewrite Z.land_spec in Hb. rewrite Z.ldiff_spec, Z.bits_0.
    destruct (Z.testbit flags n), (Z.testbit mask n); simpl in *; congruence.
Qed.

(** X26.  [flowoffload_chk] returns 0 for a flag word all of whose set
    bits lie in [XT_FLOWOFFLOAD_MASK] and [-EINVAL] for every other; with
    the mask equal to [XT_FLOWOFFLOAD_HW] the flag words it accepts are 0 and
    [XT_FLOWOFFLOAD_HW]. *)
Theorem chk_accepts_known_flags (mask flags : Z) :
  0 <= flags < 2 ^ 32 ->
  (flowoffload_chk mask flags = 0 <-> Z.land flags mask = flags) /\
  (flowoffload_chk mask flags <> 0 -> flowoffload_chk mask flags = - EINVAL) /\
  (flowoffload_chk XT_FLOWOFFLOAD_HW flags = 0 <->
   flags = 0 \/ flags = XT_FLOWOFFLOAD_HW).
Proof.
  intros Hf.
  assert (G : forall m, flowoffload_chk m flags = 0 <-> Z.land flags m = flags).
  { intros m. unfold flowoffload_chk. rewrite (land_lnot_mod flags m Hf).
    rewrite <- ldiff_zero_iff.
    destruct (Z.eqb_spec (Z.ldiff flags m) 0) as [E|E]; simpl.
    - tauto.
    - split; [discriminate|contradiction]. }
  split; [apply G|]. split.
  - unfold flowoffload_chk. destruct (negb _); [reflexivity|congruence].
  - rewrite G. unfold XT_FLOWOFFLOAD_HW.
    assert (E1 : Z.land flags 1 = flags mod 2) by (apply (Z.land_ones flags 1); lia).
    rewrite E1. split.
    + intros E. assert (0 <= flags mod 2 < 2) by (apply Z.mod_pos_bound; lia). lia.
    + intros [->| ->]; reflexivity.
Qed.

(** The flag word 3 has a bit the target does not know. *)
Lemma chk_accepts_known_flags_witness :
  (flowoffload_chk XT_FLOWOFFLOAD_HW 3 = 0 <-> Z.land 3 XT_FLOWOFFLOAD_HW = 3) /\
  (flowoffload_chk XT_FLOWOFFLOAD_HW 3 <> 0 ->
   flowoffload_chk XT_FLOWOFFLOAD_HW 3 = - EINVAL) /\
  (flowoffload_chk XT_FLOWOFFLOAD_HW 3 = 0 <-> 3 = 0 \/ 3 = XT_FLOWOFFLOAD_HW).
Proof.
  apply (chk_accepts_known_flags XT_FLOWOFFLOAD_HW 3). split; [lia|reflexivity].
Defined.

Lemma tg_init_cases (rc0 rc1 rc_target : Z) (ts : flowtables) :
  xt_flowoffload_tg_init rc0 rc1 rc_target ts =
    if negb (rc0 =? 0) then
      (rc0, set_table false (set_work None (get_table false ts)) ts,
       [Mev_register_netdevice_notifier; Mev_nf_flow_table_init false rc0])
    else if negb (rc1 =? 0) then
      (rc1,
       set_table true (set_work None (get_table true ts))
         (set_table false (set_work None (get_table false ts)) ts),
       [Mev_register_netdevice_notifier; Mev_nf_flow_table_init false rc0;
        Mev_nf_flow_table_init true rc1; Mev_nf_flow_table_free false])
    else
      let ts' :=
        (set_work None ts.1,
         set_ft (set_ft_flags NF_FLOWTABLE_HW_OFFLOAD (tbl_ft ts.2))
           (set_work None ts.2)) in
      if negb (rc_target =? 0) then
        (rc_target, ts',
         [Mev_register_netdevice_notifier; Mev_nf_flow_table_init false rc0;
          Mev_nf_flow_table_init true rc1; Mev_xt_register_target rc_target;
          Mev_nf_flow_table_free true; Mev_nf_flow_table_free false])
      else
        (0, ts',
         [Mev_register_netdevice_notifier; Mev_nf_flow_table_init false rc0;
          Mev_nf_flow_table_init true rc1; Mev_xt_register_target rc_target]).
Proof.
  unfold xt_flowoffload_tg_init, init_flowtable. destruct ts as [t0 t1].
  destruct (rc0 =? 0), (rc1 =? 0), (rc_target =? 0); reflexivity.
Qed.

(** X27.  When [xt_flowoffload_tg_init] fails, it returns the code of the
    first call that failed ([nf_flow_table_init] of the first table, of the
    second table, or [xt_register_target]); every flow table it had
    initialised is freed again, the one initialised last first, and the
    target is not registered; the netdevice notifier it registered first is
    still registered.  The hook collections are untouched. *)
Theorem tg_init_failure_unwinds (rc0 rc1 rc_target : Z) (ts : flowtables) :
  let ret := (xt_flowoffload_tg_init rc0 rc1 rc_target ts).1.1 in
  let ts' := (xt_flowoffload_tg_init rc0 rc1 rc_target ts).1.2 in
  let evs := (xt_flowoffload_tg_init rc0 rc1 rc_target ts).2 in
  ret <> 0 ->
  ret = (if negb (rc0 =? 0) then rc0 else if negb (rc1 =? 0) then rc1 else rc_target) /\
  module_run nothing_held evs =
    Some {| res_notifier := true; res_target := false;
            res_table0 := false; res_table1 := false |} /\
  (negb (rc0 =? 0) = false -> negb (rc1 =? 0) = false ->
   exists pre,
     evs = pre ++ [Mev_nf_flow_table_free true; Mev_nf_flow_table_free false]) /\
  tbl_hooks ts'.1 = tbl_hooks ts.1 /\ tbl_hooks ts'.2 = tbl_hooks ts.2.
Proof.
  intros ret ts' evs. subst ret ts' evs. rewrite tg_init_cases.
  destruct (Z.eqb_spec rc0 0) as [->|H0]; simpl.
  2:{ intros _. apply Z.eqb_neq in H0. rewrite H0. destruct ts.
      repeat split; discriminate. }
  destruct (Z.eqb_spec rc1 0) as [->|H1]; simpl.
  2:{ intros _. apply Z.eqb_neq in H1. rewrite H1. destruct ts.
      repeat split; discriminate. }
  destruct (Z.eqb_spec rc_target 0) as [->|H2]; simpl.
  - intros F. contradiction.
  - intros _. apply Z.eqb_neq in H2. rewrite H2. destruct ts.
    repeat split. intros _ _. now eexists [_; _; _; _].
Qed.

(** Both tables are initialised and the registration of the target fails
    with [-ENOMEM]. *)
Lemma tg_init_failure_unwinds_witness :
  (xt_flowoffload_tg_init 0 0 (- ENOMEM) (empty_table, empty_table)).1.1 =
    (if negb (0 =? 0) then 0 else if negb (0 =? 0) then 0 else - ENOMEM) /\
  module_run nothing_held
    (xt_flowoffload_tg_init 0 0 (- ENOMEM) (empty_table, empty_table)).2 =
    Some {| res_notifier := true; res_target := false;
            res_table0 := false; res_table1 := false |} /\
  (negb (0 =? 0) = false -> negb (0 =? 0) = false ->
   exists pre,
     (xt_flowoffload_tg_init 0 0 (- ENOMEM) (empty_table, empty_table)).2 =
       pre ++ [Mev_nf_flow_table_free true; Mev_nf_flow_table_free false]) /\
  tbl_hooks (xt_flowoffload_tg_init 0 0 (- ENOMEM) (empty_table, empty_table)).1.2.1 =
    tbl_hooks (empty_table, empty_table).1 /\
  tbl_hooks (xt_flowoffload_tg_init 0 0 (- ENOMEM) (empty_table, empty_table)).1.2.2 =
    tbl_hooks (empty_table, empty_table).2.
Proof.
  apply (tg_init_failure_unwinds 0 0 (- ENOMEM) (empty_table, empty_table)).
  simpl. discriminate.
Defined.

(** X28.  [xt_flowoffload_tg_init] returns 0 only when the three calls it
    depends on have succeeded; it then holds the notifier, the target and
    both flow tables, and [xt_flowoffload_tg_exit] gives each of them back
    once, so that nothing is held after an init followed by an exit.  After
    the init the second table, and only it, is marked for hardware offload,
    the work items of both tables are idle, and the hook collections are as
    they were. *)
Theorem tg_init_then_exit (rc0 rc1 rc_target : Z) (ts : flowtables) :
  let ret := (xt_flowoffload_tg_init rc0 rc1 rc_target ts).1.1 in
  let ts' := (xt_flowoffload_tg_init rc0 rc1 rc_target ts).1.2 in
  let evs := (xt_flowoffload_tg_init rc0 rc1 rc_target ts).2 in
  ret = 0 ->
  (rc0 = 0 /\ rc1 = 0 /\ rc_target = 0) /\
  module_run nothing_held evs =
    Some {| res_notifier := true; res_target := true;
            res_table0 := true; res_table1 := true |} /\
  module_run nothing_held (evs ++ xt_flowoffload_tg_exit) = Some nothing_held /\
  ft_flags (tbl_ft ts'.2) = NF_FLOWTABLE_HW_OFFLOAD /\
  hw_offload ts'.2 = true /\
  tbl_ft ts'.1 = tbl_ft ts.1 /\
  tbl_hooks ts'.1 = tbl_hooks ts.1 /\ tbl_hooks ts'.2 = tbl_hooks ts.2 /\
  tbl_work ts'.1 = None /\ tbl_work ts'.2 = None.
Proof.
  intros ret ts' evs. subst ret ts' evs. rewrite tg_init_cases.
  destruct (Z.eqb_spec rc0 0) as [->|H0]; simpl; [|contradiction].
  destruct (Z.eqb_spec rc1 0) as [->|H1]; simpl; [|contradiction].
  destruct (Z.eqb_spec rc_target 0) as [->|H2]; simpl; [|contradiction].
  intros _. now repeat split.
Qed.

(** The three calls succeed on the tables as the loader leaves them. *)
Lemma tg_init_then_exit_witness :
  (0 = 0 /\ 0 = 0 /\ 0 = 0) /\
  module_run nothing_held (xt_flowoffload_tg_init 0 0 0 (empty_table, empty_table)).2 =
    Some {| res_notifier := true; res_target := true;
            res_table0 := true; res_table1 := true |} /\
  module_run nothing_held
    ((xt_flowoffload_tg_init 0 0 0 (empty_table, empty_table)).2 ++
     xt_flowoffload_tg_exit) = Some nothing_held /\
  ft_flags (tbl_ft (xt_flowoffload_tg_init 0 0 0 (empty_table, empty_table)).1.2.2) =
    NF_FLOWTABLE_HW_OFFLOAD /\
  hw_offload (xt_flowoffload_tg_init 0 0 0 (empty_table, empty_table)).1.2.2 = true /\
  tbl_ft (xt_flowoffload_tg_init 0 0 0 (empty_table, empty_table)).1.2.1 =
    tbl_ft (empty_table, empty_table).1 /\
  tbl_hooks (xt_flowoffload_tg_init 0 0 0 (empty_table, empty_table)).1.2.1 =
    tbl_hooks (empty_table, empty_table).1 /\
  tbl_hooks (xt_flowoffload_tg_init 0 0 0 (empty_table, empty_table)).1.2.2 =
    tbl_hooks (empty_table, empty_table).2 /\
  tbl_work (xt_flowoffload_tg_init 0 0 0 (empty_table, empty_table)).1.2.1 = None /\
  tbl_work (xt_flowoffload_tg_init 0 0 0 (empty_table, empty_table)).1.2.2 = None.
Proof.
  apply (tg_init_then_exit 0 0 0 (empty_table, empty_table)). reflexivity.
Defined.
